(** * Flingoos Web UI: session lifecycle and post-stop pipeline

    A shallow embedding of [src/web_ui/web_server.py] (class [WebUIServer]):
    the session handlers, [start_session], [stop_session], the background
    function [monitor_uploads_and_forge] and the three forge helpers.

    - Python values that cross the collaborator boundary are [pyval]s;
      dictionaries with string keys are [gmap string pyval].
    - The server object is the record [server]; everything the process does
      that an observer can see (Socket.IO emits, log records, sleeps,
      collaborator calls) is appended to one chronological trace.
    - The collaborators (bridge client, trigger generator, mock forge,
      Firestore client) live outside this repository: each call takes its
      outcome, a returned value or a raised exception, from an environment
      record, so every theorem holds for whatever they answer.
    - The background thread is a list of atomic actions over the shared
      server; a schedule decides how its actions interleave with the request
      thread after [Thread.start]. *)

From Stdlib Require Import String List ZArith QArith Bool Lia.
From stdpp Require Import base gmap strings list option.
Import ListNotations.

Set Warnings "-register-all".
Set Default Proof Using "Type".

Open Scope string_scope.
Open Scope list_scope.

(* ===================================================================== *)
(** * Python values and the operations the server applies to them *)
(* ===================================================================== *)

Module Py.

(** JSON-like Python values; a float is kept as the rational it denotes
    (the server only stores and forwards scores, it never computes). *)
Inductive pyval : Type :=
| PNone
| PBool (b : bool)
| PInt (z : Z)
| PFloat (q : Q)
| PStr (s : string)
| PList (l : list pyval)
| PDict (d : gmap string pyval).

(** An f-string: literal pieces and interpolated values. *)
Inductive frag : Type :=
| Lit (s : string)
| Fmt (v : pyval).

Definition text := list frag.

(** An instance of a subclass of [Exception]; [exn_text] is [str(e)]. *)
Record exn : Type := Exn { exn_class : string; exn_text : text }.

Inductive res (A : Type) : Type :=
| Ok (a : A)
| Raised (e : exn).
Arguments Ok {A} a.
Arguments Raised {A} e.

(** What a collaborator call does: return a value or raise. *)
Inductive outcome : Type :=
| Returns (v : pyval)
| Raises (e : exn).

(** [bool(v)] *)
Definition truthy (v : pyval) : bool :=
  match v with
  | PNone => false
  | PBool b => b
  | PInt z => negb (z =? 0)%Z
  | PFloat q => negb (Qeq_bool q 0)
  | PStr s => negb (String.eqb s "")
  | PList l => match l with [] => false | _ :: _ => true end
  | PDict d => negb (Nat.eqb (size d) 0)
  end.

(** [v is not None] *)
Definition is_not_None (v : pyval) : bool :=
  match v with PNone => false | _ => true end.

(** [type(v).__name__] *)
Definition type_name (v : pyval) : string :=
  match v with
  | PNone => "NoneType"
  | PBool _ => "bool"
  | PInt _ => "int"
  | PFloat _ => "float"
  | PStr _ => "str"
  | PList _ => "list"
  | PDict _ => "dict"
  end.

(** [needle in hay] on two strings: substring search. *)
Fixpoint str_contains (needle hay : string) : bool :=
  String.prefix needle hay ||
  match hay with
  | EmptyString => false
  | String _ hay' => str_contains needle hay'
  end.

(** [v == s] for a string literal [s] *)
Definition eq_str (v : pyval) (s : string) : bool :=
  match v with
  | PStr s' => String.eqb s' s
  | _ => false
  end.

Definition AttributeError (v : pyval) (attr : string) : exn :=
  Exn "AttributeError"
    [Lit "'"; Lit (type_name v); Lit "' object has no attribute '";
     Lit attr; Lit "'"].

Definition TypeError (msg : text) : exn := Exn "TypeError" msg.

Definition KeyError (key : string) : exn :=
  Exn "KeyError" [Fmt (PStr key)].

(** [key in c] *)
Definition contains (key : string) (c : pyval) : res bool :=
  match c with
  | PDict d => Ok (bool_decide (is_Some (d !! key)))
  | PStr s => Ok (str_contains key s)
  | PList l => Ok (existsb (fun v => eq_str v key) l)
  | _ => Raised (TypeError [Lit "argument of type '"; Lit (type_name c);
                            Lit "' is not iterable"])
  end.

(** [c[key]] with a string key. The text of the [TypeError] for a string
    is that of Python up to 3.10; later versions append the type of the
    index. *)
Definition getitem (c : pyval) (key : string) : res pyval :=
  match c with
  | PDict d => match d !! key with
               | Some v => Ok v
               | None => Raised (KeyError key)
               end
  | PStr _ => Raised (TypeError [Lit "string indices must be integers"])
  | PList _ =>
      Raised (TypeError [Lit "list indices must be integers or slices, not str"])
  | _ => Raised (TypeError [Lit "'"; Lit (type_name c);
                            Lit "' object is not subscriptable"])
  end.

(** [c.get(key, default)] *)
Definition get (c : pyval) (key : string) (default : pyval) : res pyval :=
  match c with
  | PDict d => Ok (match d !! key with Some v => v | None => default end)
  | _ => Raised (AttributeError c "get")
  end.

(** [list(c.keys())]. The keys come in the order of the map, which need
    not be the insertion order Python lists them in: only which keys are
    listed is meant, not their order. *)
Definition keys (c : pyval) : res (list string) :=
  match c with
  | PDict d => Ok (fst <$> map_to_list d)
  | _ => Raised (AttributeError c "keys")
  end.

Definition of_option (o : option string) : pyval :=
  match o with Some s => PStr s | None => PNone end.

End Py.
Import Py.

(* ===================================================================== *)
(** * The server object, the trace and the collaborators *)
(* ===================================================================== *)

(** A [datetime], as seconds on some clock. *)
Definition datetime := Z.

(** One entry of [upload_status['steps']]. *)
Record step_entry : Type := Step { message : string; status : string }.

(** The dictionary [self.upload_status]. *)
Record UploadStatus : Type := Status {
  current_step : string;
  is_uploading : bool;
  steps : list step_entry
}.

(** The mutable attributes of [WebUIServer] that the session code touches.
    [command_client] is [true] once a [BridgeClient] has been created. *)
Record server : Type := Server {
  session_active : bool;
  session_start_time : option datetime;
  session_id : option string;
  command_client : bool;
  upload_status : UploadStatus;
  current_workflow : pyval
}.

(** [WebUIServer.__init__] *)
Definition init_server : server :=
  {| session_active := false;
     session_start_time := None;
     session_id := None;
     command_client := false;
     upload_status :=
       {| current_step := "Waiting for session...";
          is_uploading := false;
          steps := [] |};
     current_workflow := PNone |}.

Definition set_session_active (b : bool) (s : server) : server :=
  Server b (session_start_time s) (session_id s) (command_client s)
         (upload_status s) (current_workflow s).
Definition set_session_start_time (t : option datetime) (s : server) : server :=
  Server (session_active s) t (session_id s) (command_client s)
         (upload_status s) (current_workflow s).
Definition set_session_id (i : option string) (s : server) : server :=
  Server (session_active s) (session_start_time s) i (command_client s)
         (upload_status s) (current_workflow s).
Definition set_command_client (c : bool) (s : server) : server :=
  Server (session_active s) (session_start_time s) (session_id s) c
         (upload_status s) (current_workflow s).
Definition set_upload_status (u : UploadStatus) (s : server) : server :=
  Server (session_active s) (session_start_time s) (session_id s)
         (command_client s) u (current_workflow s).
Definition set_current_workflow (w : pyval) (s : server) : server :=
  Server (session_active s) (session_start_time s) (session_id s)
         (command_client s) (upload_status s) w.

(** ** Observable effects *)

(** [emit] inside a Socket.IO handler answers the calling client;
    [self.socketio.emit] reaches every connected client. *)
Inductive channel : Type := ToCaller | Broadcast.

Inductive payload : Type :=
| ErrorPayload (error : text)
| SessionPayload (sid : option string) (msg : string)
| StatusPayload (st : UploadStatus)
| WorkflowPayload (wf : pyval)
| CompletePayload (msg : string) (has_workflow : bool).

Inductive level : Type := INFO | WARNING | ERROR.

(** Calls into the collaborators, with the arguments the server passes. *)
Inductive call : Type :=
| CallBridgeClient
| CallStartAudioRecording
| CallStopAudioRecording
| CallIsBridgeRunning
| CallGenerateTriggerJson (sid : option string)
                          (start_time : option datetime) (end_time : datetime)
| CallSaveTriggerToFile (trigger_json : pyval) (trigger_file : text)
| CallProcessSession (sid : option string) (version : string)
                     (timestamp : datetime)
| CallGetRandomPublishedWorkflow (cohort : string).

Inductive effect : Type :=
| Emit (ch : channel) (event : string) (data : payload)
| Log (lvl : level) (msg : text)
| Sleep (seconds : nat)
| Call (c : call)
| Uncaught (e : exn).

(** ** Collaborator outcomes *)

(** What the collaborators answer during one run of the background
    pipeline. *)
Record pipeline_env : Type := PipelineEnv {
  now_trigger : datetime;
  ret_generate_trigger_json : outcome;
  ret_save_trigger_to_file : outcome;
  now_forge : datetime;
  ret_process_session : outcome;
  ret_get_random_published_workflow : outcome
}.

(** ... during one [start_session]: the [BridgeClient] constructor may
    raise ([Some e]), [uuid4] is [str(uuid.uuid4())]. *)
Record start_env : Type := StartEnv {
  ret_BridgeClient : option exn;
  ret_start_audio_recording : outcome;
  now_start : datetime;
  uuid4 : string
}.

(** ... during one [stop_session]. *)
Record stop_env : Type := StopEnv {
  ret_stop_audio_recording : outcome;
  pipeline : pipeline_env
}.

(** ** The process *)

(** Variables local to one run of [monitor_uploads_and_forge]. *)
Record locals : Type := Locals {
  l_session_start_time : option datetime;
  l_session_id : option string;
  completed_steps : list step_entry
}.

(** A started background thread: its collaborator outcomes, its local
    variables and the index of its next atomic action. *)
Record thread : Type := Thread {
  th_env : pipeline_env;
  th_locals : locals;
  th_pc : nat
}.

(** The whole process: the server object, the trace so far (oldest first),
    the background threads in start order, and the schedule: at every
    preemption point of the request thread the next entry lists the
    background threads (by index) that take one step each, in that order. *)
Record world : Type := World {
  srv : server;
  out : list effect;
  pool : list thread;
  sched : list (list nat)
}.

Definition set_srv (s : server) (w : world) : world :=
  World s (out w) (pool w) (sched w).
Definition add_out (e : effect) (w : world) : world :=
  World (srv w) (out w ++ [e]) (pool w) (sched w).
Definition set_pool (p : list thread) (w : world) : world :=
  World (srv w) (out w) p (sched w).
Definition set_sched (sc : list (list nat)) (w : world) : world :=
  World (srv w) (out w) (pool w) sc.

(** ** A state-and-exception monad for Python statements *)

Definition M (A : Type) : Type := world -> res A * world.

Definition ret {A} (a : A) : M A := fun w => (Ok a, w).

Definition bind {A B} (m : M A) (k : A -> M B) : M B :=
  fun w => match m w with
           | (Ok a, w') => k a w'
           | (Raised e, w') => (Raised e, w')
           end.

Declare Scope py_scope.
Delimit Scope py_scope with py.
Notation "x <- m ;; k" := (bind m (fun x => k))
  (at level 100, m at next level, right associativity) : py_scope.
Notation "m ;; k" := (bind m (fun _ => k))
  (at level 100, right associativity) : py_scope.
Open Scope py_scope.

(** [raise e] *)
Definition raise {A} (e : exn) : M A := fun w => (Raised e, w).

(** [try: body  except Exception as e: handler e] *)
Definition try_except {A} (body : M A) (handler : exn -> M A) : M A :=
  fun w => match body w with
           | (Ok a, w') => (Ok a, w')
           | (Raised e, w') => handler e w'
           end.

(** [self.attr] *)
Definition self {A} (attr : server -> A) : M A := fun w => (Ok (attr (srv w)), w).

(** [self.attr = v], through the setter of [attr] *)
Definition assign (upd : server -> server) : M unit :=
  fun w => (Ok tt, set_srv (upd (srv w)) w).

Definition perform (e : effect) : M unit := fun w => (Ok tt, add_out e w).

Definition emit (ch : channel) (event : string) (data : payload) : M unit :=
  perform (Emit ch event data).
Definition logger (lvl : level) (msg : text) : M unit := perform (Log lvl msg).
Definition sleep (seconds : nat) : M unit := perform (Sleep seconds).

(** A collaborator call: recorded, then it returns or raises. *)
Definition invoke (c : call) (o : outcome) : M pyval :=
  perform (Call c);;
  match o with
  | Returns v => ret v
  | Raises e => raise e
  end.

(** A Python operation that may raise. *)
Definition py {A} (r : res A) : M A := fun w => (r, w).

(* ===================================================================== *)
(** * The forge helpers (steps 6, 7 and 10 of the pipeline) *)
(* ===================================================================== *)

(** A dictionary display [{k1: v1, ...}]. *)
Definition dict (items : list (string * pyval)) : pyval :=
  PDict (list_to_map items).

(** The line feed of a Python [\n]. *)
Definition nl : string := String (Ascii.ascii_of_nat 10) EmptyString.

(** [WebUIServer._execute_forge_trigger_generation] *)
Definition _execute_forge_trigger_generation (env : pipeline_env)
    (session_id : option string) (session_start_time : option datetime)
    : M unit :=
  try_except
    (let end_time := now_trigger env in
     trigger_json <- invoke
       (CallGenerateTriggerJson session_id session_start_time end_time)
       (ret_generate_trigger_json env);;
     let trigger_file :=
       [Lit "trigger_"; Fmt (of_option session_id); Lit ".json"] in
     invoke (CallSaveTriggerToFile trigger_json trigger_file)
            (ret_save_trigger_to_file env);;
     logger INFO [Lit "Generated forge trigger for session ";
                  Fmt (of_option session_id)])
    (fun e => logger ERROR (Lit "Error generating forge trigger: " :: exn_text e)).

(** [WebUIServer._execute_forge_processing] *)
Definition _execute_forge_processing (env : pipeline_env)
    (session_id : option string) : M unit :=
  try_except
    (forge_response <- invoke
       (CallProcessSession session_id "1.0" (now_forge env))
       (ret_process_session env);;
     logger INFO [Lit "Forge processing response: "; Fmt forge_response];;
     st <- py (get forge_response "status" PNone);;
     if negb (eq_str st "completed") then
       err <- py (get forge_response "error" (PStr "Unknown error"));;
       logger ERROR [Lit "Forge processing failed: "; Fmt err]
     else ret tt)
    (fun e => logger ERROR (Lit "Error in forge processing: " :: exn_text e)).

(** The hard-coded fallback workflow. *)
Definition fallback_guide : string :=
  "# Sample Workflow Guide" +:+ nl +:+ nl +:+
  "This is a fallback workflow when Firestore data is not available." +:+
  nl +:+ nl +:+ "## Steps" +:+ nl +:+ "1. Review the session data" +:+ nl +:+
  "2. Analyze patterns" +:+ nl +:+ "3. Generate insights".

Definition fallback_workflow : pyval :=
  dict [("workflow",
         dict [("title", PStr "Sample Workflow");
               ("id", PStr "fallback-001");
               ("score", PFloat 0.85);
               ("guide_markdown", PStr fallback_guide)]);
        ("source", PStr "fallback")].

(** [WebUIServer._retrieve_workflow_from_firestore] *)
Definition _retrieve_workflow_from_firestore (env : pipeline_env)
    (session_id : option string) : M unit :=
  try_except
    (workflow_data <- invoke (CallGetRandomPublishedWorkflow "diligent4")
                            (ret_get_random_published_workflow env);;
     has_key <- (if truthy workflow_data
                then py (contains "workflow_data" workflow_data)
                else ret false);;
     if has_key then
       workflow_info <- py (getitem workflow_data "workflow_data");;
       title <- py (get workflow_info "title" (PStr "Unknown Workflow"));;
       id <- py (get workflow_data "workflow_id" (PStr "unknown"));;
       score <- py (get workflow_info "productivity_score" (PFloat 0));;
       guide_markdown <- py (get workflow_info "guide_markdown" (PStr ""));;
       firestore_url <- py (get workflow_data "firestore_url" (PStr ""));;
       source <- py (get workflow_data "source" (PStr "firestore"));;
       assign (set_current_workflow
         (dict [("workflow",
                 dict [("title", title);
                       ("id", id);
                       ("score", score);
                       ("guide_markdown", guide_markdown);
                       ("firestore_url", firestore_url)]);
                ("source", source)]));;
       workflow_title <- py (get workflow_info "title" (PStr "Unknown Workflow"));;
       logger INFO [Lit "Retrieved workflow: "; Fmt workflow_title];;
       guide <- py (get workflow_info "guide_markdown" PNone);;
       logger INFO [Lit "Workflow has guide_markdown: ";
                    Fmt (PBool (truthy guide))]
     else
       data_keys <- (if truthy workflow_data
                    then ks <- py (keys workflow_data);;
                         ret (PList (PStr <$> ks))
                    else ret (PStr "None"));;
       logger ERROR
         [Lit "Failed to retrieve workflow from Firestore. Data keys: ";
          Fmt data_keys];;
       assign (set_current_workflow fallback_workflow))
    (fun e => logger ERROR (Lit "Error retrieving workflow: " :: exn_text e)).

(* ===================================================================== *)
(** * The background pipeline *)
(* ===================================================================== *)

(** An entry of [upload_steps] or [forge_steps]. *)
Record step_spec : Type := Spec { step_message : string; duration : nat }.

Definition upload_steps : list step_spec :=
  [Spec "Uploading audio..." 3;
   Spec "Uploading screenshots..." 2;
   Spec "Uploading telemetry (mouse, keyboard, window changes)..." 4;
   Spec "Verifying uploads..." 2].

Definition forge_steps : list step_spec :=
  [Spec "Generating forge trigger JSON..." 1;
   Spec "Triggering forge processing pipeline..." 2;
   Spec "Processing workflow (stages A-F)..." 5;
   Spec "Uploading results to Firestore..." 2;
   Spec "Retrieving processed workflow..." 1].

(** One atomic action of the background thread: it may read and update the
    thread's local variables and the shared server. *)
Definition action := locals -> M locals.

Definition set_completed_steps (c : list step_entry) (l : locals) : locals :=
  Locals (l_session_start_time l) (l_session_id l) c.

(** [completed_steps.append({'message': m, 'status': 'completed'})] *)
Definition append_completed (m : string) : action :=
  fun l => ret (set_completed_steps (completed_steps l ++ [Step m "completed"]) l).

(** [self.upload_status = {'current_step': ..., 'is_uploading': True,
    'steps': completed_steps + [{'message': ..., 'status': 'uploading'}]}] *)
Definition announce (step : step_spec) : action :=
  fun l =>
    let current_steps :=
      completed_steps l ++ [Step (step_message step) "uploading"] in
    assign (set_upload_status
              (Status (step_message step) true current_steps));;
    ret l.

(** [self.socketio.emit('upload_status_update', self.upload_status)] *)
Definition emit_upload_status : action :=
  fun l =>
    st <- self upload_status;;
    emit Broadcast "upload_status_update" (StatusPayload st);;
    ret l.

(** [time.sleep(n)] *)
Definition pause (n : nat) : action := fun l => sleep n;; ret l.

(** The body of [for step in upload_steps]. *)
Definition upload_iteration (step : step_spec) : list action :=
  [announce step;
   emit_upload_status;
   pause (duration step);
   append_completed (step_message step)].

(** The [if]/[elif] chain on the step's message in the forge loop. *)
Definition execute_forge_step (env : pipeline_env) (step : step_spec) : action :=
  fun l =>
    (if str_contains "Generating forge trigger" (step_message step) then
       _execute_forge_trigger_generation env
         (l_session_id l) (l_session_start_time l)
     else if str_contains "Triggering forge processing" (step_message step) then
       _execute_forge_processing env (l_session_id l)
     else if str_contains "Retrieving processed workflow" (step_message step) then
       _retrieve_workflow_from_firestore env (l_session_id l)
     else sleep (duration step));;
    ret l.

(** The body of [for step in forge_steps]. *)
Definition forge_iteration (env : pipeline_env) (step : step_spec) : list action :=
  [announce step;
   emit_upload_status;
   execute_forge_step env step;
   append_completed (step_message step)].

(** [monitor_uploads_and_forge], the target of the background thread, one
    atomic action per statement. *)
Definition monitor_uploads_and_forge (env : pipeline_env) : list action :=
  [ (fun l => t <- self session_start_time;;
              ret (Locals t (l_session_id l) (completed_steps l)));
    (fun l => i <- self session_id;;
              ret (Locals (l_session_start_time l) i (completed_steps l)));
    (fun l => assign (set_upload_status
                (Status "Starting data flush..." true
                        [Step "Starting data flush..." "uploading"]));;
              ret l);
    emit_upload_status;
    pause 1;
    (fun l => ret (set_completed_steps
                      [Step "Starting data flush..." "completed"] l)) ]
  ++ flat_map upload_iteration upload_steps
  ++ [ append_completed "All uploads completed successfully!" ]
  ++ flat_map (forge_iteration env) forge_steps
  ++ [ append_completed "Workflow processing completed! Ready to view results.";
       (fun l => assign (set_upload_status
                   (Status "Processing complete" false (completed_steps l)));;
                 ret l);
       emit_upload_status;
       (fun l => wf <- self current_workflow;;
                 (if truthy wf
                  then emit Broadcast "workflow_ready" (WorkflowPayload wf)
                  else ret tt);;
                 ret l);
       pause 3;
       (fun l => wf <- self current_workflow;;
                 emit Broadcast "upload_complete"
                   (CompletePayload "All processing completed successfully!"
                                    (is_not_None wf));;
                 ret l) ].

(** Local variables of a thread that has not run yet (all unbound). *)
Definition fresh_locals : locals := Locals None None [].

(** Running a list of actions without interruption: the first uncaught
    exception ends the thread. *)
Fixpoint run_actions (acts : list action) (l : locals) : M locals :=
  match acts with
  | [] => ret l
  | a :: acts' => l' <- a l;; run_actions acts' l'
  end.

(** One whole run of the pipeline with nothing else running. *)
Definition run_pipeline (env : pipeline_env) : M locals :=
  run_actions (monitor_uploads_and_forge env) fresh_locals.

(* ===================================================================== *)
(** * Threads and scheduling *)
(* ===================================================================== *)

(** Thread [i] takes one atomic step (nothing happens when there is no such
    thread or it has finished). An uncaught exception ends the thread. *)
Definition step_thread (w : world) (i : nat) : world :=
  match pool w !! i with
  | None => w
  | Some t =>
      let code := monitor_uploads_and_forge (th_env t) in
      match (code !! th_pc t : option action) with
      | None => w
      | Some a =>
          match a (th_locals t) w with
          | (Ok l', w') =>
              set_pool (<[i := Thread (th_env t) l' (S (th_pc t))]> (pool w')) w'
          | (Raised e, w') =>
              let w'' := add_out (Uncaught e) w' in
              set_pool (<[i := Thread (th_env t) (th_locals t) (length code)]>
                          (pool w'')) w''
          end
      end
  end.

(** The background threads named in [picks] take one step each. *)
Definition run_background (picks : list nat) (w : world) : world :=
  foldl step_thread w picks.

(** A preemption point of the request thread. *)
Definition yield : M unit :=
  fun w => match sched w with
           | [] => (Ok tt, w)
           | picks :: rest => (Ok tt, run_background picks (set_sched rest w))
           end.

(** A thread is finished when it has run all its actions. *)
Definition finished (t : thread) : Prop :=
  length (monitor_uploads_and_forge (th_env t)) <= th_pc t.

(** No pipeline is in flight. *)
Definition quiescent (w : world) : Prop := Forall finished (pool w).

(** Thread [i] runs to its end. *)
Definition finish_thread (i : nat) (w : world) : world :=
  match pool w !! i with
  | None => w
  | Some t =>
      run_background
        (replicate (length (monitor_uploads_and_forge (th_env t)) - th_pc t) i) w
  end.

(** Every started thread runs to its end, oldest first. *)
Definition drain (w : world) : world :=
  foldl (fun w i => finish_thread i w) w (seq 0 (length (pool w))).

(* ===================================================================== *)
(** * Session control *)
(* ===================================================================== *)

Definition ValueError (msg : string) : exn := Exn "ValueError" [Lit msg].

(** [WebUIServer.start_session] *)
Definition start_session (env : start_env) : M unit :=
  active <- self session_active;;
  if active then raise (ValueError "Session is already active") else
  logger INFO [Lit "Starting session via audio start command"];;
  client <- self command_client;;
  (if negb client then
     perform (Call CallBridgeClient);;
     match ret_BridgeClient env with
     | Some e => raise e
     | None => assign (set_command_client true)
     end
   else ret tt);;
  result <- invoke CallStartAudioRecording (ret_start_audio_recording env);;
  success <- py (get result "success" (PBool false));;
  if negb (truthy success) then
    error <- py (get result "error" (PStr "Unknown error"));;
    raise (Exn "RuntimeError" [Lit "Failed to start session: "; Fmt error])
  else
  assign (set_session_active true);;
  assign (set_session_start_time (Some (now_start env)));;
  assign (set_session_id (Some (uuid4 env)));;
  logger INFO [Lit "Session started successfully with ID: ";
               Fmt (PStr (uuid4 env))].

(** [WebUIServer._start_upload_monitoring]: the thread is created and
    started; its body is [monitor_uploads_and_forge]. *)
Definition _start_upload_monitoring (env : pipeline_env) : M unit :=
  fun w => (Ok tt, set_pool (pool w ++ [Thread env fresh_locals 0]) w).

(** [WebUIServer.stop_session]. From [Thread.start] on, the background
    thread may run between any two statements. *)
Definition stop_session (env : stop_env) : M unit :=
  active <- self session_active;;
  if negb active then raise (ValueError "No active session to stop") else
  logger INFO [Lit "Stopping session via audio stop command"];;
  client <- self command_client;;
  (if client then
     result <- invoke CallStopAudioRecording (ret_stop_audio_recording env);;
     success <- py (get result "success" (PBool false));;
     if negb (truthy success) then
       error <- py (get result "error" (PStr "Unknown error"));;
       logger WARNING [Lit "Audio stop command failed: "; Fmt error]
     else ret tt
   else ret tt);;
  _start_upload_monitoring (pipeline env);;
  yield;;
  assign (set_session_active false);;
  yield;;
  assign (set_session_start_time None);;
  yield;;
  assign (set_session_id None);;
  yield;;
  logger INFO [Lit "Session stopped successfully"].

(** ** Socket.IO handlers *)

(** [handle_start_session] *)
Definition handle_start_session (env : start_env) : M unit :=
  try_except
    (active <- self session_active;;
     if active then
       emit ToCaller "session_error" (ErrorPayload [Lit "Session is already active"])
     else
       start_session env;;
       sid <- self session_id;;
       emit ToCaller "session_started"
            (SessionPayload sid "Session started successfully"))
    (fun e =>
       logger ERROR (Lit "Error starting session: " :: exn_text e);;
       emit ToCaller "session_error" (ErrorPayload (exn_text e))).

(** [handle_stop_session] *)
Definition handle_stop_session (env : stop_env) : M unit :=
  try_except
    (active <- self session_active;;
     if negb active then
       emit ToCaller "session_error" (ErrorPayload [Lit "No active session to stop"])
     else
       sid <- self session_id;;
       emit ToCaller "session_stopped"
            (SessionPayload sid "Session stopped, processing workflow...");;
       stop_session env)
    (fun e =>
       logger ERROR (Lit "Error stopping session: " :: exn_text e);;
       emit ToCaller "session_error" (ErrorPayload (exn_text e))).

(** ** HTTP routes *)

(** The JSON body of a response. *)
Inductive body : Type :=
| ErrorBody (error : text)
| SessionBody (sid : option string) (msg : string)
| StatusBody (active : bool) (sid : option string)
             (bridge_connected : pyval) (has_workflow : bool).

(** [jsonify(...)] with its status code; ["success"] is [true] in a
    [SessionBody] or [StatusBody] and [false] in an [ErrorBody]. *)
Record response : Type := Response { code : nat; json : body }.

Definition success (r : response) : bool :=
  match json r with ErrorBody _ => false | _ => true end.

(** [api_start_session] *)
Definition api_start_session (env : start_env) : M response :=
  try_except
    (active <- self session_active;;
     if active then
       ret (Response 400 (ErrorBody [Lit "Session is already active"]))
     else
       start_session env;;
       sid <- self session_id;;
       ret (Response 200 (SessionBody sid "Session started successfully")))
    (fun e =>
       logger ERROR (Lit "Error starting session: " :: exn_text e);;
       ret (Response 500 (ErrorBody (exn_text e)))).

(** [api_stop_session] *)
Definition api_stop_session (env : stop_env) : M response :=
  try_except
    (active <- self session_active;;
     if negb active then
       ret (Response 400 (ErrorBody [Lit "No active session to stop"]))
     else
       stop_session env;;
       yield;;
       sid <- self session_id;;
       ret (Response 200
              (SessionBody sid "Session stopped, processing workflow...")))
    (fun e =>
       logger ERROR (Lit "Error stopping session: " :: exn_text e);;
       ret (Response 500 (ErrorBody (exn_text e)))).

(** [api_get_status]; [bridge] is what [is_bridge_running()] answers. *)
Definition api_get_status (bridge : outcome) : M response :=
  try_except
    (client <- self command_client;;
     bridge_status <- (if client then invoke CallIsBridgeRunning bridge
                       else ret (PBool false));;
     active <- self session_active;;
     sid <- self session_id;;
     wf <- self current_workflow;;
     ret (Response 200 (StatusBody active sid bridge_status (is_not_None wf))))
    (fun e => ret (Response 500 (ErrorBody (exn_text e)))).

(* ===================================================================== *)
(** * Vocabulary: traces, footprints, invariants and sample inputs *)
(* ===================================================================== *)

(** The progress snapshot carried by an effect, if it is an
    [upload_status_update] emit. *)
Definition snapshot_of (e : effect) : option UploadStatus :=
  match e with
  | Emit _ event (StatusPayload st) =>
      if String.eqb event "upload_status_update" then Some st else None
  | _ => None
  end.

(** The progress snapshots of a trace, oldest first. *)
Definition snapshots (tr : list effect) : list UploadStatus := omap snapshot_of tr.

(** Is [e] an emit of the event called [name]? *)
Definition is_event (name : string) (e : effect) : bool :=
  match e with
  | Emit _ event _ => String.eqb event name
  | _ => false
  end.

(** What [w'] added to the trace of [w]. *)
Definition new_effects (w w' : world) : list effect :=
  drop (length (out w)) (out w').


Definition pipeline_events : list string :=
  ["upload_status_update"; "workflow_ready"; "upload_complete"].

(** The effects a background thread can have: broadcasts of the three
    pipeline events, log records, sleeps and collaborator calls. *)
Definition bg_effect (e : effect) : Prop :=
  match e with
  | Emit Broadcast event _ => event ∈ pipeline_events
  | Emit ToCaller _ _ => False
  | Log _ _ | Sleep _ | Call _ => True
  | Uncaught _ => False
  end.

(** Effects that are neither emits nor failures. *)
Definition silent (e : effect) : Prop :=
  match e with
  | Log _ _ | Sleep _ | Call _ => True
  | _ => False
  end.

(** [s'] has the session attributes of [s]. *)
Definition same_session (s s' : server) : Prop :=
  session_active s' = session_active s /\
  session_start_time s' = session_start_time s /\
  session_id s' = session_id s /\
  command_client s' = command_client s.

(** [w'] is [w] after a computation that appended [es] to the trace and
    touched neither the threads nor the schedule. *)
Definition grows (w w' : world) (es : list effect) : Prop :=
  out w' = out w ++ es /\ pool w' = pool w /\ sched w' = sched w.

(** What the progress feed depends on: the thread's [completed_steps] and
    the shared [upload_status]. *)
Record view : Type := View {
  v_completed : list step_entry;
  v_status : UploadStatus
}.

Definition view_of (l : locals) (w : world) : view :=
  View (completed_steps l) (upload_status (srv w)).

(** The footprint of one action on the feed: the next view, the snapshots
    it broadcasts, and whether it may assign [current_workflow]. *)
Record footprint : Type := Footprint {
  next : view -> view;
  shown : view -> list UploadStatus;
  writes_workflow : bool
}.

Definition keep : footprint := Footprint (fun v => v) (fun _ => []) false.

Definition fp_append (m : string) : footprint :=
  Footprint (fun v => View (v_completed v ++ [Step m "completed"]) (v_status v))
            (fun _ => []) false.

Definition fp_announce (step : step_spec) : footprint :=
  Footprint
    (fun v => View (v_completed v)
                (Status (step_message step) true
                   (v_completed v ++ [Step (step_message step) "uploading"])))
    (fun _ => []) false.

Definition fp_show : footprint :=
  Footprint (fun v => v) (fun v => [v_status v]) false.

(** Does the [if]/[elif] chain of the forge loop reach the retrieval? *)
Definition dispatches_retrieval (step : step_spec) : bool :=
  negb (str_contains "Generating forge trigger" (step_message step)) &&
  negb (str_contains "Triggering forge processing" (step_message step)) &&
  str_contains "Retrieving processed workflow" (step_message step).

Definition fp_execute (step : step_spec) : footprint :=
  Footprint (fun v => v) (fun _ => []) (dispatches_retrieval step).

Definition upload_iteration_fp (step : step_spec) : list footprint :=
  [fp_announce step; fp_show; keep; fp_append (step_message step)].

Definition forge_iteration_fp (step : step_spec) : list footprint :=
  [fp_announce step; fp_show; fp_execute step; fp_append (step_message step)].

(** The footprints of [monitor_uploads_and_forge], action by action. *)
Definition monitor_footprints : list footprint :=
  [ keep;
    keep;
    Footprint (fun v => View (v_completed v)
                          (Status "Starting data flush..." true
                                  [Step "Starting data flush..." "uploading"]))
              (fun _ => []) false;
    fp_show;
    keep;
    Footprint (fun v => View [Step "Starting data flush..." "completed"]
                             (v_status v))
              (fun _ => []) false ]
  ++ flat_map upload_iteration_fp upload_steps
  ++ [ fp_append "All uploads completed successfully!" ]
  ++ flat_map forge_iteration_fp forge_steps
  ++ [ fp_append "Workflow processing completed! Ready to view results.";
       Footprint (fun v => View (v_completed v)
                             (Status "Processing complete" false (v_completed v)))
                 (fun _ => []) false;
       fp_show;
       keep;
       keep;
       keep ].

(** The view after a list of footprints, and the snapshots shown on the
    way. *)
Definition run_next (fps : list footprint) (v : view) : view :=
  foldl (fun v fp => next fp v) v fps.

Fixpoint run_shown (fps : list footprint) (v : view) : list UploadStatus :=
  match fps with
  | [] => []
  | fp :: fps' => shown fp v ++ run_shown fps' (next fp v)
  end.

(** The action [a] has the footprint [fp]: it returns normally, appends
    only background effects, leaves the session attributes, the threads and
    the schedule alone, and moves the view and shows snapshots as [fp]
    says. *)
Definition has_footprint (a : action) (fp : footprint) : Prop :=
  forall l w, exists l' w' es,
    a l w = (Ok l', w')
    /\ grows w w' es
    /\ same_session (srv w) (srv w')
    /\ view_of l' w' = next fp (view_of l w)
    /\ snapshots es = shown fp (view_of l w)
    /\ Forall bg_effect es
    /\ (writes_workflow fp = false ->
        current_workflow (srv w') = current_workflow (srv w)).

(** The snapshots every pipeline run broadcasts. *)
Definition pipeline_snapshots : list UploadStatus :=
  run_shown monitor_footprints (View [] (upload_status init_server)).

Definition no_workflow_write (fps : list footprint) : Prop :=
  Forall (fun fp => writes_workflow fp = false) fps.

(** [w'] is [w] after background threads ran: they appended [es], kept the
    number of threads, the schedule and the session attributes. *)
Definition bg_run (w w' : world) (es : list effect) : Prop :=
  out w' = out w ++ es /\ sched w' = sched w /\
  length (pool w') = length (pool w) /\
  same_session (srv w) (srv w') /\ Forall bg_effect es.

(** The event that ends a pipeline run. *)
Definition upload_complete_event (wf : pyval) : effect :=
  Emit Broadcast "upload_complete"
    (CompletePayload "All processing completed successfully!" (is_not_None wf)).

(** Thread [n] runs the pipeline of [env]; it has done its first [k]
    actions; since the trace was [base] only background effects and the
    request thread's log records were added, and every other thread has
    finished. [v0] is the view the thread started from. Once the thread is
    through, its [upload_complete] event is in the trace, it reports the
    stored workflow, and only log records follow it. *)
Definition tracking (n : nat) (env : pipeline_env) (base : list effect)
    (v0 : view) (k : nat) (w : world) : Prop :=
  exists t es,
    pool w !! n = Some t /\ th_env t = env /\ th_pc t = k /\ k <= 49
    /\ out w = base ++ es /\ Forall bg_effect es
    /\ view_of (th_locals t) w = run_next (take k monitor_footprints) v0
    /\ snapshots es = run_shown (take k monitor_footprints) v0
    /\ (forall i t', i <> n -> pool w !! i = Some t' -> finished t')
    /\ (k = 49 -> exists before after,
          es = before ++ upload_complete_event (current_workflow (srv w)) :: after
          /\ Forall silent after).

(** The statements of [stop_session] after the background thread was
    started. *)
Definition stop_session_rest : M unit :=
  yield;;
  assign (set_session_active false);;
  yield;;
  assign (set_session_start_time None);;
  yield;;
  assign (set_session_id None);;
  yield;;
  logger INFO [Lit "Session stopped successfully"].

(** The world right after [Thread.start] in a [stop_session] that got so
    far, having appended [es] to the trace. *)
Definition started (env : stop_env) (w : world) (es : list effect) : world :=
  World (srv w) (out w ++ es)
        (pool w ++ [Thread (pipeline env) fresh_locals 0]) (sched w).

(** The audio stop command of [stop_session], issued when a bridge
    client exists. *)
Definition stop_audio (env : stop_env) : M unit :=
  result <- invoke CallStopAudioRecording (ret_stop_audio_recording env);;
  success <- py (get result "success" (PBool false));;
  if negb (truthy success) then
    error <- py (get result "error" (PStr "Unknown error"));;
    logger WARNING [Lit "Audio stop command failed: "; Fmt error]
  else ret tt.

Definition call_retrieve : effect :=
  Call (CallGetRandomPublishedWorkflow "diligent4").

(** [d.get(k, default)] on a dictionary. *)
Definition dict_get (d : gmap string pyval) (k : string) (default : pyval) : pyval :=
  match d !! k with Some v => v | None => default end.

(** The result the server stores for a well-formed response [d] whose
    ['workflow_data'] is [info]. *)
Definition stored_workflow (d info : gmap string pyval) : pyval :=
  dict [("workflow",
         dict [("title", dict_get info "title" (PStr "Unknown Workflow"));
               ("id", dict_get d "workflow_id" (PStr "unknown"));
               ("score", dict_get info "productivity_score" (PFloat 0));
               ("guide_markdown", dict_get info "guide_markdown" (PStr ""));
               ("firestore_url", dict_get d "firestore_url" (PStr ""))]);
        ("source", dict_get d "source" (PStr "firestore"))].

Definition retrieval_step : step_spec := Spec "Retrieving processed workflow..." 1.

(** The events that close a run, given the stored workflow [wf]. *)
Definition closing_events (st : UploadStatus) (wf : pyval) : list effect :=
  Emit Broadcast "upload_status_update" (StatusPayload st)
  :: (if truthy wf then [Emit Broadcast "workflow_ready" (WorkflowPayload wf)]
      else [])
  ++ [Sleep 3;
      Emit Broadcast "upload_complete"
        (CompletePayload "All processing completed successfully!"
                         (is_not_None wf))].

Definition final_status (l : locals) : UploadStatus :=
  Status "Processing complete" false
    (completed_steps l ++
     [Step "Retrieving processed workflow..." "completed";
      Step "Workflow processing completed! Ready to view results." "completed"]).

(** ['source'] of a stored workflow result. *)
Definition workflow_source (wf : pyval) : option pyval :=
  match wf with
  | PDict d => d !! "source"
  | _ => None
  end.

(** A field of the ['workflow'] dictionary of a stored result. *)
Definition workflow_field (wf : pyval) (k : string) : option pyval :=
  match wf with
  | PDict d => match d !! "workflow" with
               | Some (PDict f) => f !! k
               | _ => None
               end
  | _ => None
  end.

Definition nonempty_text (o : option pyval) : Prop :=
  exists t, o = Some (PStr t) /\ t <> "".

(** A fallback result: source ['fallback'], non-empty title and guide. *)
Definition is_fallback_result (wf : pyval) : Prop :=
  workflow_source wf = Some (PStr "fallback")
  /\ nonempty_text (workflow_field wf "title")
  /\ nonempty_text (workflow_field wf "guide_markdown").

(** The retrieval returned nothing usable: a falsy value, or a dictionary
    without the ['workflow_data'] key. *)
Definition absent (v : pyval) : Prop :=
  truthy v = false \/ exists d, v = PDict d /\ d !! "workflow_data" = None.

(** The error half of the fallback policy as the specification words it:
    when the retrieval call raises, the stored result is a fallback. *)
Definition fallback_on_error (env : pipeline_env) (sid : option string)
    (w : world) : Prop :=
  forall e, ret_get_random_published_workflow env = Raises e ->
    is_fallback_result
      (current_workflow (srv (_retrieve_workflow_from_firestore env sid w).2)).


(** The labels the pipeline reports as completed: the plan and the two
    summary entries. *)
Definition reported_plan : list string :=
  "Starting data flush..."
  :: (step_message <$> upload_steps)
  ++ ["All uploads completed successfully!"]
  ++ (step_message <$> forge_steps)
  ++ ["Workflow processing completed! Ready to view results."].



(** Every element of the list is related to each later one. *)
Fixpoint ordered_by {A} (R : A -> A -> Prop) (l : list A) : Prop :=
  match l with
  | [] => True
  | x :: l' => Forall (R x) l' /\ ordered_by R l'
  end.

(** A snapshot [s1] followed, later in the feed, by [s2]: what [s1] shows
    as completed is an initial segment of what [s2] shows, [s2] shows more
    entries, and [s1] was broadcast while the pipeline was active. *)
Definition feed_step (s1 s2 : UploadStatus) : Prop :=
  filter (fun s => status s = "completed") (steps s1) `prefix_of` steps s2
  /\ length (steps s1) < length (steps s2)
  /\ is_uploading s1 = true.

(** A real-action collaborator call fails, and [msg] is the error record
    the code writes for it. *)
Inductive failure (env : pipeline_env) : text -> Prop :=
| generate_raises e :
    ret_generate_trigger_json env = Raises e ->
    failure env (Lit "Error generating forge trigger: " :: exn_text e)
| save_raises v e :
    ret_generate_trigger_json env = Returns v ->
    ret_save_trigger_to_file env = Raises e ->
    failure env (Lit "Error generating forge trigger: " :: exn_text e)
| process_raises e :
    ret_process_session env = Raises e ->
    failure env (Lit "Error in forge processing: " :: exn_text e)
| process_rejected d :
    ret_process_session env = Returns (PDict d) ->
    eq_str (dict_get d "status" PNone) "completed" = false ->
    failure env [Lit "Forge processing failed: ";
                 Fmt (dict_get d "error" (PStr "Unknown error"))]
| process_malformed v :
    ret_process_session env = Returns v ->
    (forall d, v <> PDict d) ->
    failure env (Lit "Error in forge processing: "
                 :: exn_text (AttributeError v "get"))
| retrieve_raises_failure e :
    ret_get_random_published_workflow env = Raises e ->
    failure env (Lit "Error retrieving workflow: " :: exn_text e).

Definition unreachable : exn := Exn "ConnectionError" [Lit "service unreachable"].

(** Every collaborator of the pipeline raises. *)
Definition env_down : pipeline_env :=
  PipelineEnv 100%Z (Raises unreachable) (Raises unreachable)
              101%Z (Raises unreachable) (Raises unreachable).

(** The trigger and the forge work, the result store answers [None]. *)
Definition env_no_result : pipeline_env :=
  PipelineEnv 100%Z (Returns (dict [("session_id", PStr "s")])) (Returns PNone)
              101%Z (Returns (dict [("status", PStr "completed")]))
              (Returns PNone).

Definition sample_info : gmap string pyval :=
  list_to_map [("title", PStr "Release checklist");
               ("productivity_score", PFloat 0.5);
               ("guide_markdown", PStr "# Checklist")].

Definition sample_response : gmap string pyval :=
  list_to_map [("workflow_data", PDict sample_info);
               ("workflow_id", PStr "wf-17")].

(** Everything works and a workflow is found. *)
Definition env_ok : pipeline_env :=
  PipelineEnv 100%Z (Returns (dict [("session_id", PStr "s")])) (Returns PNone)
              101%Z (Returns (dict [("status", PStr "completed")]))
              (Returns (PDict sample_response)).

(** A freshly constructed server, nothing running. *)
Definition w_init : world := World init_server [] [] [].

(** A server with an active session. *)
Definition w_active : world :=
  World (Server true (Some 42%Z) (Some "4f1c") true
                (upload_status init_server) PNone) [] [] [].

(** The lifecycle event the Socket.IO stop handler sends first. *)
Definition stopped_event (w : world) : effect :=
  Emit ToCaller "session_stopped"
    (SessionPayload (session_id (srv w))
                    "Session stopped, processing workflow...").

Definition no_session_error : effect :=
  Emit ToCaller "session_error" (ErrorPayload [Lit "No active session to stop"]).

(** The claim that the session is cleared only after the final event, as
    the specification words it: when a successful [stop_session] has
    cleared the session id, [upload_complete] has been emitted. *)
Definition cleared_after_final_event (env : stop_env) (w : world) : Prop :=
  forall w1, stop_session env w = (Ok tt, w1) ->
    session_id (srv w1) = None ->
    existsb (is_event "upload_complete") (new_effects w w1) = true.

(** A request to the controller, or background threads taking steps. *)
Inductive command : Type :=
| Start (env : start_env)
| Stop (env : stop_env)
| Background (picks : list nat).

(** One entry of a history: the world before, the command, its result
    and the world after. *)
Record entry : Type := Entry {
  before : world;
  cmd : command;
  result : res unit;
  after : world
}.

Definition run_command (c : command) (w : world) : res unit * world :=
  match c with
  | Start env => start_session env w
  | Stop env => stop_session env w
  | Background picks => (Ok tt, run_background picks w)
  end.

(** The history of a sequence of calls. *)
Fixpoint history (cs : list command) (w : world) : list entry :=
  match cs with
  | [] => []
  | c :: cs' =>
      let '(r, w') := run_command c w in
      Entry w c r w' :: history cs' w'
  end.

(** The state guard on one entry. *)
Definition guarded (e : entry) : Prop :=
  match cmd e with
  | Start _ =>
      (result e = Ok tt ->
       session_active (srv (before e)) = false
       /\ session_active (srv (after e)) = true)
      /\ (session_active (srv (before e)) = true ->
          result e = Raised (ValueError "Session is already active")
          /\ after e = before e)
  | Stop _ =>
      (result e = Ok tt ->
       session_active (srv (before e)) = true
       /\ session_active (srv (after e)) = false)
      /\ (session_active (srv (before e)) = false ->
          result e = Raised (ValueError "No active session to stop")
          /\ after e = before e)
  | Background _ =>
      session_active (srv (after e)) = session_active (srv (before e))
  end.

(** The bridge accepts the stop command. *)
Definition stop_ok : stop_env :=
  StopEnv (Returns (dict [("success", PBool true)])) env_ok.

(** The bridge accepts the start command. *)
Definition start_ok : start_env :=
  StartEnv None (Returns (dict [("success", PBool true)])) 1000%Z "8d2e".


Definition trigger_step : step_spec := Spec "Generating forge trigger JSON..." 1.
Definition processing_step : step_spec :=
  Spec "Triggering forge processing pipeline..." 2.

(** C6 in the words of the spec, for the progress feed of a world: once a
    step appears as completed in a snapshot, it is neither removed nor
    reordered in any later snapshot. *)
Definition append_only (feed : list UploadStatus) : Prop :=
  forall i j si sj,
    i < j -> feed !! i = Some si -> feed !! j = Some sj ->
    filter (fun s => status s = "completed") (steps si) `prefix_of` steps sj.

(** The world after a list of commands. *)
Definition run_commands (cs : list command) (w : world) : world :=
  foldl (fun w c => (run_command c w).2) w cs.

(** None of the commands starts a pipeline: every [Stop] among them
    fails. *)
Definition no_new_pipeline (cs : list command) (w : world) : Prop :=
  Forall (fun e => match cmd e with
                   | Stop _ => result e <> Ok tt
                   | _ => True
                   end) (history cs w).

(** A second session is started and stopped while the pipeline of the
    first is at its third snapshot: stop; eleven steps of the first
    pipeline; start; stop; three steps of the second pipeline; one step of
    the first. *)
Definition overlapping_cycles : list command :=
  [Stop stop_ok; Background (replicate 11 0); Start start_ok; Stop stop_ok;
   Background [1; 1; 1; 0]].



(* ===================================================================== *)
(** * Vocabulary for whole runs, schedules and the session handlers *)
(* ===================================================================== *)

(** A world with an empty trace, to read off what a helper appends. *)
Definition probe (wf : pyval) : world :=
  World (set_current_workflow wf init_server) [] [] [].

(** What [_execute_forge_trigger_generation] appends to the trace. *)
Definition trigger_effects (env : pipeline_env) (sid : option string)
    (st : option datetime) : list effect :=
  out (_execute_forge_trigger_generation env sid st (probe PNone)).2.

(** What [_execute_forge_processing] appends to the trace. *)
Definition processing_effects (env : pipeline_env) (sid : option string)
    : list effect :=
  out (_execute_forge_processing env sid (probe PNone)).2.

(** What [_retrieve_workflow_from_firestore] appends to the trace. *)
Definition retrieval_effects (env : pipeline_env) (sid : option string)
    : list effect :=
  out (_retrieve_workflow_from_firestore env sid (probe PNone)).2.

(** What [_retrieve_workflow_from_firestore] leaves in [current_workflow]
    when [old] was stored. *)
Definition retrieval_result (env : pipeline_env) (sid : option string)
    (old : pyval) : pyval :=
  current_workflow (srv (_retrieve_workflow_from_firestore env sid (probe old)).2).

(** The broadcast of the [i]-th snapshot of the feed. *)
Definition progress (i : nat) : effect :=
  Emit Broadcast "upload_status_update"
    (StatusPayload
       (nth i pipeline_snapshots (upload_status init_server))).

(** The upload stage: flush and the four uploads, up to the announcement
    of the trigger step. *)
Definition upload_stage : list effect :=
  [progress 0; Sleep 1; progress 1; Sleep 3; progress 2; Sleep 2;
   progress 3; Sleep 4; progress 4; Sleep 2; progress 5].

(** From the end of the processing call to the announcement of the
    retrieval. *)
Definition waiting_stage : list effect :=
  [progress 7; Sleep 5; progress 8; Sleep 2; progress 9].

(** The trace of a run that starts with the session attributes [sid] and
    [st] and the stored workflow [old]. *)
Definition pipeline_trace (env : pipeline_env) (sid : option string)
    (st : option datetime) (old : pyval) : list effect :=
  upload_stage
  ++ trigger_effects env sid st
  ++ [progress 6]
  ++ processing_effects env sid
  ++ waiting_stage
  ++ retrieval_effects env sid
  ++ closing_events (nth 10 pipeline_snapshots (upload_status init_server))
                    (retrieval_result env sid old).

(** The steps recorded as completed once the first [n] entries of the
    plan are done. *)
Definition done_steps (n : nat) : list step_entry :=
  (fun m => Step m "completed") <$> take n reported_plan.

Definition all_completed : list step_entry := done_steps 12.

(** The pipeline after its first two statements, which read
    [self.session_start_time] and [self.session_id]. *)
Definition after_reads (env : pipeline_env) : list action :=
  drop 2 (monitor_uploads_and_forge env).

(** The seconds slept along a trace, in order. *)
Definition sleeps (tr : list effect) : list nat :=
  omap (fun e => match e with Sleep n => Some n | _ => None end) tr.

(** The collaborator calls of a trace, in order. *)
Definition calls (tr : list effect) : list call :=
  omap (fun e => match e with Call c => Some c | _ => None end) tr.

(** The messages logged at level ERROR along a trace, in order. *)
Definition errors (tr : list effect) : list text :=
  omap (fun e => match e with Log ERROR msg => Some msg | _ => None end) tr.

(** Does the forge loop run a helper in place of the sleep of [step]? *)
Definition is_real_action (step : step_spec) : bool :=
  str_contains "Generating forge trigger" (step_message step)
  || str_contains "Triggering forge processing" (step_message step)
  || str_contains "Retrieving processed workflow" (step_message step).

(** The name [_execute_forge_trigger_generation] gives the trigger file. *)
Definition trigger_file (sid : option string) : text :=
  [Lit "trigger_"; Fmt (of_option sid); Lit ".json"].

(** Every collaborator of the pipeline answers as the server expects. *)
Definition healthy (env : pipeline_env) : Prop :=
  (exists tj, ret_generate_trigger_json env = Returns tj)
  /\ (exists v, ret_save_trigger_to_file env = Returns v)
  /\ (exists resp, ret_process_session env = Returns (PDict resp)
                   /\ eq_str (dict_get resp "status" PNone) "completed" = true)
  /\ (exists d info, ret_get_random_published_workflow env = Returns (PDict d)
                     /\ d !! "workflow_data" = Some (PDict info)).



(** A stored result is [None] or a non-empty dictionary. *)
Definition result_shaped (wf : pyval) : Prop := wf = PNone \/ truthy wf = true.

(** The action does not look at the thread pool, and leaves it alone. *)
Definition pool_blind (a : action) : Prop :=
  forall l w p, a l (set_pool p w) = ((a l w).1, set_pool p (a l w).2).

(** The local variables of a thread that has run its first [j] statements
    on the server [s] (all that matters for [j <= 2]). *)
Definition reads (j : nat) (s : server) : locals :=
  Locals (if (1 <=? j)%nat then session_start_time s else None)
         (if (2 <=? j)%nat then session_id s else None) [].

(** [stop_session]'s three assignments. *)
Definition cleared (s : server) : server :=
  set_session_id None (set_session_start_time None (set_session_active false s)).

(** The server at the end of a pipeline run that found the session
    cleared, stored [old] and called the helpers with session id [sid]. *)
Definition cycle_end (env : pipeline_env) (sid : option string) (s : server)
    : server :=
  set_upload_status (Status "Processing complete" false all_completed)
    (set_current_workflow (retrieval_result env sid (current_workflow s))
                          (cleared s)).

(** The bridge accepted the audio start command: it returned a dictionary
    whose ['success'] is truthy. *)
Definition audio_started (env : start_env) : Prop :=
  exists d, ret_start_audio_recording env = Returns (PDict d)
            /\ truthy (dict_get d "success" (PBool false)) = true.

(** [start_session] has a bridge client to talk to: one exists, or the
    constructor returns one. *)
Definition has_client (env : start_env) (w : world) : Prop :=
  command_client (srv w) = true \/ ret_BridgeClient env = None.

(** The server after a successful [start_session]. *)
Definition session_opened (env : start_env) (s : server) : server :=
  Server true (Some (now_start env)) (Some (uuid4 env)) true
         (upload_status s) (current_workflow s).

(** What a successful [start_session] appends to the trace. *)
Definition start_effects (env : start_env) (s : server) : list effect :=
  Log INFO [Lit "Starting session via audio start command"]
  :: (if command_client s then [] else [Call CallBridgeClient])
  ++ [Call CallStartAudioRecording;
      Log INFO [Lit "Session started successfully with ID: ";
                Fmt (PStr (uuid4 env))]].

(** The exception the audio stop command of [stop_session] ends with, if
    any: what the bridge raised, or the [AttributeError] of calling [get]
    on an answer that is no dictionary. *)
Definition stop_audio_error (env : stop_env) : option exn :=
  match ret_stop_audio_recording env with
  | Raises e => Some e
  | Returns (PDict _) => None
  | Returns v => Some (AttributeError v "get")
  end.

(** The warning [stop_session] logs when the bridge answers with a
    dictionary whose ['success'] is falsy. *)
Definition stop_audio_warning (env : stop_env) : list effect :=
  match ret_stop_audio_recording env with
  | Returns (PDict d) =>
      if truthy (dict_get d "success" (PBool false)) then []
      else [Log WARNING [Lit "Audio stop command failed: ";
                         Fmt (dict_get d "error" (PStr "Unknown error"))]]
  | _ => []
  end.

Definition log_stopping : effect :=
  Log INFO [Lit "Stopping session via audio stop command"].

(** A bridge that refuses to stop recording. *)
Definition stop_refused : stop_env :=
  StopEnv (Returns (dict [("success", PBool false); ("error", PStr "busy")]))
          env_ok.

(** A bridge whose stop command fails with a broken pipe. *)
Definition stop_broken : stop_env :=
  StopEnv (Raises (Exn "BrokenPipeError" [Lit "bridge gone"])) env_ok.

(** A truthy response that is no dictionary, or a dictionary whose
    ['workflow_data'] is no dictionary. *)
Definition malformed (v : pyval) : Prop :=
  truthy v = true
  /\ ((forall d, v <> PDict d)
      \/ exists d info, v = PDict d /\ d !! "workflow_data" = Some info
                        /\ forall i, info <> PDict i).

(** How a call ends that may also be interrupted from the keyboard:
    [KeyboardInterrupt] is no [Exception], so [except Exception] lets it
    pass. *)
Inductive ending : Type :=
| Returned
| Failed (e : exn)
| KeyboardInterrupt.

(** The server object with its [running] flag; [serves] counts the calls
    of [socketio.run]. *)
Record WebUIServer : Type := Instance {
  running : bool;
  serves : nat;
  core : world
}.

(** What the outside world does during one [run]: the [BridgeClient]
    constructor, [is_bridge_running()], and how [socketio.run] ends. *)
Record run_env : Type := RunEnv {
  run_BridgeClient : option exn;
  ret_is_bridge_running : outcome;
  ret_socketio_run : ending
}.

(** What [__init__] meets: the module-level flags set by the guarded
    imports, and what the constructors of the three forge components do
    ([Some e]: the constructor raises [e]). *)
Record init_env : Type := InitEnv {
  FLASK_AVAILABLE : bool;
  COMPONENTS_AVAILABLE : bool;
  ret_ForgeTriggerGenerator : option exn;
  ret_MockForge : option exn;
  ret_FirestoreClient : option exn
}.

Definition ImportError (msg : string) : exn := Exn "ImportError" [Lit msg].

(** [WebUIServer.__init__] *)
Definition __init__ (env : init_env) : res WebUIServer :=
  if negb (FLASK_AVAILABLE env) then
    Raised (ImportError "Flask and flask-socketio are required for web UI")
  else if negb (COMPONENTS_AVAILABLE env) then
    Raised (ImportError
              "Session manager components are required for full functionality")
  else
    match ret_ForgeTriggerGenerator env with
    | Some e => Raised e
    | None =>
        match ret_MockForge env with
        | Some e => Raised e
        | None =>
            match ret_FirestoreClient env with
            | Some e => Raised e
            | None => Ok (Instance false 0 (World init_server [] [] []))
            end
        end
    end.

(** The statements of [run] between the guard and the [try]. *)
Definition check_bridge (env : run_env) (port : Z) : M unit :=
  logger INFO [Lit "Starting Flingoos Web UI on port "; Fmt (PInt port)];;
  client <- self command_client;;
  (if negb client then
     perform (Call CallBridgeClient);;
     match run_BridgeClient env with
     | Some e => raise e
     | None => assign (set_command_client true)
     end
   else ret tt);;
  up <- invoke CallIsBridgeRunning (ret_is_bridge_running env);;
  if truthy up then
    logger INFO [Lit "✅ Bridge service detected and responsive"]
  else
    logger WARNING
      [Lit "⚠️  Bridge service is not running. Some features may not work."];;
    logger INFO [Lit "   Start bridge with: python3 -m bridge.main run"].

(** [WebUIServer.run] *)
Definition run (env : run_env) (port : Z) (a : WebUIServer)
    : ending * WebUIServer :=
  if running a then
    (Returned,
     Instance true (serves a)
         (add_out (Log WARNING [Lit "Web UI server is already running"])
                  (core a)))
  else
    match check_bridge env port (core a) with
    | (Raised e, w) => (Failed e, Instance false (serves a) w)
    | (Ok _, w) =>
        let w1 :=
          add_out (Log INFO [Lit "🌐 Access at: http://127.0.0.1:";
                             Fmt (PInt port)])
            (add_out (Log INFO [Lit "✅ Web UI started successfully!"]) w) in
        match ret_socketio_run env with
        | Failed e =>
            (Failed e,
             Instance false (S (serves a))
                 (add_out (Log ERROR (Lit "Failed to start web UI server: "
                                      :: exn_text e)) w1))
        | r => (r, Instance true (S (serves a)) w1)
        end
    end.

(** [WebUIServer.stop] *)
Definition stop (a : WebUIServer) : WebUIServer :=
  if negb (running a) then a
  else Instance false (serves a)
           (add_out (Log INFO [Lit "Stopping Web UI server..."]) (core a)).







(** JavaScript truthiness of a JSON value ([undefined] and [null] are both
    rendered as [PNone]; objects and arrays are always truthy). *)
Definition js_truthy (v : pyval) : bool :=
  match v with
  | PNone => false
  | PBool b => b
  | PInt z => negb (z =? 0)%Z
  | PFloat q => negb (Qeq_bool q 0)
  | PStr s => negb (String.eqb s "")
  | PList _ | PDict _ => true
  end.

(** [a || b] *)
Definition js_or (a b : pyval) : pyval := if js_truthy a then a else b.

(** [v?.k], for the keys the script reads (none of them is a built-in
    property of a string, a number or an array). *)
Definition js_get (v : pyval) (k : string) : pyval :=
  match v with
  | PDict d => match d !! k with Some x => x | None => PNone end
  | _ => PNone
  end.

(** What [displayWorkflow] writes into the workflow card: the title, the
    four values interpolated into the meta block, and the target of the
    Firestore link if one is shown. *)
Record card : Type := Card {
  workflowTitle : pyval;
  meta_id : pyval;
  meta_score : pyval;
  meta_source : pyval;
  meta_has_guide : string;
  firestoreLink : option pyval
}.

(** The script's variables and the parts of the document it writes. The
    clock ([sessionStartTime], [timerInterval], the timer's text), the guide
    pane ([toggleWorkflowDetails]) and the connection badge are left out;
    [alerts] lists the messages shown by [alert], oldest first. *)
Record page : Type := Page {
  sessionActive : bool;
  workflowData : pyval;
  sessionBtn_text : string;
  sessionBtn_disabled : bool;
  sessionBtn_class : string;
  statusText : string;
  timer_shown : bool;
  uploadStatus_shown : bool;
  uploadSteps : list step_entry;
  workflowSection_shown : bool;
  viewWorkflowBtn_shown : bool;
  workflowCard : option card;
  alerts : list text
}.

Definition set_sessionActive (x : bool) (p : page) : page :=
  Page x (workflowData p) (sessionBtn_text p) (sessionBtn_disabled p)
       (sessionBtn_class p) (statusText p) (timer_shown p)
       (uploadStatus_shown p) (uploadSteps p) (workflowSection_shown p)
       (viewWorkflowBtn_shown p) (workflowCard p) (alerts p).

Definition set_workflowData (x : pyval) (p : page) : page :=
  Page (sessionActive p) x (sessionBtn_text p) (sessionBtn_disabled p)
       (sessionBtn_class p) (statusText p) (timer_shown p)
       (uploadStatus_shown p) (uploadSteps p) (workflowSection_shown p)
       (viewWorkflowBtn_shown p) (workflowCard p) (alerts p).

Definition set_sessionBtn_text (x : string) (p : page) : page :=
  Page (sessionActive p) (workflowData p) x (sessionBtn_disabled p)
       (sessionBtn_class p) (statusText p) (timer_shown p)
       (uploadStatus_shown p) (uploadSteps p) (workflowSection_shown p)
       (viewWorkflowBtn_shown p) (workflowCard p) (alerts p).

Definition set_sessionBtn_disabled (x : bool) (p : page) : page :=
  Page (sessionActive p) (workflowData p) (sessionBtn_text p) x
       (sessionBtn_class p) (statusText p) (timer_shown p)
       (uploadStatus_shown p) (uploadSteps p) (workflowSection_shown p)
       (viewWorkflowBtn_shown p) (workflowCard p) (alerts p).

Definition set_sessionBtn_class (x : string) (p : page) : page :=
  Page (sessionActive p) (workflowData p) (sessionBtn_text p)
       (sessionBtn_disabled p) x (statusText p) (timer_shown p)
       (uploadStatus_shown p) (uploadSteps p) (workflowSection_shown p)
       (viewWorkflowBtn_shown p) (workflowCard p) (alerts p).

Definition set_statusText (x : string) (p : page) : page :=
  Page (sessionActive p) (workflowData p) (sessionBtn_text p)
       (sessionBtn_disabled p) (sessionBtn_class p) x (timer_shown p)
       (uploadStatus_shown p) (uploadSteps p) (workflowSection_shown p)
       (viewWorkflowBtn_shown p) (workflowCard p) (alerts p).

Definition set_timer_shown (x : bool) (p : page) : page :=
  Page (sessionActive p) (workflowData p) (sessionBtn_text p)
       (sessionBtn_disabled p) (sessionBtn_class p) (statusText p) x
       (uploadStatus_shown p) (uploadSteps p) (workflowSection_shown p)
       (viewWorkflowBtn_shown p) (workflowCard p) (alerts p).

Definition set_uploadStatus_shown (x : bool) (p : page) : page :=
  Page (sessionActive p) (workflowData p) (sessionBtn_text p)
       (sessionBtn_disabled p) (sessionBtn_class p) (statusText p)
       (timer_shown p) x (uploadSteps p) (workflowSection_shown p)
       (viewWorkflowBtn_shown p) (workflowCard p) (alerts p).

Definition set_uploadSteps (x : list step_entry) (p : page) : page :=
  Page (sessionActive p) (workflowData p) (sessionBtn_text p)
       (sessionBtn_disabled p) (sessionBtn_class p) (statusText p)
       (timer_shown p) (uploadStatus_shown p) x (workflowSection_shown p)
       (viewWorkflowBtn_shown p) (workflowCard p) (alerts p).

Definition set_workflowSection_shown (x : bool) (p : page) : page :=
  Page (sessionActive p) (workflowData p) (sessionBtn_text p)
       (sessionBtn_disabled p) (sessionBtn_class p) (statusText p)
       (timer_shown p) (uploadStatus_shown p) (uploadSteps p) x
       (viewWorkflowBtn_shown p) (workflowCard p) (alerts p).

Definition set_viewWorkflowBtn_shown (x : bool) (p : page) : page :=
  Page (sessionActive p) (workflowData p) (sessionBtn_text p)
       (sessionBtn_disabled p) (sessionBtn_class p) (statusText p)
       (timer_shown p) (uploadStatus_shown p) (uploadSteps p)
       (workflowSection_shown p) x (workflowCard p) (alerts p).

Definition set_workflowCard (x : option card) (p : page) : page :=
  Page (sessionActive p) (workflowData p) (sessionBtn_text p)
       (sessionBtn_disabled p) (sessionBtn_class p) (statusText p)
       (timer_shown p) (uploadStatus_shown p) (uploadSteps p)
       (workflowSection_shown p) (viewWorkflowBtn_shown p) x (alerts p).

Definition set_alerts (x : list text) (p : page) : page :=
  Page (sessionActive p) (workflowData p) (sessionBtn_text p)
       (sessionBtn_disabled p) (sessionBtn_class p) (statusText p)
       (timer_shown p) (uploadStatus_shown p) (uploadSteps p)
       (workflowSection_shown p) (viewWorkflowBtn_shown p) (workflowCard
       p) x.

(** The statements of a handler, in order. *)
Definition statements (fs : list (page -> page)) (p : page) : page :=
  foldl (fun p f => f p) p fs.

(** The document as served, after the script's initial [updateUI()]. *)
Definition initial_page : page :=
  Page false PNone "START SESSION" false "btn" "Ready to start session"
       false false [] false false None [].

(** [updateUI] *)
Definition updateUI (p : page) : page :=
  if sessionActive p then
    statements [set_sessionBtn_text "END SESSION";
                set_sessionBtn_class "btn stop";
                set_statusText "Session in progress..."] p
  else
    statements [set_sessionBtn_text "START SESSION";
                set_sessionBtn_class "btn";
                set_statusText "Ready to start session"] p.

(** [hideUploadStatus] *)
Definition hideUploadStatus : page -> page := set_uploadStatus_shown false.

(** [displayUploadStatus(statusData)]; [steps] is [statusData.steps]. *)
Definition displayUploadStatus (steps : list step_entry) : page -> page :=
  statements [set_uploadStatus_shown true; set_uploadSteps steps].

(** [displayWorkflow(data)] for [data] other than [null]; [data] is the
    object as the page holds it, after it was decoded from JSON. *)
Definition displayWorkflow (data : pyval) : page -> page :=
  let workflow := js_or (js_get data "workflow") data in
  statements
    [set_workflowSection_shown true;
     set_viewWorkflowBtn_shown true;
     set_workflowCard
       (Some (Card (js_or (js_get workflow "title") (PStr "Workflow Complete"))
                   (js_or (js_get workflow "id") (PStr "N/A"))
                   (js_or (js_get workflow "score") (PStr "N/A"))
                   (js_or (js_get data "source") (PStr "Firestore"))
                   (if js_truthy (js_get workflow "guide_markdown")
                    then "Yes" else "No")
                   (if js_truthy (js_get workflow "firestore_url")
                    then Some (js_get workflow "firestore_url") else None)))].

(** [socket.on('session_started', ...)] *)
Definition on_session_started : page -> page :=
  statements [set_sessionActive true;
              hideUploadStatus;
              set_workflowSection_shown false;
              set_workflowData PNone;
              updateUI;
              set_timer_shown true;
              set_sessionBtn_disabled false].

(** [socket.on('session_stopped', ...)] *)
Definition on_session_stopped : page -> page :=
  statements [set_sessionActive false;
              set_timer_shown false;
              set_sessionBtn_text "ANALYZING...";
              set_sessionBtn_disabled true;
              set_statusText "Processing session data..."].

(** [socket.on('session_error', ...)]; [error] is [data.error]. *)
Definition on_session_error (error : text) (p : page) : page :=
  statements [set_alerts (alerts p ++ [Lit "Session Error: " :: error]);
              set_sessionBtn_disabled false] p.

(** [socket.on('upload_status_update', ...)] *)
Definition on_upload_status_update (steps : list step_entry) : page -> page :=
  displayUploadStatus steps.

(** [socket.on('workflow_ready', ...)]. On [null], [displayWorkflow]
    throws at [data.workflow], after its first two assignments, and the
    rest of the handler is skipped. *)
Definition on_workflow_ready (data : pyval) : page -> page :=
  match data with
  | PNone =>
      statements [set_workflowData data;
                  set_workflowSection_shown true;
                  set_viewWorkflowBtn_shown true]
  | _ =>
      statements [set_workflowData data;
                  displayWorkflow data;
                  hideUploadStatus;
                  set_sessionBtn_text "START SESSION";
                  set_sessionBtn_disabled false;
                  set_statusText "Workflow analysis complete!"]
  end.

(** [toggleSession], the click handler of the session button: the page
    after the click and the event sent to the server. *)
Definition toggleSession (p : page) : page * string :=
  (set_sessionBtn_disabled true p,
   if sessionActive p then "stop_session" else "start_session").

(** What the page of the calling client does with one effect of the
    server: an emit runs the handler registered for its event, if any
    ([upload_complete] and [connected] have none). An object that is no
    workflow has none of the keys [displayWorkflow] reads, like the empty
    object. *)
Definition receive (p : page) (e : effect) : page :=
  match e with
  | Emit _ event data =>
      if String.eqb event "session_started" then on_session_started p
      else if String.eqb event "session_stopped" then on_session_stopped p
      else if String.eqb event "session_error" then
        on_session_error
          (match data with ErrorPayload error => error | _ => [Lit "undefined"] end)
          p
      else if String.eqb event "upload_status_update" then
        on_upload_status_update
          (match data with StatusPayload st => steps st | _ => [] end) p
      else if String.eqb event "workflow_ready" then
        on_workflow_ready
          (match data with WorkflowPayload wf => wf | _ => PDict ∅ end) p
      else p
  | _ => p
  end.

(** The page after the effects of a trace, oldest first. *)
Definition deliver (tr : list effect) (p : page) : page := foldl receive p tr.

(** A pipeline whose collaborators are all down behind a bridge that
    stops recording. *)
Definition stop_down : stop_env :=
  StopEnv (Returns (dict [("success", PBool true)])) env_down.

(** The active session of [w_active], with a schedule that lets
    [stop_session] finish before the new thread runs. *)
Definition w_unpreempted : world := World (srv w_active) [] [] [[]].

(** A scalar that reaches the page as it left the server. The payload
    travels as JSON and the page holds numbers as doubles: [None],
    booleans, strings and floats arrive unchanged, an integer does when
    its magnitude is at most 2^53 (beyond that the page may hold a
    rounded number). Lists and dictionaries are not looked into and
    count as changed. *)
Definition crosses_unchanged (v : pyval) : bool :=
  match v with
  | PInt z => (Z.abs z <=? 2 ^ 53)%Z
  | PList _ | PDict _ => false
  | _ => true
  end.

(** A script that prints lines and may raise: the lines printed so far,
    and how it went on. *)
Definition script (A : Type) : Type := (list text * res A)%type.

Definition say {A} (a : A) : script A := ([], Ok a).

Definition and_then {A B} (m : script A) (k : A -> script B) : script B :=
  match m with
  | (l, Ok a) => match k a with (l', r) => (l ++ l', r) end
  | (l, Raised e) => (l, Raised e)
  end.

(** [print(line)] *)
Definition print (line : text) : script unit := ([line], Ok tt).

(** A Python operation that may raise, inside a script. *)
Definition lift {A} (r : res A) : script A := ([], r).

(** [try: body  except Exception as e: handler e] in a script. *)
Definition attempt {A} (body : script A) (handler : exn -> script A) : script A :=
  match body with
  | (l, Raised e) => match handler e with (l', r) => (l ++ l', r) end
  | other => other
  end.

(** [test_workflow_retrieval]. What the Firestore client answers is [ret];
    the built-ins [len(x)] and [x[:200]] are the parameters [len] and
    [preview]; the traceback goes to the error stream and is not among the
    printed lines. *)
Definition test_workflow_retrieval (len preview : pyval -> res pyval)
    (ienv : init_env) (ret : outcome) : script unit :=
  and_then (print [Lit "Testing workflow retrieval..."]) (fun _ =>
  and_then (lift (__init__ ienv)) (fun server =>
  and_then (print [Lit "Firestore client initialized: "; Fmt (PBool true)])
    (fun _ =>
  attempt
    (and_then (lift (match ret with Returns v => Ok v | Raises e => Raised e end))
       (fun workflow_data =>
     and_then (print [Lit "Workflow data retrieved: ";
                      Fmt (PBool (is_not_None workflow_data))]) (fun _ =>
     if truthy workflow_data then
       and_then (lift (keys workflow_data)) (fun ks =>
       and_then (print [Lit "Workflow structure: "; Fmt (PList (PStr <$> ks))])
         (fun _ =>
       and_then (lift (contains "workflow" workflow_data)) (fun has_workflow =>
       if (has_workflow : bool) then
         and_then (lift (getitem workflow_data "workflow")) (fun workflow =>
         and_then (lift (keys workflow)) (fun fields =>
         and_then (print [Lit "Workflow fields: "; Fmt (PList (PStr <$> fields))])
           (fun _ =>
         and_then (lift (get workflow "title" (PStr "N/A"))) (fun title =>
         and_then (print [Lit "Title: "; Fmt title]) (fun _ =>
         and_then (lift (get workflow "id" (PStr "N/A"))) (fun id =>
         and_then (print [Lit "ID: "; Fmt id]) (fun _ =>
         and_then (lift (contains "guide_markdown" workflow)) (fun has_guide =>
         and_then (print [Lit "Has guide_markdown: "; Fmt (PBool has_guide)])
           (fun _ =>
         if (has_guide : bool) then
           and_then (lift (getitem workflow "guide_markdown")) (fun guide =>
           and_then (lift (len guide)) (fun guide_length =>
           and_then (print [Lit "Guide markdown length: "; Fmt guide_length;
                            Lit " characters"]) (fun _ =>
           and_then (lift (preview guide)) (fun head =>
           print [Lit "Guide preview: "; Fmt head; Lit "..."]))))
         else say tt)))))))))
       else print [Lit "ERROR: No 'workflow' key in data"])))
     else print [Lit "ERROR: No workflow data returned"])))
    (fun e => print (Lit "ERROR retrieving workflow: " :: exn_text e))))).

(** Every import succeeded and every constructor returned. *)
Definition init_ok : init_env := InitEnv true true None None None.

(* ===================================================================== *)
(** * Lemmas and theorems *)
(* ===================================================================== *)

Lemma same_session_refl s : same_session s s.
Proof. by repeat split. Qed.

Lemma same_session_trans s1 s2 s3 :
  same_session s1 s2 -> same_session s2 s3 -> same_session s1 s3.
Proof.
  intros (?&?&?&?) (?&?&?&?). repeat split; congruence.
Qed.

Lemma grows_refl w : grows w w [].
Proof. unfold grows. by rewrite app_nil_r. Qed.

Lemma grows_trans w1 w2 w3 es1 es2 :
  grows w1 w2 es1 -> grows w2 w3 es2 -> grows w1 w3 (es1 ++ es2).
Proof.
  intros (H1 & H2 & H3) (H4 & H5 & H6). repeat split; try congruence.
  by rewrite H4, H1, app_assoc.
Qed.

Lemma grows_new_effects w w' es : grows w w' es -> new_effects w w' = es.
Proof.
  intros (H & _). unfold new_effects. rewrite H. by rewrite drop_app_length.
Qed.

Lemma snapshots_app tr1 tr2 : snapshots (tr1 ++ tr2) = snapshots tr1 ++ snapshots tr2.
Proof. apply omap_app. Qed.

Lemma silent_bg es : Forall silent es -> Forall bg_effect es.
Proof. apply Forall_impl. by intros []. Qed.

Lemma silent_snapshots es : Forall silent es -> snapshots es = [].
Proof. induction 1 as [|[] es He _ IH]; done. Qed.

Lemma silent_not_event name es :
  Forall silent es -> forallb (fun e => negb (is_event name e)) es = true.
Proof. induction 1 as [|[] es He _ IH]; done. Qed.

Ltac run :=
  unfold bind, ret, try_except, invoke, perform, py, self, assign, logger,
    emit, sleep, raise, add_out, set_srv; cbn.

Ltac close_frame :=
  cbn; rewrite <- ?app_assoc; cbn;
  eexists; split; [reflexivity | repeat constructor].

Lemma trigger_generation_frame env sid st w :
  exists es,
    _execute_forge_trigger_generation env sid st w
    = (Ok tt, World (srv w) (out w ++ es) (pool w) (sched w))
    /\ Forall silent es.
Proof.
  destruct w as [s o p sc].
  unfold _execute_forge_trigger_generation. run.
  destruct (ret_generate_trigger_json env) as [v|e]; run;
    [destruct (ret_save_trigger_to_file env) as [v'|e]; run |]; close_frame.
Qed.

Lemma forge_processing_frame env sid w :
  exists es,
    _execute_forge_processing env sid w
    = (Ok tt, World (srv w) (out w ++ es) (pool w) (sched w))
    /\ Forall silent es.
Proof.
  destruct w as [s o p sc].
  unfold _execute_forge_processing. run.
  destruct (ret_process_session env) as [v|e]; run; [|close_frame].
  destruct v; run; try close_frame.
  destruct (eq_str _ _); run; close_frame.
Qed.

Lemma set_current_workflow_id s : set_current_workflow (current_workflow s) s = s.
Proof. by destruct s. Qed.

Lemma retrieve_workflow_calls env sid w :
  exists rest wf,
    _retrieve_workflow_from_firestore env sid w
    = (Ok tt, World (set_current_workflow wf (srv w))
                    (out w ++ Call (CallGetRandomPublishedWorkflow "diligent4") :: rest)
                    (pool w) (sched w))
    /\ Forall silent rest.
Proof.
  destruct w as [s o p sc].
  unfold _retrieve_workflow_from_firestore. run.
  pose proof (set_current_workflow_id s) as Hs.
  destruct (ret_get_random_published_workflow env) as [v|e]; run.
  2:{ eexists _, (current_workflow s). rewrite Hs, <- ?app_assoc.
      split; [reflexivity | repeat constructor]. }
  destruct (truthy v) eqn:Ht; run.
  2:{ rewrite <- ?app_assoc. cbn. eexists _, _.
      split; [reflexivity | repeat constructor]. }
  destruct (contains "workflow_data" v) as [[|]|e] eqn:Hc; run.
  - destruct (getitem v "workflow_data") as [info|e] eqn:Hg; run.
    + destruct v; try discriminate. cbn in Hg.
      destruct info; run; rewrite <- ?app_assoc; cbn;
        try (eexists _, (current_workflow s); rewrite Hs;
             split; [reflexivity | repeat constructor]).
      eexists _, _; split; [reflexivity | repeat constructor].
    + rewrite <- ?app_assoc; cbn. eexists _, (current_workflow s); rewrite Hs.
      split; [reflexivity | repeat constructor].
  - destruct (keys v) as [ks|e] eqn:Hk; run; rewrite <- ?app_assoc; cbn.
    + eexists _, _; split; [reflexivity | repeat constructor].
    + eexists _, (current_workflow s); rewrite Hs.
      split; [reflexivity | repeat constructor].
  - rewrite <- ?app_assoc; cbn. eexists _, (current_workflow s); rewrite Hs.
    split; [reflexivity | repeat constructor].
Qed.

Lemma retrieve_workflow_frame env sid w :
  exists es wf,
    _retrieve_workflow_from_firestore env sid w
    = (Ok tt, World (set_current_workflow wf (srv w)) (out w ++ es)
                    (pool w) (sched w))
    /\ Forall silent es.
Proof.
  destruct (retrieve_workflow_calls env sid w) as (rest & wf & Heq & Hs).
  eexists _, wf. split; [exact Heq|]. by repeat constructor.
Qed.

Ltac footprint_simple :=
  intros [lt li lc] [[sa st si sc su sw] o p sch]; run;
  eexists _, _, _; split; [reflexivity|];
  split; [repeat split; cbn; first [reflexivity | symmetry; apply app_nil_r]|];
  split; [by repeat split|];
  repeat split; try reflexivity;
  try (repeat constructor; cbn; set_solver).

Lemma keep_read_start :
  has_footprint
    (fun l => t <- self session_start_time;;
              ret (Locals t (l_session_id l) (completed_steps l))) keep.
Proof. footprint_simple. Qed.

Lemma keep_read_id :
  has_footprint
    (fun l => i <- self session_id;;
              ret (Locals (l_session_start_time l) i (completed_steps l))) keep.
Proof. footprint_simple. Qed.

Lemma keep_pause n : has_footprint (pause n) keep.
Proof. unfold pause. footprint_simple. Qed.

Lemma append_completed_fp m : has_footprint (append_completed m) (fp_append m).
Proof. unfold append_completed. footprint_simple. Qed.

Lemma announce_fp step : has_footprint (announce step) (fp_announce step).
Proof. unfold announce. footprint_simple. Qed.

Lemma emit_upload_status_fp : has_footprint emit_upload_status fp_show.
Proof. unfold emit_upload_status. footprint_simple. Qed.

Lemma execute_forge_step_fp env step :
  has_footprint (execute_forge_step env step) (fp_execute step).
Proof.
  intros l w. unfold execute_forge_step, fp_execute, dispatches_retrieval.
  destruct (str_contains "Generating forge trigger" _).
  { destruct (trigger_generation_frame env (l_session_id l)
                (l_session_start_time l) w) as (es & Heq & Hes).
    unfold bind at 1. rewrite Heq. run.
    exists l, (World (srv w) (out w ++ es) (pool w) (sched w)), es.
    repeat split; try done. - by apply silent_snapshots. - by apply silent_bg. }
  destruct (str_contains "Triggering forge processing" _).
  { destruct (forge_processing_frame env (l_session_id l) w) as (es & Heq & Hes).
    unfold bind at 1. rewrite Heq. run.
    exists l, (World (srv w) (out w ++ es) (pool w) (sched w)), es.
    repeat split; try done. - by apply silent_snapshots. - by apply silent_bg. }
  destruct (str_contains "Retrieving processed workflow" _).
  { destruct (retrieve_workflow_frame env (l_session_id l) w)
      as (es & wf & Heq & Hes).
    unfold bind at 1. rewrite Heq. run.
    eexists l, _, es. split; [reflexivity|].
    repeat split; try done. - by apply silent_snapshots. - by apply silent_bg. }
  destruct l as [lt li lc], w as [[sa st si sc su sw] o p sch]. run.
  eexists _, _, _. split; [reflexivity|].
  repeat split; try done. repeat constructor.
Qed.

Lemma Forall2_flat_map {A B C} (R : B -> C -> Prop) (f : A -> list B)
    (g : A -> list C) (xs : list A) :
  (forall x, Forall2 R (f x) (g x)) ->
  Forall2 R (flat_map f xs) (flat_map g xs).
Proof.
  intros H. induction xs as [|x xs IH]; cbn; [constructor|].
  by apply Forall2_app.
Qed.

Lemma upload_iteration_footprints step :
  Forall2 has_footprint (upload_iteration step) (upload_iteration_fp step).
Proof.
  repeat constructor;
    auto using announce_fp, emit_upload_status_fp, keep_pause, append_completed_fp.
Qed.

Lemma forge_iteration_footprints env step :
  Forall2 has_footprint (forge_iteration env step) (forge_iteration_fp step).
Proof.
  repeat constructor;
    auto using announce_fp, emit_upload_status_fp, execute_forge_step_fp,
      append_completed_fp.
Qed.

Lemma workflow_ready_fp :
  has_footprint
    (fun l => wf <- self current_workflow;;
              (if truthy wf
               then emit Broadcast "workflow_ready" (WorkflowPayload wf)
               else ret tt);;
              ret l) keep.
Proof.
  intros [lt li lc] [[sa st si sc su sw] o p sch]. run.
  destruct (truthy sw); run;
    (eexists _, _, _; split; [reflexivity|];
     split; [repeat split; cbn; first [reflexivity | symmetry; apply app_nil_r]|];
     split; [by repeat split|];
     repeat split; try reflexivity;
     try (repeat constructor; cbn; set_solver)).
Qed.

Lemma monitor_has_footprints env :
  Forall2 has_footprint (monitor_uploads_and_forge env) monitor_footprints.
Proof.
  unfold monitor_uploads_and_forge, monitor_footprints.
  apply Forall2_app.
  { repeat apply Forall2_cons; try apply Forall2_nil;
      auto using keep_read_start, keep_read_id, keep_pause,
        emit_upload_status_fp; footprint_simple. }
  apply Forall2_app.
  { apply Forall2_flat_map, upload_iteration_footprints. }
  apply Forall2_app.
  { repeat constructor. apply append_completed_fp. }
  apply Forall2_app.
  { apply Forall2_flat_map, forge_iteration_footprints. }
  repeat apply Forall2_cons; try apply Forall2_nil;
    auto using keep_pause, emit_upload_status_fp, append_completed_fp,
      workflow_ready_fp; footprint_simple.
Qed.

Lemma monitor_length env : length (monitor_uploads_and_forge env) = 49.
Proof. reflexivity. Qed.

Lemma monitor_footprints_length : length monitor_footprints = 49.
Proof. reflexivity. Qed.

Lemma run_actions_footprints acts fps :
  Forall2 has_footprint acts fps ->
  forall l w, exists l' w' es,
    run_actions acts l w = (Ok l', w')
    /\ grows w w' es
    /\ same_session (srv w) (srv w')
    /\ view_of l' w' = run_next fps (view_of l w)
    /\ snapshots es = run_shown fps (view_of l w)
    /\ Forall bg_effect es
    /\ (no_workflow_write fps ->
        current_workflow (srv w') = current_workflow (srv w)).
Proof.
  induction 1 as [|a fp acts fps Ha _ IH]; intros l w.
  - exists l, w, []. cbn. repeat split; auto using grows_refl.
    unfold grows. by rewrite app_nil_r.
  - destruct (Ha l w) as (l1 & w1 & es1 & Hr1 & Hg1 & Hs1 & Hv1 & Hsn1 & Hbg1 & Hw1).
    destruct (IH l1 w1) as (l2 & w2 & es2 & Hr2 & Hg2 & Hs2 & Hv2 & Hsn2 & Hbg2 & Hw2).
    exists l2, w2, (es1 ++ es2). cbn. unfold bind. rewrite Hr1.
    split; [done|]. split; [by eapply grows_trans|].
    split; [by eapply same_session_trans|].
    split; [by rewrite Hv2, Hv1|].
    split; [by rewrite snapshots_app, Hsn1, Hsn2, Hv1|].
    split; [by apply Forall_app|].
    intros Hn. inversion Hn; subst. rewrite Hw2, Hw1; auto.
Qed.

Lemma run_actions_app acts1 acts2 l w :
  run_actions (acts1 ++ acts2) l w =
  match run_actions acts1 l w with
  | (Ok l', w') => run_actions acts2 l' w'
  | (Raised e, w') => (Raised e, w')
  end.
Proof.
  revert l w. induction acts1 as [|a acts1 IH]; intros l w; [done|].
  cbn. unfold bind. destruct (a l w) as [[l'|e] w']; [apply IH | done].
Qed.

(** The feed does not depend on the view the pipeline starts from. *)
Lemma run_shown_monitor v : run_shown monitor_footprints v = pipeline_snapshots.
Proof. destruct v. reflexivity. Qed.

Lemma run_next_monitor v :
  run_next monitor_footprints v =
  run_next monitor_footprints (View [] (upload_status init_server)).
Proof. destruct v. reflexivity. Qed.

Lemma bg_run_refl w : bg_run w w [].
Proof.
  unfold bg_run. rewrite app_nil_r. auto using same_session_refl.
Qed.

Lemma bg_run_trans w1 w2 w3 es1 es2 :
  bg_run w1 w2 es1 -> bg_run w2 w3 es2 -> bg_run w1 w3 (es1 ++ es2).
Proof.
  intros (H1 & H2 & H3 & H4 & H5) (G1 & G2 & G3 & G4 & G5).
  split; [by rewrite G1, H1, app_assoc|].
  split; [congruence|]. split; [congruence|].
  split; [by eapply same_session_trans|]. by apply Forall_app.
Qed.

(** What one step of thread [i] does when the thread has an action left. *)
Lemma step_thread_running w i t a :
  pool w !! i = Some t ->
  monitor_uploads_and_forge (th_env t) !! th_pc t = Some a ->
  exists fp l' w' es,
    monitor_footprints !! th_pc t = Some fp
    /\ has_footprint a fp
    /\ a (th_locals t) w = (Ok l', w')
    /\ grows w w' es
    /\ same_session (srv w) (srv w')
    /\ view_of l' w' = next fp (view_of (th_locals t) w)
    /\ snapshots es = shown fp (view_of (th_locals t) w)
    /\ Forall bg_effect es
    /\ (writes_workflow fp = false ->
        current_workflow (srv w') = current_workflow (srv w))
    /\ step_thread w i =
       set_pool (<[i := Thread (th_env t) l' (S (th_pc t))]> (pool w)) w'.
Proof.
  intros Ht Ha.
  destruct (Forall2_lookup_l _ _ _ _ _ (monitor_has_footprints (th_env t)) Ha)
    as (fp & Hfp & Hhas).
  destruct (Hhas (th_locals t) w)
    as (l' & w' & es & Hr & Hg & Hs & Hv & Hsn & Hbg & Hw).
  exists fp, l', w', es. repeat split; try done; try apply Hg; try apply Hs.
  unfold step_thread. rewrite Ht. cbv beta iota zeta. rewrite Ha, Hr.
  by destruct Hg as (_ & -> & _).
Qed.

Lemma step_thread_idle w i :
  (forall t, pool w !! i = Some t -> finished t) -> step_thread w i = w.
Proof.
  intros H. unfold step_thread. destruct (pool w !! i) as [t|] eqn:Ht; [|done].
  cbv beta iota zeta. specialize (H t eq_refl). unfold finished in H.
  by rewrite lookup_ge_None_2.
Qed.

Lemma step_thread_bg_run w i : exists es, bg_run w (step_thread w i) es.
Proof.
  destruct (pool w !! i) as [t|] eqn:Ht.
  2:{ exists []. unfold step_thread. rewrite Ht. apply bg_run_refl. }
  destruct (monitor_uploads_and_forge (th_env t) !! th_pc t) as [a|] eqn:Ha.
  2:{ exists []. unfold step_thread. rewrite Ht. cbv beta iota zeta. rewrite Ha.
      apply bg_run_refl. }
  destruct (step_thread_running w i t a Ht Ha)
    as (fp & l' & w' & es & _ & _ & _ & (Ho & Hp & Hsc) & Hs & _ & _ & Hbg & _ & ->).
  exists es. unfold bg_run. cbn. by rewrite length_insert.
Qed.

Lemma run_background_bg_run picks w : exists es, bg_run w (run_background picks w) es.
Proof.
  unfold run_background. revert w.
  induction picks as [|i picks IH]; intros w; cbn.
  - exists []. apply bg_run_refl.
  - destruct (step_thread_bg_run w i) as (es1 & H1).
    destruct (IH (step_thread w i)) as (es2 & H2).
    exists (es1 ++ es2). by eapply bg_run_trans.
Qed.

(** A preemption point returns normally; the background ran meanwhile. *)
Lemma yield_bg_run w :
  exists w' es, yield w = (Ok tt, w')
    /\ out w' = out w ++ es /\ length (pool w') = length (pool w)
    /\ same_session (srv w) (srv w') /\ Forall bg_effect es.
Proof.
  unfold yield. destruct (sched w) as [|picks rest] eqn:Hs.
  - exists w, []. rewrite app_nil_r. auto using same_session_refl.
  - destruct (run_background_bg_run picks (set_sched rest w))
      as (es & Ho & _ & Hl & Hss & Hbg).
    eexists _, es. split; [reflexivity|]. done.
Qed.

Lemma run_next_app fps1 fps2 v :
  run_next (fps1 ++ fps2) v = run_next fps2 (run_next fps1 v).
Proof. apply foldl_app. Qed.

Lemma run_shown_app fps1 fps2 v :
  run_shown (fps1 ++ fps2) v =
  run_shown fps1 v ++ run_shown fps2 (run_next fps1 v).
Proof.
  revert v. induction fps1 as [|fp fps1 IH]; intros v; cbn; [done|].
  by rewrite IH, app_assoc.
Qed.

Lemma run_next_take_S fps k fp v :
  fps !! k = Some fp ->
  run_next (take (S k) fps) v = next fp (run_next (take k fps) v).
Proof. intros H. by rewrite (take_S_r _ _ _ H), run_next_app. Qed.

Lemma run_shown_take_S fps k fp v :
  fps !! k = Some fp ->
  run_shown (take (S k) fps) v =
  run_shown (take k fps) v ++ shown fp (run_next (take k fps) v).
Proof.
  intros H. rewrite (take_S_r _ _ _ H), run_shown_app. cbn.
  by rewrite app_nil_r.
Qed.

Lemma final_action env a l w :
  monitor_uploads_and_forge env !! 48 = Some a ->
  a l w = (Ok l, add_out (upload_complete_event (current_workflow (srv w))) w).
Proof. intros H. injection H as <-. reflexivity. Qed.

Lemma tracking_step_self n env base v0 k w :
  tracking n env base v0 k w -> k < 49 ->
  tracking n env base v0 (S k) (step_thread w n).
Proof.
  intros (t & es & Ht & He & Hk & _ & Ho & Hbg & Hv & Hsn & Hoth & _) Hlt.
  subst k.
  destruct (lookup_lt_is_Some_2 (monitor_uploads_and_forge (th_env t)) (th_pc t))
    as [a Ha]; [rewrite monitor_length; lia|].
  destruct (step_thread_running w n t a Ht Ha)
    as (fp & l' & w' & es' & Hfp & _ & Hrun & (Ho' & Hp' & _) & _ & Hv' & Hsn'
        & Hbg' & _ & ->).
  exists (Thread (th_env t) l' (S (th_pc t))), (es ++ es').
  unfold set_pool, view_of in *. cbn [pool out srv sched th_env th_pc th_locals].
  split; [apply list_lookup_insert_eq; by eapply lookup_lt_Some|].
  split; [done|]. split; [done|]. split; [lia|].
  split; [by rewrite Ho', Ho, app_assoc|].
  split; [by apply Forall_app|].
  split; [by rewrite (run_next_take_S _ _ _ _ Hfp), <- Hv|].
  split; [by rewrite snapshots_app, Hsn, Hsn', (run_shown_take_S _ _ _ _ Hfp), Hv|].
  split.
  { intros i t' Hi Hl. rewrite list_lookup_insert_ne in Hl by done. eauto. }
  intros H49. assert (Hpc : th_pc t = 48) by lia. rewrite Hpc in Ha.
  rewrite (final_action _ _ _ _ Ha) in Hrun. injection Hrun as <- <-.
  cbn in Ho'. apply app_inv_head in Ho'. subst es'.
  exists es, []. split; [done | constructor].
Qed.

Lemma tracking_finished n env base v0 w t :
  tracking n env base v0 49 w -> pool w !! n = Some t -> finished t.
Proof.
  intros (t' & es & Ht & He & Hk & _) Ht2. unfold finished.
  rewrite monitor_length. assert (t = t') as -> by congruence. lia.
Qed.

Lemma tracking_step n env base v0 k w i :
  tracking n env base v0 k w ->
  exists k', k <= k' /\ tracking n env base v0 k' (step_thread w i).
Proof.
  intros H. destruct (decide (i = n)) as [->|Hne].
  - destruct (decide (k < 49)) as [Hlt|Hge].
    + exists (S k). split; [lia|]. by apply tracking_step_self.
    + assert (k = 49) as -> by (destruct H as (?&?&?&?&?&?&?); lia).
      exists 49. split; [done|]. rewrite step_thread_idle; [done|].
      intros t. by eapply tracking_finished.
  - exists k. split; [done|]. rewrite step_thread_idle; [done|].
    destruct H as (t & es & _ & _ & _ & _ & _ & _ & _ & _ & Hoth & _). eauto.
Qed.

Lemma tracking_run_background n env base v0 k w picks :
  tracking n env base v0 k w ->
  exists k', k <= k' /\ tracking n env base v0 k' (run_background picks w).
Proof.
  unfold run_background. revert k w.
  induction picks as [|i picks IH]; intros k w H; cbn.
  - exists k. done.
  - destruct (tracking_step _ _ _ _ _ _ i H) as (k1 & Hk1 & H1).
    destruct (IH _ _ H1) as (k2 & Hk2 & H2). exists k2. split; [lia|done].
Qed.

(** The request thread assigns a session attribute or logs: the pipeline
    is not disturbed. *)
Lemma tracking_request n env base v0 k w w' es' :
  tracking n env base v0 k w ->
  pool w' = pool w -> out w' = out w ++ es' -> Forall silent es' ->
  upload_status (srv w') = upload_status (srv w) ->
  current_workflow (srv w') = current_workflow (srv w) ->
  tracking n env base v0 k w'.
Proof.
  intros (t & es & Ht & He & Hk & Hle & Ho & Hbg & Hv & Hsn & Hoth & Hfin)
    Hp Ho' Hs Hu Hc.
  exists t, (es ++ es'). rewrite Hp.
  split; [done|]. split; [done|]. split; [done|]. split; [done|].
  split; [by rewrite Ho', Ho, app_assoc|].
  split; [apply Forall_app; split; [done | by apply silent_bg]|].
  split; [unfold view_of in *; by rewrite Hu|].
  split; [by rewrite snapshots_app, Hsn, (silent_snapshots _ Hs), app_nil_r|].
  split; [done|].
  intros H49. destruct (Hfin H49) as (before & after & -> & Hafter).
  exists before, (after ++ es'). rewrite Hc.
  split; [by rewrite <- app_assoc | by apply Forall_app].
Qed.

Lemma tracking_set_sched n env base v0 k w sc :
  tracking n env base v0 k w -> tracking n env base v0 k (set_sched sc w).
Proof. done. Qed.

Lemma tracking_yield n env base v0 k w :
  tracking n env base v0 k w ->
  exists w' k', yield w = (Ok tt, w') /\ k <= k'
    /\ tracking n env base v0 k' w' /\ same_session (srv w) (srv w').
Proof.
  intros H. unfold yield. destruct (sched w) as [|picks rest].
  - exists w, k. auto using same_session_refl.
  - destruct (tracking_run_background _ _ _ _ _ _ picks
                (tracking_set_sched _ _ _ _ _ _ rest H)) as (k' & Hk & H').
    destruct (run_background_bg_run picks (set_sched rest w))
      as (es & _ & _ & _ & Hss & _).
    eexists _, k'. done.
Qed.

(** Finishing the tracked thread, and draining the pool. *)
Lemma tracking_finish_self n env base v0 k w :
  tracking n env base v0 k w ->
  tracking n env base v0 49 (finish_thread n w).
Proof.
  intros H. unfold finish_thread.
  destruct H as (t & es & Ht & He & Hk & Hle & Hrest). rewrite Ht.
  rewrite monitor_length, Hk.
  assert (Htr : tracking n env base v0 k w) by (exists t, es; done).
  clear Ht He Hk Hrest t es.
  remember (49 - k) as d eqn:Hd. revert k w Hle Hd Htr.
  induction d as [|d IH]; intros k w Hle Hd Htr; cbn.
  - by assert (k = 49) as -> by lia.
  - apply (IH (S k)); [lia | lia |]. apply tracking_step_self; [done | lia].
Qed.

Lemma finish_thread_idle i w :
  (forall t, pool w !! i = Some t -> finished t) -> finish_thread i w = w.
Proof.
  intros H. unfold finish_thread. destruct (pool w !! i) as [t|]; [|done].
  specialize (H t eq_refl). unfold finished in H.
  by replace (_ - _) with 0 by lia.
Qed.

Lemma tracking_finish n env base v0 k w i :
  tracking n env base v0 k w ->
  (i = n /\ tracking n env base v0 49 (finish_thread i w))
  \/ (i <> n /\ finish_thread i w = w).
Proof.
  intros H. destruct (decide (i = n)) as [->|Hne].
  - left. split; [done|]. by eapply tracking_finish_self.
  - right. split; [done|]. apply finish_thread_idle.
    destruct H as (t & es & _ & _ & _ & _ & _ & _ & _ & _ & Hoth & _). eauto.
Qed.

Lemma tracking_pool_length n env base v0 k w :
  tracking n env base v0 k w -> n < length (pool w).
Proof. intros (t & es & Ht & _). by eapply lookup_lt_Some. Qed.

Lemma tracking_drain n env base v0 k w :
  tracking n env base v0 k w -> tracking n env base v0 49 (drain w).
Proof.
  intros H. unfold drain.
  pose proof (tracking_pool_length _ _ _ _ _ _ H) as Hn.
  assert (Hin : n ∈ seq 0 (length (pool w))) by (apply elem_of_seq; lia).
  revert Hin. generalize (seq 0 (length (pool w))) as idx.
  intros idx. revert k w H Hn.
  assert (Hdone : forall js w, tracking n env base v0 49 w ->
            tracking n env base v0 49
              (foldl (fun w i => finish_thread i w) w js)).
  { induction js as [|i js IH]; intros w H; [exact H|].
    cbn [foldl]. apply IH. destruct (tracking_finish _ _ _ _ _ _ i H) as [[_ H']|[_ Heq]];
      [done | by rewrite Heq]. }
  induction idx as [|i idx IH]; intros k w H Hn Hin; cbn [foldl].
  - by apply elem_of_nil in Hin.
  - destruct (tracking_finish _ _ _ _ _ _ i H) as [[-> H']|[Hne Heq]].
    + by apply Hdone.
    + rewrite Heq. apply (IH k); [done | done |].
      apply elem_of_cons in Hin as [->|]; done.
Qed.

Lemma bind_ok {A B} (m : M A) (k : A -> M B) w a w' :
  m w = (Ok a, w') -> (x <- m;; k x) w = k a w'.
Proof. unfold bind. by intros ->. Qed.

Lemma bind_raised {A B} (m : M A) (k : A -> M B) w e w' :
  m w = (Raised e, w') -> (x <- m;; k x) w = (Raised e, w').
Proof. unfold bind. by intros ->. Qed.

Lemma stop_audio_cases env w :
  exists r es,
    stop_audio env w = (r, World (srv w) (out w ++ es) (pool w) (sched w))
    /\ Forall silent es.
Proof.
  destruct w as [s o p sc]. unfold stop_audio. run.
  destruct (ret_stop_audio_recording env) as [v|e]; run.
  2:{ eexists _, _. split; [reflexivity | repeat constructor]. }
  destruct v; run;
    try (eexists _, _; split; [reflexivity | repeat constructor]).
  match goal with |- context [truthy ?x] => destruct (truthy x) end; run;
    rewrite <- ?app_assoc;
    eexists _, _; (split; [reflexivity | repeat constructor]).
Qed.

(** On an active session [stop_session] either raises before it changed
    anything but the trace, or starts the thread and runs its last
    statements. *)
Lemma stop_session_active env w :
  session_active (srv w) = true ->
  (exists e es,
      stop_session env w
      = (Raised e, World (srv w) (out w ++ es) (pool w) (sched w))
      /\ Forall silent es)
  \/ (exists es,
      stop_session env w = stop_session_rest (started env w es)
      /\ Forall silent es).
Proof.
  intros Hact. unfold stop_session.
  erewrite bind_ok by reflexivity. rewrite Hact. cbn [negb].
  erewrite bind_ok by reflexivity.
  erewrite bind_ok by reflexivity. cbn [srv add_out].
  destruct (command_client (srv w)) eqn:Hc.
  - fold (stop_audio env).
    destruct (stop_audio_cases env (add_out (Log INFO [Lit "Stopping session via audio stop command"]) w))
      as ([[]|e] & es & Heq & Hes).
    + right. erewrite bind_ok by exact Heq.
      erewrite bind_ok by reflexivity.
      eexists. split.
      * unfold started, set_pool, add_out. cbn. rewrite <- app_assoc. reflexivity.
      * repeat constructor. done.
    + left. erewrite bind_raised by exact Heq.
      eexists _, _. split.
      * unfold add_out. cbn. rewrite <- app_assoc. reflexivity.
      * by repeat constructor.
  - right. erewrite bind_ok by reflexivity.
    erewrite bind_ok by reflexivity.
    eexists. split; [reflexivity | repeat constructor].
Qed.

Lemma stop_session_rest_frame w :
  exists w1 es,
    stop_session_rest w = (Ok tt, w1)
    /\ out w1 = out w ++ es /\ length (pool w1) = length (pool w)
    /\ Forall bg_effect es
    /\ session_active (srv w1) = false
    /\ session_start_time (srv w1) = None
    /\ session_id (srv w1) = None
    /\ command_client (srv w1) = command_client (srv w).
Proof.
  unfold stop_session_rest.
  destruct (yield_bg_run w) as (w1 & es1 & Hy1 & Ho1 & Hl1 & Hs1 & Hb1).
  erewrite bind_ok by exact Hy1. erewrite bind_ok by reflexivity.
  set (w1' := set_srv _ w1).
  destruct (yield_bg_run w1') as (w2 & es2 & Hy2 & Ho2 & Hl2 & Hs2 & Hb2).
  erewrite bind_ok by exact Hy2. erewrite bind_ok by reflexivity.
  set (w2' := set_srv _ w2).
  destruct (yield_bg_run w2') as (w3 & es3 & Hy3 & Ho3 & Hl3 & Hs3 & Hb3).
  erewrite bind_ok by exact Hy3. erewrite bind_ok by reflexivity.
  set (w3' := set_srv _ w3).
  destruct (yield_bg_run w3') as (w4 & es4 & Hy4 & Ho4 & Hl4 & Hs4 & Hb4).
  erewrite bind_ok by exact Hy4.
  eexists _, (es1 ++ es2 ++ es3 ++ es4 ++ [Log INFO [Lit "Session stopped successfully"]]).
  split; [reflexivity|].
  destruct Hs1 as (A1 & B1 & C1 & D1), Hs2 as (A2 & B2 & C2 & D2),
           Hs3 as (A3 & B3 & C3 & D3), Hs4 as (A4 & B4 & C4 & D4).
  subst w1' w2' w3'. cbn in *.
  split. { rewrite Ho4, Ho3, Ho2, Ho1. by rewrite <- !app_assoc. }
  split. { congruence. }
  split. { repeat (apply Forall_app; split; [done|]). repeat constructor. }
  repeat split; congruence.
Qed.

Lemma tracking_assign n env base v0 k w f :
  tracking n env base v0 k w ->
  (forall s, upload_status (f s) = upload_status s) ->
  (forall s, current_workflow (f s) = current_workflow s) ->
  tracking n env base v0 k (set_srv (f (srv w)) w).
Proof.
  intros H Hf Hc.
  apply (tracking_request _ _ _ _ _ _ _ [] H); cbn;
    [done | by rewrite app_nil_r | constructor | apply Hf | apply Hc].
Qed.

Lemma stop_session_rest_tracking n env base v0 k w :
  tracking n env base v0 k w ->
  exists k1 w1,
    stop_session_rest w = (Ok tt, w1) /\ k <= k1 /\ tracking n env base v0 k1 w1.
Proof.
  intros H0. unfold stop_session_rest.
  destruct (tracking_yield _ _ _ _ _ _ H0) as (w1 & k1 & Hy1 & Hk1 & H1 & _).
  erewrite bind_ok by exact Hy1. erewrite bind_ok by reflexivity.
  apply (tracking_assign _ _ _ _ _ _ (set_session_active false)) in H1; [|done|done].
  destruct (tracking_yield _ _ _ _ _ _ H1) as (w2 & k2 & Hy2 & Hk2 & H2 & _).
  erewrite bind_ok by exact Hy2. erewrite bind_ok by reflexivity.
  apply (tracking_assign _ _ _ _ _ _ (set_session_start_time None)) in H2; [|done|done].
  destruct (tracking_yield _ _ _ _ _ _ H2) as (w3 & k3 & Hy3 & Hk3 & H3 & _).
  erewrite bind_ok by exact Hy3. erewrite bind_ok by reflexivity.
  apply (tracking_assign _ _ _ _ _ _ (set_session_id None)) in H3; [|done|done].
  destruct (tracking_yield _ _ _ _ _ _ H3) as (w4 & k4 & Hy4 & Hk4 & H4 & _).
  erewrite bind_ok by exact Hy4.
  eexists k4, _. split; [reflexivity|]. split; [lia|].
  eapply tracking_request;
    [exact H4 | reflexivity | reflexivity | | reflexivity | reflexivity].
  repeat constructor.
Qed.

(** Starting the thread on a quiescent pool begins the tracking. *)
Lemma tracking_started env w es :
  quiescent w ->
  tracking (length (pool w)) (pipeline env) (out w ++ es)
           (View [] (upload_status (srv w))) 0 (started env w es).
Proof.
  intros Hq. exists (Thread (pipeline env) fresh_locals 0), []. cbn.
  split. { by rewrite lookup_app_r, Nat.sub_diag. }
  split; [done|]. split; [done|]. split; [lia|].
  split; [by rewrite app_nil_r|]. split; [constructor|].
  split; [done|]. split; [done|].
  split; [|lia].
  intros i t' Hi Hl. unfold quiescent in Hq.
  rewrite Forall_lookup in Hq. apply (Hq i).
  destruct (decide (i < length (pool w))).
  - by rewrite lookup_app_l in Hl.
  - rewrite lookup_app_r in Hl by lia.
    destruct (i - length (pool w)) as [|j] eqn:Hj; [lia|]. done.
Qed.

Lemma drain_bg_run w : exists es, bg_run w (drain w) es.
Proof.
  unfold drain. generalize (seq 0 (length (pool w))) as idx. intros idx.
  revert w. induction idx as [|i idx IH]; intros w; cbn [foldl].
  - exists []. apply bg_run_refl.
  - assert (exists es, bg_run w (finish_thread i w) es) as (es1 & H1).
    { unfold finish_thread. destruct (pool w !! i).
      - apply run_background_bg_run.
      - exists []. apply bg_run_refl. }
    destruct (IH (finish_thread i w)) as (es2 & H2).
    exists (es1 ++ es2). by eapply bg_run_trans.
Qed.

Lemma bg_effect_not_event name es :
  name ∉ pipeline_events -> Forall bg_effect es ->
  forallb (fun e => negb (is_event name e)) es = true.
Proof.
  intros Hn. induction 1 as [|e es He _ IH]; [done|]. cbn. rewrite IH.
  destruct e as [[] ev d| | | |]; cbn in *; try done.
  destruct (String.eqb_spec ev name); [by subst|done].
Qed.

Lemma retrieve_raises env sid w e :
  ret_get_random_published_workflow env = Raises e ->
  _retrieve_workflow_from_firestore env sid w
  = (Ok tt, World (srv w)
              (out w ++ [call_retrieve;
                         Log ERROR (Lit "Error retrieving workflow: " :: exn_text e)])
              (pool w) (sched w)).
Proof.
  intros H. destruct w as [s o p sc].
  unfold _retrieve_workflow_from_firestore. run. rewrite H. run.
  by rewrite <- app_assoc.
Qed.

Lemma retrieve_falsy env sid w v :
  ret_get_random_published_workflow env = Returns v -> truthy v = false ->
  _retrieve_workflow_from_firestore env sid w
  = (Ok tt, World (set_current_workflow fallback_workflow (srv w))
              (out w ++ [call_retrieve;
                         Log ERROR
                           [Lit "Failed to retrieve workflow from Firestore. Data keys: ";
                            Fmt (PStr "None")]])
              (pool w) (sched w)).
Proof.
  intros H Ht. destruct w as [s o p sc].
  unfold _retrieve_workflow_from_firestore. run. rewrite H. run.
  rewrite Ht. run. by rewrite <- app_assoc.
Qed.

Lemma truthy_dict_lookup d k (v : pyval) : d !! k = Some v -> truthy (PDict d) = true.
Proof.
  intros H. cbn. destruct (size d) eqn:Hs; [|done].
  apply map_size_empty_iff in Hs. subst. by rewrite lookup_empty in H.
Qed.

Lemma retrieve_missing_key env sid w d :
  ret_get_random_published_workflow env = Returns (PDict d) ->
  truthy (PDict d) = true -> d !! "workflow_data" = None ->
  _retrieve_workflow_from_firestore env sid w
  = (Ok tt, World (set_current_workflow fallback_workflow (srv w))
              (out w ++ [call_retrieve;
                         Log ERROR
                           [Lit "Failed to retrieve workflow from Firestore. Data keys: ";
                            Fmt (PList (PStr <$> (fst <$> map_to_list d)))]])
              (pool w) (sched w)).
Proof.
  intros H Ht Hk. destruct w as [s o p sc].
  unfold _retrieve_workflow_from_firestore. run. rewrite H. run.
  cbn in Ht. rewrite Ht. run. rewrite Hk. run.
  rewrite ?bool_decide_eq_false_2 by (by intros [? ?]). run.
  by rewrite <- app_assoc.
Qed.

Lemma retrieve_real env sid w d info :
  ret_get_random_published_workflow env = Returns (PDict d) ->
  d !! "workflow_data" = Some (PDict info) ->
  _retrieve_workflow_from_firestore env sid w
  = (Ok tt, World (set_current_workflow (stored_workflow d info) (srv w))
              (out w ++ [call_retrieve;
                         Log INFO [Lit "Retrieved workflow: ";
                                   Fmt (dict_get info "title" (PStr "Unknown Workflow"))];
                         Log INFO [Lit "Workflow has guide_markdown: ";
                                   Fmt (PBool (truthy (dict_get info "guide_markdown" PNone)))]])
              (pool w) (sched w)).
Proof.
  intros H Hk. destruct w as [s o p sc].
  pose proof (truthy_dict_lookup _ _ _ Hk) as Ht. cbn in Ht.
  unfold _retrieve_workflow_from_firestore. run. rewrite H. run.
  rewrite Ht. run. rewrite Hk. run.
  rewrite ?bool_decide_eq_true_2 by eauto. run.
  by rewrite <- !app_assoc.
Qed.

(** A response whose ['workflow_data'] is not a dictionary makes the
    helper raise inside its own [try]. *)
Lemma retrieve_malformed env sid w d info :
  ret_get_random_published_workflow env = Returns (PDict d) ->
  d !! "workflow_data" = Some info ->
  (forall i, info <> PDict i) ->
  _retrieve_workflow_from_firestore env sid w
  = (Ok tt, World (srv w)
              (out w ++ [call_retrieve;
                         Log ERROR (Lit "Error retrieving workflow: "
                                    :: exn_text (AttributeError info "get"))])
              (pool w) (sched w)).
Proof.
  intros H Hk Hn. destruct w as [s o p sc].
  pose proof (truthy_dict_lookup _ _ _ Hk) as Ht. cbn in Ht.
  unfold _retrieve_workflow_from_firestore. run. rewrite H. run.
  rewrite Ht. run. rewrite Hk. run.
  rewrite ?bool_decide_eq_true_2 by eauto. run.
  destruct info; run; try (by rewrite <- !app_assoc).
  by destruct (Hn d0).
Qed.

Lemma trigger_generation_raises env sid st w e :
  ret_generate_trigger_json env = Raises e ->
  exists es,
    _execute_forge_trigger_generation env sid st w
    = (Ok tt, World (srv w) (out w ++ es) (pool w) (sched w))
    /\ Log ERROR (Lit "Error generating forge trigger: " :: exn_text e) ∈ es.
Proof.
  intros H. destruct w as [s o p sc].
  unfold _execute_forge_trigger_generation. run. rewrite H. run.
  rewrite <- app_assoc. eexists. split; [reflexivity|]. set_solver.
Qed.

Lemma trigger_save_raises env sid st w v e :
  ret_generate_trigger_json env = Returns v ->
  ret_save_trigger_to_file env = Raises e ->
  exists es,
    _execute_forge_trigger_generation env sid st w
    = (Ok tt, World (srv w) (out w ++ es) (pool w) (sched w))
    /\ Log ERROR (Lit "Error generating forge trigger: " :: exn_text e) ∈ es.
Proof.
  intros H H'. destruct w as [s o p sc].
  unfold _execute_forge_trigger_generation. run. rewrite H. run. rewrite H'. run.
  rewrite <- !app_assoc. eexists. split; [reflexivity|]. set_solver.
Qed.

Lemma forge_processing_raises env sid w e :
  ret_process_session env = Raises e ->
  exists es,
    _execute_forge_processing env sid w
    = (Ok tt, World (srv w) (out w ++ es) (pool w) (sched w))
    /\ Log ERROR (Lit "Error in forge processing: " :: exn_text e) ∈ es.
Proof.
  intros H. destruct w as [s o p sc].
  unfold _execute_forge_processing. run. rewrite H. run.
  rewrite <- app_assoc. eexists. split; [reflexivity|]. set_solver.
Qed.

Lemma forge_processing_rejected env sid w d :
  ret_process_session env = Returns (PDict d) ->
  eq_str (dict_get d "status" PNone) "completed" = false ->
  exists es,
    _execute_forge_processing env sid w
    = (Ok tt, World (srv w) (out w ++ es) (pool w) (sched w))
    /\ Log ERROR [Lit "Forge processing failed: ";
                  Fmt (dict_get d "error" (PStr "Unknown error"))] ∈ es.
Proof.
  intros H Hs. destruct w as [s o p sc]. unfold dict_get in *.
  unfold _execute_forge_processing. run. rewrite H. run. rewrite Hs. run.
  rewrite <- !app_assoc. eexists. split; [reflexivity|]. set_solver.
Qed.

Lemma forge_processing_malformed env sid w v :
  ret_process_session env = Returns v ->
  (forall d, v <> PDict d) ->
  exists es,
    _execute_forge_processing env sid w
    = (Ok tt, World (srv w) (out w ++ es) (pool w) (sched w))
    /\ Log ERROR (Lit "Error in forge processing: "
                  :: exn_text (AttributeError v "get")) ∈ es.
Proof.
  intros H Hn. destruct w as [s o p sc].
  unfold _execute_forge_processing. run. rewrite H. run.
  destruct v; run; try (rewrite <- !app_assoc; eexists; split; [reflexivity|]; set_solver).
  by destruct (Hn d).
Qed.

Lemma run_actions_contains acts fps k a :
  Forall2 has_footprint acts fps -> acts !! k = Some a ->
  forall l w, exists lk wk pre lk' wk' esa lf wf post,
    run_actions (take k acts) l w = (Ok lk, wk) /\ grows w wk pre
    /\ a lk wk = (Ok lk', wk') /\ grows wk wk' esa
    /\ run_actions (drop (S k) acts) lk' wk' = (Ok lf, wf) /\ grows wk' wf post
    /\ run_actions acts l w = (Ok lf, wf)
    /\ grows w wf (pre ++ esa ++ post).
Proof.
  intros HF Ha l w.
  destruct (Forall2_lookup_l _ _ _ _ _ HF Ha) as (fp & Hfp & Hhas).
  destruct (run_actions_footprints _ _ (Forall2_take _ _ _ k HF) l w)
    as (lk & wk & pre & Hr1 & Hg1 & _).
  destruct (Hhas lk wk) as (lk' & wk' & esa & Hr2 & Hg2 & _).
  destruct (run_actions_footprints _ _ (Forall2_drop _ _ _ (S k) HF) lk' wk')
    as (lf & wf & post & Hr3 & Hg3 & _).
  exists lk, wk, pre, lk', wk', esa, lf, wf, post.
  assert (Hall : run_actions acts l w = (Ok lf, wf)).
  { rewrite <- (take_drop_middle acts k a Ha) at 1.
    rewrite run_actions_app, Hr1. cbn. unfold bind. by rewrite Hr2. }
  repeat (split; [done|]).
  replace (pre ++ esa ++ post) with ((pre ++ esa) ++ post)
    by (by rewrite app_assoc).
  eauto using grows_trans.
Qed.

Lemma grows_inj w w' es es' : grows w w' es -> grows w w' es' -> es = es'.
Proof. intros (H & _) (H' & _). rewrite H in H'. by apply app_inv_head in H'. Qed.

Lemma monitor_at_retrieval env :
  monitor_uploads_and_forge env !! 41 = Some (execute_forge_step env retrieval_step).
Proof. reflexivity. Qed.

Lemma execute_retrieval env l w :
  execute_forge_step env retrieval_step l w =
  (_retrieve_workflow_from_firestore env (l_session_id l);; ret l) w.
Proof. reflexivity. Qed.

Lemma pipeline_tail env l w :
  exists l',
    run_actions (drop 42 (monitor_uploads_and_forge env)) l w
    = (Ok l', World (set_upload_status (final_status l) (srv w))
                    (out w ++ closing_events (final_status l)
                                             (current_workflow (srv w)))
                    (pool w) (sched w)).
Proof.
  destruct l as [lt li lc], w as [[sa st si sc su sw] o p sch].
  change (drop 42 (monitor_uploads_and_forge env)) with
    [ append_completed "Retrieving processed workflow...";
      append_completed "Workflow processing completed! Ready to view results.";
      (fun l => assign (set_upload_status
                   (Status "Processing complete" false (completed_steps l)));;
                 ret l);
       emit_upload_status;
       (fun l => wf <- self current_workflow;;
                 (if truthy wf
                  then emit Broadcast "workflow_ready" (WorkflowPayload wf)
                  else ret tt);;
                 ret l);
       pause 3;
       (fun l => wf <- self current_workflow;;
                 emit Broadcast "upload_complete"
                   (CompletePayload "All processing completed successfully!"
                                    (is_not_None wf));;
                 ret l) ].
  unfold run_actions, append_completed, emit_upload_status, pause, closing_events,
    final_status. run.
  destruct (truthy sw); run; rewrite <- ?app_assoc; cbn;
    eexists; reflexivity.
Qed.

Lemma no_write_before_retrieval : no_workflow_write (take 41 monitor_footprints).
Proof. repeat constructor. Qed.

Lemma run_pipeline_shape env w :
  exists l0 w0 pre w1 mid lf wf,
    grows w w0 pre
    /\ Forall bg_effect pre
    /\ current_workflow (srv w0) = current_workflow (srv w)
    /\ _retrieve_workflow_from_firestore env (l_session_id l0) w0 = (Ok tt, w1)
    /\ grows w0 w1 mid
    /\ run_pipeline env w = (Ok lf, wf)
    /\ grows w wf (pre ++ mid ++ closing_events (upload_status (srv wf))
                                   (current_workflow (srv w1)))
    /\ current_workflow (srv wf) = current_workflow (srv w1)
    /\ is_uploading (upload_status (srv wf)) = false.
Proof.
  destruct (run_actions_contains _ _ 41 _ (monitor_has_footprints env)
              (monitor_at_retrieval env) fresh_locals w)
    as (l0 & w0 & pre & l1 & w1 & mid & lf & wf & post
        & Hr1 & Hg1 & Hr2 & Hg2 & Hr3 & Hg3 & Hall & Hg).
  destruct (run_actions_footprints _ _
              (Forall2_take _ _ _ 41 (monitor_has_footprints env)) fresh_locals w)
    as (l0' & w0' & pre' & Hr1' & Hg1' & _ & _ & _ & Hbg & Hcw).
  rewrite Hr1 in Hr1'. injection Hr1' as <- <-.
  rewrite (grows_inj _ _ _ _ Hg1 Hg1') in *.
  rewrite execute_retrieval in Hr2.
  destruct (retrieve_workflow_frame env (l_session_id l0) w0)
    as (es & wf' & Heq & _).
  unfold bind in Hr2. rewrite Heq in Hr2. unfold ret in Hr2.
  injection Hr2 as <- <-.
  destruct (pipeline_tail env l0 (World (set_current_workflow wf' (srv w0))
                                    (out w0 ++ es) (pool w0) (sched w0)))
    as (l' & Htail).
  rewrite Htail in Hr3. injection Hr3 as <- <-.
  eexists l0, w0, pre', _, mid, _, _.
  split; [done|]. split; [done|].
  split; [by apply Hcw, no_write_before_retrieval|].
  split; [exact Heq|]. split; [done|]. split; [exact Hall|].
  cbn in *. split; [|done].
  assert (post = closing_events (final_status l0) wf') as ->; [|done].
  eapply grows_inj; [exact Hg3|]. by repeat split.
Qed.

Lemma current_workflow_set wf s :
  current_workflow (set_current_workflow wf s) = wf.
Proof. by destruct s. Qed.

Lemma retrieve_absent env sid w v :
  ret_get_random_published_workflow env = Returns v -> absent v ->
  current_workflow (srv (_retrieve_workflow_from_firestore env sid w).2)
  = fallback_workflow.
Proof.
  intros Hr [Hf|(d & -> & Hk)].
  - rewrite (retrieve_falsy _ _ _ _ Hr Hf). apply current_workflow_set.
  - destruct (truthy (PDict d)) eqn:Ht.
    + rewrite (retrieve_missing_key _ _ _ _ Hr Ht Hk). apply current_workflow_set.
    + rewrite (retrieve_falsy _ _ _ _ Hr Ht). apply current_workflow_set.
Qed.

Lemma retrieve_real_workflow env sid w d info :
  ret_get_random_published_workflow env = Returns (PDict d) ->
  d !! "workflow_data" = Some (PDict info) ->
  current_workflow (srv (_retrieve_workflow_from_firestore env sid w).2)
  = stored_workflow d info.
Proof.
  intros Hr Hk. rewrite (retrieve_real _ _ _ _ _ Hr Hk).
  apply current_workflow_set.
Qed.

Lemma fallback_is_fallback : is_fallback_result fallback_workflow.
Proof.
  split; [vm_compute; reflexivity|].
  split; eexists; (split; [vm_compute; reflexivity | discriminate]).
Qed.

(** C1, as stated, fails: when the retrieval call raises on a server that
    has no result yet, no fallback is stored and [current_workflow] stays
    [None]. *)
Lemma C1_counterexample : ~ fallback_on_error env_down None w_init.
Proof.
  intros H. destruct (H unreachable eq_refl) as (Hsrc & _).
  vm_compute in Hsrc. discriminate.
Qed.

(** C1, amended. For every outcome of the retrieval call of step 10:
    - it returns a falsy value or a dictionary without ['workflow_data']:
      [current_workflow] becomes the fixed fallback, whose source is
      ['fallback'] and whose title and guide are non-empty;
    - it returns a dictionary whose ['workflow_data'] is a dictionary:
      [current_workflow] is built from the response, title, score and guide
      from ['workflow_data'], id, link and source from the response, each
      with its default when the key is missing (the source defaults to
      ['firestore']);
    - it raises: [current_workflow] keeps its previous value. *)
Theorem C1_retrieval_outcomes env sid w :
  let wf := current_workflow
              (srv (_retrieve_workflow_from_firestore env sid w).2) in
  (forall v, ret_get_random_published_workflow env = Returns v -> absent v ->
     wf = fallback_workflow /\ is_fallback_result wf)
  /\ (forall d info,
        ret_get_random_published_workflow env = Returns (PDict d) ->
        d !! "workflow_data" = Some (PDict info) ->
        wf = stored_workflow d info
        /\ workflow_field wf "title"
           = Some (dict_get info "title" (PStr "Unknown Workflow"))
        /\ workflow_field wf "id"
           = Some (dict_get d "workflow_id" (PStr "unknown"))
        /\ workflow_field wf "score"
           = Some (dict_get info "productivity_score" (PFloat 0))
        /\ workflow_field wf "guide_markdown"
           = Some (dict_get info "guide_markdown" (PStr ""))
        /\ workflow_field wf "firestore_url"
           = Some (dict_get d "firestore_url" (PStr ""))
        /\ workflow_source wf = Some (dict_get d "source" (PStr "firestore")))
  /\ (forall e, ret_get_random_published_workflow env = Raises e ->
        wf = current_workflow (srv w)).
Proof.
  cbv zeta. split; [|split].
  - intros v Hr Habs. rewrite (retrieve_absent _ _ _ _ Hr Habs).
    split; [done | apply fallback_is_fallback].
  - intros d info Hr Hk. rewrite (retrieve_real_workflow _ _ _ _ _ Hr Hk).
    repeat split; vm_compute; reflexivity.
  - intros e Hr. by rewrite (retrieve_raises _ _ _ _ Hr).
Qed.

Lemma C1_retrieval_outcomes_witness :
  current_workflow
    (srv (_retrieve_workflow_from_firestore env_no_result None w_init).2)
  = fallback_workflow
  /\ workflow_field
       (current_workflow
          (srv (_retrieve_workflow_from_firestore env_ok None w_init).2))
       "title"
     = Some (dict_get sample_info "title" (PStr "Unknown Workflow"))
  /\ current_workflow
       (srv (_retrieve_workflow_from_firestore env_down None w_init).2)
     = current_workflow (srv w_init).
Proof.
  assert (Hkey : sample_response !! "workflow_data" = Some (PDict sample_info))
    by (vm_compute; reflexivity).
  destruct (C1_retrieval_outcomes env_no_result None w_init) as (H1 & _ & _).
  destruct (C1_retrieval_outcomes env_ok None w_init) as (_ & H2 & _).
  destruct (C1_retrieval_outcomes env_down None w_init) as (_ & _ & H3).
  destruct (H1 PNone eq_refl (or_introl eq_refl)) as (Ha & _).
  destruct (H2 sample_response sample_info eq_refl Hkey) as (_ & Hb & _).
  split; [exact Ha|]. split; [exact Hb|]. exact (H3 unreachable eq_refl).
Defined.

Lemma closing_events_last st wf :
  exists front,
    closing_events st wf
    = front ++ [Emit Broadcast "upload_complete"
                  (CompletePayload "All processing completed successfully!"
                                   (is_not_None wf))].
Proof.
  unfold closing_events. destruct (truthy wf).
  - by eexists [_; _; _].
  - by eexists [_; _].
Qed.

(** C9. When the retrieval call itself raises, the helper catches the
    exception, logs it and leaves [current_workflow] (indeed the whole
    server object) as it was: no fallback is installed. The pipeline then
    ends normally, still holding the earlier value, and its final
    [upload_complete] event reports [has_workflow] for that earlier
    value. *)
Theorem C9_exception_keeps_workflow env sid w e :
  ret_get_random_published_workflow env = Raises e ->
  _retrieve_workflow_from_firestore env sid w
  = (Ok tt, World (srv w)
              (out w ++ [call_retrieve;
                         Log ERROR (Lit "Error retrieving workflow: " :: exn_text e)])
              (pool w) (sched w))
  /\ exists l' w' tr,
       run_pipeline env w = (Ok l', w')
       /\ current_workflow (srv w') = current_workflow (srv w)
       /\ new_effects w w'
          = tr ++ [Emit Broadcast "upload_complete"
                     (CompletePayload "All processing completed successfully!"
                        (is_not_None (current_workflow (srv w))))].
Proof.
  intros He. split; [by apply retrieve_raises|].
  destruct (run_pipeline_shape env w)
    as (l0 & w0 & pre & w1 & mid & lf & wf & Hg0 & _ & Hcw0 & Hret & _ & Hrun
        & Hg & Hcw & _).
  rewrite (retrieve_raises _ _ _ _ He) in Hret. injection Hret as <-.
  cbn [srv] in Hcw, Hg.
  destruct (closing_events_last (upload_status (srv wf))
              (current_workflow (srv w0))) as (front & Hfront).
  exists lf, wf, (pre ++ mid ++ front).
  split; [exact Hrun|]. split; [congruence|].
  rewrite (grows_new_effects _ _ _ Hg), Hfront, Hcw0.
  by rewrite <- !app_assoc.
Qed.

Lemma C9_exception_keeps_workflow_witness :
  _retrieve_workflow_from_firestore env_down (Some "4f1c") w_active
  = (Ok tt, World (srv w_active)
              (out w_active ++
               [call_retrieve;
                Log ERROR (Lit "Error retrieving workflow: " :: exn_text unreachable)])
              (pool w_active) (sched w_active)).
Proof.
  exact (proj1 (C9_exception_keeps_workflow env_down (Some "4f1c") w_active
                  unreachable eq_refl)).
Defined.

(** Every uninterrupted run broadcasts the same snapshots, whatever the
    collaborators answer and whatever state the server was in. *)
Lemma run_pipeline_snapshots env w :
  exists l' w' tr,
    run_pipeline env w = (Ok l', w')
    /\ new_effects w w' = tr
    /\ snapshots tr = pipeline_snapshots
    /\ Forall bg_effect tr.
Proof.
  destruct (run_actions_footprints _ _ (monitor_has_footprints env) fresh_locals w)
    as (l' & w' & tr & Hr & Hg & _ & _ & Hsn & Hbg & _).
  exists l', w', tr. split; [exact Hr|].
  split; [by apply grows_new_effects|].
  split; [by rewrite Hsn, run_shown_monitor | done].
Qed.




Lemma ordered_by_lookup {A} (R : A -> A -> Prop) (l : list A) i j x y :
  ordered_by R l -> i < j -> l !! i = Some x -> l !! j = Some y -> R x y.
Proof.
  revert i j. induction l as [|a l IH]; intros i j Ho Hlt Hi Hj; [done|].
  destruct Ho as [Ha Ho]. destruct j as [|j]; [lia|]. cbn in Hj.
  destruct i as [|i].
  - injection Hi as ->. rewrite Forall_lookup in Ha. by eapply Ha.
  - cbn in Hi. apply (IH i j); [done | lia | done | done].
Qed.

Lemma pipeline_snapshots_ordered : ordered_by feed_step pipeline_snapshots.
Proof.
  vm_compute.
  repeat (first [ exact I | apply Forall_nil | apply Forall_cons | split ]);
    first [ by eexists | lia | reflexivity ].
Qed.

Lemma monitor_at_trigger env :
  monitor_uploads_and_forge env !! 25 = Some (execute_forge_step env trigger_step).
Proof. reflexivity. Qed.

Lemma monitor_at_processing env :
  monitor_uploads_and_forge env !! 29
  = Some (execute_forge_step env processing_step).
Proof. reflexivity. Qed.

Lemma execute_trigger env l w :
  execute_forge_step env trigger_step l w =
  (_execute_forge_trigger_generation env (l_session_id l)
     (l_session_start_time l);; ret l) w.
Proof. reflexivity. Qed.

Lemma execute_processing env l w :
  execute_forge_step env processing_step l w =
  (_execute_forge_processing env (l_session_id l);; ret l) w.
Proof. reflexivity. Qed.

(** Whatever one action of the pipeline appends to the trace is part of
    what the whole run appends. *)
Lemma run_pipeline_includes env w k a e :
  monitor_uploads_and_forge env !! k = Some a ->
  (forall l wk, exists wk' es,
      (a l wk).2 = wk' /\ out wk' = out wk ++ es /\ e ∈ es) ->
  forall l' w', run_pipeline env w = (Ok l', w') -> e ∈ new_effects w w'.
Proof.
  intros Ha He l' w' Hr.
  destruct (run_actions_contains _ _ k _ (monitor_has_footprints env) Ha
              fresh_locals w)
    as (lk & wk & pre & lk' & wk' & esa & lf & wf & post
        & _ & _ & Hra & Hga & _ & _ & Hall & Hg).
  unfold run_pipeline in Hr. rewrite Hall in Hr. injection Hr as <- <-.
  rewrite (grows_new_effects _ _ _ Hg).
  destruct (He lk wk) as (wk2 & es & Heq & Ho & Hin).
  rewrite Hra in Heq. cbn in Heq. subst wk2.
  destruct Hga as (Ho' & _). rewrite Ho' in Ho. apply app_inv_head in Ho.
  subst. set_solver.
Qed.

Lemma failure_logged env msg :
  failure env msg ->
  forall w l' w', run_pipeline env w = (Ok l', w') ->
    Log ERROR msg ∈ new_effects w w'.
Proof.
  intros Hf w l' w' Hr.
  destruct Hf as [e H|v e H H'|e H|d H Hs|v H Hn|e H].
  - eapply run_pipeline_includes; [apply monitor_at_trigger | | exact Hr].
    intros l wk. rewrite execute_trigger. unfold bind.
    destruct (trigger_generation_raises env (l_session_id l)
                (l_session_start_time l) wk e H) as (es & -> & Hin).
    by eexists _, es.
  - eapply run_pipeline_includes; [apply monitor_at_trigger | | exact Hr].
    intros l wk. rewrite execute_trigger. unfold bind.
    destruct (trigger_save_raises env (l_session_id l)
                (l_session_start_time l) wk v e H H') as (es & -> & Hin).
    by eexists _, es.
  - eapply run_pipeline_includes; [apply monitor_at_processing | | exact Hr].
    intros l wk. rewrite execute_processing. unfold bind.
    destruct (forge_processing_raises env (l_session_id l) wk e H)
      as (es & -> & Hin).
    by eexists _, es.
  - eapply run_pipeline_includes; [apply monitor_at_processing | | exact Hr].
    intros l wk. rewrite execute_processing. unfold bind.
    destruct (forge_processing_rejected env (l_session_id l) wk d H Hs)
      as (es & -> & Hin).
    by eexists _, es.
  - eapply run_pipeline_includes; [apply monitor_at_processing | | exact Hr].
    intros l wk. rewrite execute_processing. unfold bind.
    destruct (forge_processing_malformed env (l_session_id l) wk v H Hn)
      as (es & -> & Hin).
    by eexists _, es.
  - eapply run_pipeline_includes; [apply monitor_at_retrieval | | exact Hr].
    intros l wk. rewrite execute_retrieval. unfold bind.
    rewrite (retrieve_raises _ _ _ _ H).
    eexists _, _. split; [reflexivity|]. split; [reflexivity|]. set_solver.
Qed.

Lemma retrieval_executed env w l' w' :
  run_pipeline env w = (Ok l', w') -> call_retrieve ∈ new_effects w w'.
Proof.
  intros Hr.
  eapply run_pipeline_includes; [apply monitor_at_retrieval | | exact Hr].
  intros l wk. rewrite execute_retrieval. unfold bind.
  destruct (retrieve_workflow_calls env (l_session_id l) wk)
    as (rest & wf & -> & _).
  eexists _, _. split; [reflexivity|]. split; [reflexivity|]. set_solver.
Qed.

(** C7. Whichever real-action collaborator call fails (trigger generation
    or saving raises; the forge raises, answers a status other than
    'completed' or answers something that is no dictionary; the retrieval
    raises), the pipeline run still returns normally: the failure is
    written to the log at level ERROR, no exception leaves the run, the
    retrieval of step 10 is still called, and the run ends with
    [is_uploading] false and the [upload_complete] event as its last
    effect. *)
Theorem C7_failures_are_isolated env msg w :
  failure env msg ->
  exists l' w' tr,
    run_pipeline env w = (Ok l', w')
    /\ Log ERROR msg ∈ new_effects w w'
    /\ call_retrieve ∈ new_effects w w'
    /\ Forall bg_effect (new_effects w w')
    /\ is_uploading (upload_status (srv w')) = false
    /\ new_effects w w'
       = tr ++ [Emit Broadcast "upload_complete"
                  (CompletePayload "All processing completed successfully!"
                     (is_not_None (current_workflow (srv w'))))].
Proof.
  intros Hf.
  destruct (run_pipeline_snapshots env w) as (l' & w' & tr0 & Hr & <- & _ & Hbg).
  destruct (run_pipeline_shape env w)
    as (l0 & w0 & pre & w1 & mid & lf & wf & _ & _ & _ & _ & _ & Hrun
        & Hg & Hcw & Hup).
  rewrite Hr in Hrun. injection Hrun as <- <-.
  destruct (closing_events_last (upload_status (srv w'))
              (current_workflow (srv w1))) as (front & Hfront).
  exists l', w', (pre ++ mid ++ front).
  split; [exact Hr|].
  split; [by eapply failure_logged|].
  split; [by eapply retrieval_executed|].
  split; [done|]. split; [done|].
  rewrite (grows_new_effects _ _ _ Hg), Hfront, Hcw.
  by rewrite <- !app_assoc.
Qed.

Lemma C7_failures_are_isolated_witness :
  exists l' w' tr,
    run_pipeline env_down w_active = (Ok l', w')
    /\ Log ERROR (Lit "Error in forge processing: " :: exn_text unreachable)
       ∈ new_effects w_active w'
    /\ call_retrieve ∈ new_effects w_active w'
    /\ Forall bg_effect (new_effects w_active w')
    /\ is_uploading (upload_status (srv w')) = false
    /\ new_effects w_active w'
       = tr ++ [Emit Broadcast "upload_complete"
                  (CompletePayload "All processing completed successfully!"
                     (is_not_None (current_workflow (srv w'))))].
Proof.
  exact (C7_failures_are_isolated env_down _ w_active
           (process_raises env_down unreachable eq_refl)).
Defined.

Lemma yield_idle w : sched w = [] -> yield w = (Ok tt, w).
Proof. unfold yield. by intros ->. Qed.

(** The Socket.IO handler on an active session: the stopped event goes out
    first; then [stop_session] either raises, which the handler reports,
    or starts the pipeline. *)
Lemma handle_stop_session_active env w :
  session_active (srv w) = true ->
  (exists es w',
      handle_stop_session env w = (Ok tt, w')
      /\ srv w' = srv w /\ pool w' = pool w
      /\ out w' = out w ++ stopped_event w :: es)
  \/ (exists es,
      handle_stop_session env w
      = stop_session_rest (started env (add_out (stopped_event w) w) es)
      /\ Forall silent es).
Proof.
  intros Hact. unfold handle_stop_session, try_except.
  erewrite bind_ok by reflexivity. rewrite Hact. cbn [negb].
  erewrite bind_ok by reflexivity. erewrite bind_ok by reflexivity.
  fold (stopped_event w).
  destruct (stop_session_active env (add_out (stopped_event w) w) Hact)
    as [(e & es & -> & Hs)|(es & Heq & Hs)].
  - left. run. eexists _, _. split; [reflexivity|].
    cbn. rewrite <- !app_assoc. cbn. done.
  - right. exists es. split; [|done].
    change (add_out (Emit ToCaller "session_stopped"
              (SessionPayload (session_id (srv w))
                 "Session stopped, processing workflow...")) w)
      with (add_out (stopped_event w) w).
    rewrite Heq.
    destruct (stop_session_rest_frame
                (started env (add_out (stopped_event w) w) es))
      as (w1 & es1 & -> & _). done.
Qed.

(** After a stop that got as far as starting the pipeline, draining the
    pool completes the tracked run. *)
Lemma stopped_cycle env w0 es w1 :
  quiescent w0 ->
  stop_session_rest (started env w0 es) = (Ok tt, w1) ->
  tracking (length (pool w0)) (pipeline env) (out w0 ++ es)
           (View [] (upload_status (srv w0))) 49 (drain w1).
Proof.
  intros Hq Hrest.
  destruct (stop_session_rest_tracking _ _ _ _ _ _ (tracking_started env w0 es Hq))
    as (k1 & w1' & Hrest' & _ & Htr).
  rewrite Hrest in Hrest'. injection Hrest' as <-.
  by eapply tracking_drain.
Qed.

Lemma tracking_done_trace n env base v0 w :
  tracking n env base v0 49 w ->
  exists es before after,
    out w = base ++ es /\ Forall bg_effect es
    /\ snapshots es = pipeline_snapshots
    /\ es = before ++ upload_complete_event (current_workflow (srv w)) :: after
    /\ Forall silent after.
Proof.
  intros (t & es & _ & _ & _ & _ & Ho & Hbg & _ & Hsn & _ & Hfin).
  destruct (Hfin eq_refl) as (before & after & Hes & Hafter).
  exists es, before, after.
  split; [done|]. split; [done|]. split; [|done].
  rewrite Hsn. change 49 with (length monitor_footprints).
  by rewrite firstn_all, run_shown_monitor.
Qed.

(** A successful stop made through POST /api/session/stop, under every
    schedule: everything the request and its pipeline add to the trace is
    a background effect, and, when no earlier pipeline is still running,
    the progress snapshots of the cycle are exactly those of a pipeline
    run. *)
Lemma api_stop_session_cycle env w resp w2 :
  api_stop_session env w = (Ok resp, w2) ->
  success resp = true ->
  Forall bg_effect (new_effects w (drain w2))
  /\ (quiescent w -> snapshots (new_effects w (drain w2)) = pipeline_snapshots).
Proof.
  intros Hrun Hsucc. unfold api_stop_session, try_except in Hrun.
  erewrite bind_ok in Hrun by reflexivity.
  destruct (session_active (srv w)) eqn:Hact; cbn [negb] in Hrun.
  2:{ injection Hrun as <- <-. discriminate. }
  destruct (stop_session_active env w Hact)
    as [(e & es & Heq & _)|(es & Heq & Hs)].
  { erewrite bind_raised in Hrun by exact Heq.
    revert Hrun. run. intros Hrun. injection Hrun as <- <-. discriminate. }
  destruct (stop_session_rest_frame (started env w es))
    as (w1 & es1 & Hrest & Ho1 & _ & Hbg1 & _).
  rewrite <- Heq in Hrest.
  erewrite bind_ok in Hrun by exact Hrest.
  destruct (yield_bg_run w1) as (w3 & es3 & Hy & Ho3 & _ & _ & Hbg3).
  erewrite bind_ok in Hrun by exact Hy.
  erewrite bind_ok in Hrun by reflexivity.
  unfold ret in Hrun. injection Hrun as _ <-.
  destruct (drain_bg_run w3) as (es4 & Ho4 & _ & _ & _ & Hbg4).
  assert (Hout : out (drain w3) = out w ++ es ++ es1 ++ es3 ++ es4).
  { rewrite Ho4, Ho3, Ho1. cbn. by rewrite <- !app_assoc. }
  split.
  { unfold new_effects. rewrite Hout, drop_app_length.
    repeat (apply Forall_app; split); auto using silent_bg. }
  intros Hq.
  destruct (stop_session_rest_tracking _ _ _ _ _ _ (tracking_started env w es Hq))
    as (k1 & w1' & Hrest' & _ & Htr).
  rewrite Heq in Hrest. rewrite Hrest in Hrest'. injection Hrest' as <-.
  destruct (tracking_yield _ _ _ _ _ _ Htr) as (w3' & k3 & Hy' & _ & Htr3 & _).
  rewrite Hy in Hy'. injection Hy' as <-.
  pose proof (tracking_drain _ _ _ _ _ _ Htr3) as Hend.
  destruct (tracking_done_trace _ _ _ _ _ Hend)
    as (es' & _ & _ & Ho' & _ & Hsn & _).
  unfold new_effects. rewrite Ho', <- app_assoc, drop_app_length.
  by rewrite snapshots_app, (silent_snapshots _ Hs), Hsn.
Qed.

(** C3, as stated, fails: a successful stop request made through
    POST /api/session/stop emits no [session_stopped] event at all, neither
    before nor after the progress events. *)
Lemma C3_counterexample :
  exists resp w1,
    api_stop_session stop_ok w_active = (Ok resp, w1)
    /\ success resp = true
    /\ existsb (is_event "session_stopped") (new_effects w_active (drain w1))
       = false
    /\ existsb (is_event "upload_status_update")
         (new_effects w_active (drain w1)) = true.
Proof. eexists _, _. split; [vm_compute; reflexivity|]. vm_compute. done. Qed.

(** C3, amended. Under every schedule. For every successful stop request
    made through the Socket.IO [stop_session] handler on an active
    session: the first thing the request adds to the trace is the
    [session_stopped] event, carrying the session id; nothing else it or
    its pipeline adds is a [session_stopped] event; and, when no earlier
    pipeline is still running, the progress snapshots of the cycle, all
    emitted after it, are exactly the snapshots of a pipeline run. For
    every successful stop request made through POST /api/session/stop:
    nothing the request or its pipeline adds to the trace is a
    [session_stopped] event, while, when no earlier pipeline is still
    running, the progress snapshots of the cycle are emitted all the
    same. *)
Theorem C3_socket_stop_emits_stopped_first env w :
  (forall r w1,
     session_active (srv w) = true ->
     handle_stop_session env w = (r, w1) ->
     session_active (srv w1) = false ->
     exists rest,
       new_effects w (drain w1) = stopped_event w :: rest
       /\ forallb (fun e => negb (is_event "session_stopped" e)) rest = true
       /\ (quiescent w -> snapshots rest = pipeline_snapshots))
  /\ (forall resp w2,
        api_stop_session env w = (Ok resp, w2) ->
        success resp = true ->
        forallb (fun e => negb (is_event "session_stopped" e))
                (new_effects w (drain w2)) = true
        /\ (quiescent w ->
            snapshots (new_effects w (drain w2)) = pipeline_snapshots)).
Proof.
  split.
  2:{ intros resp w2 Hrun Hsucc.
      destruct (api_stop_session_cycle env w resp w2 Hrun Hsucc) as (Hbg & Hsn).
      split; [|exact Hsn].
      apply (bg_effect_not_event "session_stopped");
        [apply (bool_decide_unpack _); vm_compute; exact I | exact Hbg]. }
  intros r w1 Hact Hrun Hstopped.
  destruct (handle_stop_session_active env w Hact)
    as [(es & w' & Heq & Hsrv & _)|(es & Heq & Hs)].
  { rewrite Heq in Hrun. injection Hrun as _ <-. congruence. }
  rewrite Heq in Hrun.
  set (w0 := add_out (stopped_event w) w) in *.
  destruct (stop_session_rest_frame (started env w0 es))
    as (w1' & es1 & Hrest & Ho1 & _ & Hbg1 & _).
  rewrite Hrest in Hrun. injection Hrun as _ <-.
  destruct (drain_bg_run w1') as (es2 & Ho2 & _ & _ & _ & Hbg2).
  exists (es ++ es1 ++ es2).
  assert (Hout : out (drain w1') = out w ++ stopped_event w :: es ++ es1 ++ es2).
  { rewrite Ho2, Ho1. cbn. rewrite <- !app_assoc. reflexivity. }
  split.
  { unfold new_effects. rewrite Hout. by rewrite drop_app_length. }
  split.
  { apply (bg_effect_not_event "session_stopped");
      [apply (bool_decide_unpack _); vm_compute; exact I|].
    repeat (apply Forall_app; split); auto using silent_bg. }
  intros Hq.
  assert (Hq0 : quiescent w0) by exact Hq.
  pose proof (stopped_cycle env w0 es w1' Hq0 Hrest) as Htr.
  destruct (tracking_done_trace _ _ _ _ _ Htr)
    as (es' & _ & _ & Ho' & _ & Hsn & _).
  rewrite Hout in Ho'. cbn in Ho'.
  rewrite <- !app_assoc in Ho'. apply app_inv_head in Ho'.
  cbn in Ho'. injection Ho' as Ho'. apply app_inv_head in Ho'.
  rewrite snapshots_app, (silent_snapshots _ Hs). cbn.
  by rewrite Ho'.
Qed.

Lemma C3_socket_stop_emits_stopped_first_witness :
  (exists rest,
     new_effects w_active (drain (handle_stop_session stop_ok w_active).2)
     = stopped_event w_active :: rest
     /\ forallb (fun e => negb (is_event "session_stopped" e)) rest = true
     /\ (quiescent w_active -> snapshots rest = pipeline_snapshots))
  /\ forallb (fun e => negb (is_event "session_stopped" e))
       (new_effects w_active (drain (api_stop_session stop_ok w_active).2))
     = true.
Proof.
  assert (H : session_active (srv (handle_stop_session stop_ok w_active).2) = false)
    by (vm_compute; reflexivity).
  assert (Ha : api_stop_session stop_ok w_active
               = (Ok (Response 200
                        (SessionBody None "Session stopped, processing workflow...")),
                  (api_stop_session stop_ok w_active).2))
    by (vm_compute; reflexivity).
  destruct (C3_socket_stop_emits_stopped_first stop_ok w_active) as (Hs & Hh).
  split.
  - exact (Hs _ _ eq_refl (surjective_pairing _) H).
  - exact (proj1 (Hh _ _ Ha eq_refl)).
Defined.

(** C5, as stated, fails: when the bridge accepts the stop and the request
    thread is not preempted, [stop_session] returns with the session id
    cleared although no [upload_complete] event has been emitted yet. *)
Lemma C5_counterexample : ~ cleared_after_final_event stop_ok w_active.
Proof.
  intros H.
  specialize (H (stop_session stop_ok w_active).2).
  assert (H1 : stop_session stop_ok w_active
               = (Ok tt, (stop_session stop_ok w_active).2))
    by (vm_compute; reflexivity).
  assert (H2 : session_id (srv (stop_session stop_ok w_active).2) = None)
    by (vm_compute; reflexivity).
  specialize (H H1 H2). vm_compute in H. discriminate.
Qed.

(** C5, amended. For every successful [stop_session], under every
    schedule: [stop_session] itself clears [session_active], the start time
    and the session id, right after starting the pipeline thread and
    without waiting for it; the pipeline never sets them again. When the
    request thread is not preempted, the session is already cleared while
    the pipeline has not taken a step: every event of the pipeline,
    [upload_complete] included, comes later. When no earlier pipeline is
    still running, the cycle ends with the [upload_complete] event, which
    reports whether a result is stored, followed at most by log records. *)
Theorem C5_session_cleared_by_stop env w w1 :
  stop_session env w = (Ok tt, w1) ->
  (session_active (srv w1) = false
   /\ session_start_time (srv w1) = None
   /\ session_id (srv w1) = None)
  /\ (session_active (srv (drain w1)) = false
      /\ session_start_time (srv (drain w1)) = None
      /\ session_id (srv (drain w1)) = None)
  /\ (sched w = [] ->
      Forall silent (new_effects w w1)
      /\ pool w1 = pool w ++ [Thread (pipeline env) fresh_locals 0])
  /\ (quiescent w ->
      exists before after,
        new_effects w (drain w1)
        = before
          ++ upload_complete_event (current_workflow (srv (drain w1))) :: after
        /\ Forall silent after).
Proof.
  intros Hstop.
  assert (Hact : session_active (srv w) = true).
  { destruct (session_active (srv w)) eqn:Ha; [done|].
    unfold stop_session in Hstop. erewrite bind_ok in Hstop by reflexivity.
    rewrite Ha in Hstop. discriminate. }
  destruct (stop_session_active env w Hact)
    as [(e & es & Heq & _)|(es & Heq & Hs)]; [congruence|].
  rewrite Heq in Hstop.
  destruct (stop_session_rest_frame (started env w es))
    as (w1' & es1 & Hrest & Ho1 & _ & _ & Ha1 & Hb1 & Hc1 & _).
  rewrite Hrest in Hstop. injection Hstop as <-.
  destruct (drain_bg_run w1') as (es2 & Ho2 & _ & _ & (Ha2 & Hb2 & Hc2 & _) & _).
  split; [done|].
  split; [by rewrite Ha2, Hb2, Hc2|].
  split.
  { intros Hsc. clear Ho1. revert Hrest. unfold stop_session_rest.
    erewrite bind_ok by (apply yield_idle; exact Hsc).
    erewrite bind_ok by reflexivity.
    erewrite bind_ok by (apply yield_idle; exact Hsc).
    erewrite bind_ok by reflexivity.
    erewrite bind_ok by (apply yield_idle; exact Hsc).
    erewrite bind_ok by reflexivity.
    erewrite bind_ok by (apply yield_idle; exact Hsc).
    intros Hrest. injection Hrest as <-. cbn.
    split; [|done].
    unfold new_effects. cbn. rewrite <- app_assoc, drop_app_length.
    apply Forall_app. split; [done | repeat constructor]. }
  intros Hq.
  pose proof (stopped_cycle env w es w1' Hq Hrest) as Htr.
  destruct (tracking_done_trace _ _ _ _ _ Htr)
    as (es' & before & after & Ho' & _ & _ & Hes & Hafter).
  exists (es ++ before), after. split; [|done].
  unfold new_effects. rewrite Ho', Hes, <- !app_assoc.
  by rewrite drop_app_length.
Qed.

Lemma C5_session_cleared_by_stop_witness :
  session_id (srv (stop_session stop_ok w_active).2) = None
  /\ Forall silent (new_effects w_active (stop_session stop_ok w_active).2).
Proof.
  assert (H : stop_session stop_ok w_active
              = (Ok tt, (stop_session stop_ok w_active).2))
    by (vm_compute; reflexivity).
  destruct (C5_session_cleared_by_stop stop_ok w_active _ H)
    as ((_ & _ & Hid) & _ & Hsilent & _).
  split; [exact Hid|]. exact (proj1 (Hsilent eq_refl)).
Defined.

(** C10. For every successful stop request answered by POST
    /api/session/stop, under every schedule: the response has status 200
    and [success] true, and its [session_id] is null, because
    [stop_session] has cleared the id before the body is built (and no
    background step sets it). *)
Theorem C10_http_stop_reports_null_session env w resp w1 :
  api_stop_session env w = (Ok resp, w1) ->
  success resp = true ->
  resp = Response 200 (SessionBody None "Session stopped, processing workflow...")
  /\ session_id (srv w1) = None
  /\ session_active (srv w) = true.
Proof.
  intros Hrun Hsucc. unfold api_stop_session, try_except in Hrun.
  erewrite bind_ok in Hrun by reflexivity.
  destruct (session_active (srv w)) eqn:Hact; cbn [negb] in Hrun.
  2:{ injection Hrun as <- <-. discriminate. }
  destruct (stop_session_active env w Hact)
    as [(e & es & Heq & _)|(es & Heq & Hs)].
  { erewrite bind_raised in Hrun by exact Heq.
    revert Hrun. run. intros Hrun. injection Hrun as <- <-. discriminate. }
  destruct (stop_session_rest_frame (started env w es))
    as (w2 & es1 & Hrest & _ & _ & _ & _ & _ & Hid & _).
  rewrite <- Heq in Hrest.
  erewrite bind_ok in Hrun by exact Hrest.
  destruct (yield_bg_run w2) as (w3 & es3 & Hy & _ & _ & (_ & _ & Hid3 & _) & _).
  erewrite bind_ok in Hrun by exact Hy.
  erewrite bind_ok in Hrun by reflexivity.
  unfold ret in Hrun. injection Hrun as <- <-.
  rewrite Hid3, Hid. done.
Qed.

Lemma C10_http_stop_reports_null_session_witness :
  Response 200 (SessionBody None "Session stopped, processing workflow...")
  = Response 200 (SessionBody None "Session stopped, processing workflow...")
  /\ session_id (srv (api_stop_session stop_ok w_active).2) = None
  /\ session_active (srv w_active) = true.
Proof.
  assert (H : api_stop_session stop_ok w_active
              = (Ok (Response 200
                       (SessionBody None "Session stopped, processing workflow...")),
                 (api_stop_session stop_ok w_active).2))
    by (vm_compute; reflexivity).
  exact (C10_http_stop_reports_null_session stop_ok w_active _ _ H eq_refl).
Defined.

Lemma start_session_active env w :
  session_active (srv w) = true ->
  start_session env w = (Raised (ValueError "Session is already active"), w).
Proof.
  intros H. unfold start_session. erewrite bind_ok by reflexivity.
  by rewrite H.
Qed.

(** [start_session] on an idle server: it either raises, leaving the
    session idle, or activates the session with the new id. It never
    touches the stored workflow, the progress status or the threads. *)
Lemma start_session_idle env w :
  session_active (srv w) = false ->
  exists r w',
    start_session env w = (r, w')
    /\ pool w' = pool w
    /\ current_workflow (srv w') = current_workflow (srv w)
    /\ upload_status (srv w') = upload_status (srv w)
    /\ match r with
       | Ok _ => session_active (srv w') = true
                 /\ session_id (srv w') = Some (uuid4 env)
                 /\ session_start_time (srv w') = Some (now_start env)
       | Raised _ => session_active (srv w') = false
                     /\ session_id (srv w') = session_id (srv w)
       end.
Proof.
  intros H. destruct w as [[sa st si sc su sw] o p sch]. cbn in H. subst sa.
  unfold start_session. run.
  destruct sc; run.
  - destruct (ret_start_audio_recording env) as [v|e]; run;
      [|by eexists _, _].
    destruct v; run; try (by eexists _, _).
    match goal with |- context [truthy ?x] => destruct (truthy x) end; run;
      by eexists _, _.
  - destruct (ret_BridgeClient env) as [e|]; run; [by eexists _, _|].
    destruct (ret_start_audio_recording env) as [v|e]; run;
      [|by eexists _, _].
    destruct v; run; try (by eexists _, _).
    match goal with |- context [truthy ?x] => destruct (truthy x) end; run;
      by eexists _, _.
Qed.

Lemma stop_session_idle env w :
  session_active (srv w) = false ->
  stop_session env w = (Raised (ValueError "No active session to stop"), w).
Proof.
  intros H. unfold stop_session. erewrite bind_ok by reflexivity.
  by rewrite H.
Qed.

Lemma stop_session_ok env w w' :
  stop_session env w = (Ok tt, w') ->
  session_active (srv w) = true /\ session_active (srv w') = false.
Proof.
  intros Hstop. destruct (session_active (srv w)) eqn:Hact.
  2:{ rewrite (stop_session_idle _ _ Hact) in Hstop. discriminate. }
  split; [done|].
  destruct (stop_session_active env w Hact)
    as [(e & es & Heq & _)|(es & Heq & Hs)]; [congruence|].
  destruct (stop_session_rest_frame (started env w es))
    as (w1 & es1 & Hrest & _ & _ & _ & Ha & _).
  congruence.
Qed.

Lemma run_command_guarded c w :
  guarded (Entry w c (run_command c w).1 (run_command c w).2).
Proof.
  destruct c as [env|env|picks];
    unfold guarded; cbn -[start_session stop_session run_background].
  - split.
    + intros Hr. destruct (session_active (srv w)) eqn:Hact.
      * rewrite (start_session_active _ _ Hact) in Hr. discriminate.
      * split; [done|].
        destruct (start_session_idle env w Hact)
          as (r & w' & Heq & _ & _ & _ & Hcase).
        rewrite Heq in *. cbn -[start_session] in *. subst r. apply Hcase.
    + intros Hact. by rewrite (start_session_active _ _ Hact).
  - split.
    + intros Hr. apply (stop_session_ok env).
      rewrite <- Hr. apply surjective_pairing.
    + intros Hact. by rewrite (stop_session_idle _ _ Hact).
  - destruct (run_background_bg_run picks w) as (es & _ & _ & _ & (H & _) & _).
    exact H.
Qed.

(** C4. For every sequence of start and stop calls, interleaved with any
    steps of the background threads: a start returns normally only if no
    session was active, and then the session is active; a stop returns
    normally only if a session was active, and then it is not; a start on
    an active session and a stop on an idle one raise [ValueError] and
    leave the whole process (server object, trace, threads) as it was;
    background steps never change whether a session is active. A stop on
    an idle server through the HTTP route answers 400 with the error and
    changes nothing; through the Socket.IO handler the error is the
    [session_error] reply to the caller, the only thing added to the trace,
    and nothing else changes. *)
Theorem C4_state_guarded_transitions cs env w :
  Forall guarded (history cs w)
  /\ (session_active (srv w) = false ->
      stop_session env w = (Raised (ValueError "No active session to stop"), w)
      /\ api_stop_session env w
         = (Ok (Response 400 (ErrorBody [Lit "No active session to stop"])), w)
      /\ handle_stop_session env w = (Ok tt, add_out no_session_error w)
      /\ srv (add_out no_session_error w) = srv w
      /\ pool (add_out no_session_error w) = pool w
      /\ new_effects w (add_out no_session_error w) = [no_session_error]).
Proof.
  split.
  - revert w. induction cs as [|c cs IH]; intros w; cbn; [constructor|].
    pose proof (run_command_guarded c w) as Hg.
    destruct (run_command c w) as [r w'] eqn:Hc. constructor; [exact Hg | apply IH].
  - intros Hact. split; [by apply stop_session_idle|].
    split.
    { unfold api_stop_session, try_except. erewrite bind_ok by reflexivity.
      by rewrite Hact. }
    split.
    { unfold handle_stop_session, try_except. erewrite bind_ok by reflexivity.
      by rewrite Hact. }
    split; [done|]. split; [done|].
    unfold new_effects. cbn. by rewrite drop_app_length.
Qed.

Ltac close_start_frame :=
  eexists _, _, _; split; [reflexivity|]; split; [reflexivity|];
  split; [cbn [out]; rewrite <- ?app_assoc; reflexivity|];
  split; [repeat apply Forall_cons; try exact I; apply Forall_nil|];
  split; reflexivity.

Lemma start_session_frame env w :
  exists r w' es,
    start_session env w = (r, w')
    /\ pool w' = pool w
    /\ out w' = out w ++ es /\ Forall silent es
    /\ upload_status (srv w') = upload_status (srv w)
    /\ current_workflow (srv w') = current_workflow (srv w).
Proof.
  destruct w as [[sa st si sc su sw] o p sch].
  unfold start_session. run.
  destruct sa; run.
  { eexists _, _, []. by rewrite app_nil_r. }
  destruct sc; run.
  - destruct (ret_start_audio_recording env) as [v|e]; run;
      [|close_start_frame].
    destruct v; run; try close_start_frame.
    match goal with |- context [truthy ?x] => destruct (truthy x) end; run;
      close_start_frame.
  - destruct (ret_BridgeClient env) as [e|]; run; [close_start_frame|].
    destruct (ret_start_audio_recording env) as [v|e]; run;
      [|close_start_frame].
    destruct v; run; try close_start_frame.
    match goal with |- context [truthy ?x] => destruct (truthy x) end; run;
      close_start_frame.
Qed.

Lemma tracking_command n env base v0 k w c :
  tracking n env base v0 k w ->
  match c with Stop _ => (run_command c w).1 <> Ok tt | _ => True end ->
  exists k', tracking n env base v0 k' (run_command c w).2.
Proof.
  intros Htr Hc. destruct c as [senv|senv|picks]; cbn [run_command] in *.
  - destruct (start_session_frame senv w)
      as (r & w' & es & -> & Hp & Ho & Hs & Hu & Hw).
    exists k. exact (tracking_request _ _ _ _ _ _ _ _ Htr Hp Ho Hs Hu Hw).
  - destruct (session_active (srv w)) eqn:Hact.
    2:{ rewrite (stop_session_idle _ _ Hact). by exists k. }
    destruct (stop_session_active senv w Hact)
      as [(e & es & Heq & Hs)|(es & Heq & _)].
    + rewrite Heq. exists k.
      by apply (tracking_request _ _ _ _ _ _ _ es Htr).
    + exfalso. apply Hc. rewrite Heq.
      by destruct (stop_session_rest_frame (started senv w es))
        as (w1 & es1 & -> & _).
  - destruct (tracking_run_background _ _ _ _ _ _ picks Htr) as (k' & _ & H).
    by exists k'.
Qed.

Lemma tracking_commands n env base v0 cs :
  forall k w,
    tracking n env base v0 k w -> no_new_pipeline cs w ->
    exists k', tracking n env base v0 k' (run_commands cs w).
Proof.
  induction cs as [|c cs IH]; intros k w Htr Hno; [by exists k|].
  unfold no_new_pipeline in Hno. cbn [history] in Hno.
  destruct (run_command c w) as [r w'] eqn:Hc.
  apply Forall_cons_1 in Hno as [Hhead Hno]. cbn [cmd result] in Hhead.
  destruct (tracking_command _ _ _ _ _ _ c Htr) as (k' & Htr').
  { rewrite Hc. by destruct c. }
  rewrite Hc in Htr'. cbn [snd] in Htr'.
  unfold run_commands. cbn [foldl]. rewrite Hc. cbn [snd].
  by apply (IH k' w').
Qed.

Lemma final_snapshot :
  list.last pipeline_snapshots
  = Some (Status "Processing complete" false
            ((fun m => Step m "completed") <$> reported_plan))
  /\ v_status (run_next monitor_footprints (View [] (upload_status init_server)))
     = Status "Processing complete" false
         ((fun m => Step m "completed") <$> reported_plan).
Proof. vm_compute. done. Qed.

(** The progress feed of a stop cycle during which no other pipeline is
    started, under every schedule. *)
Lemma lone_cycle_feed senv w w1 cs :
  quiescent w ->
  stop_session senv w = (Ok tt, w1) ->
  no_new_pipeline cs w1 ->
  snapshots (new_effects w (drain (run_commands cs w1))) = pipeline_snapshots
  /\ upload_status (srv (drain (run_commands cs w1)))
     = Status "Processing complete" false
         ((fun m => Step m "completed") <$> reported_plan).
Proof.
  intros Hq Hstop Hno.
  assert (Hact : session_active (srv w) = true)
    by (by destruct (stop_session_ok _ _ _ Hstop)).
  destruct (stop_session_active senv w Hact) as [(e & es & H & _)|(es & Heq & Hs)];
    [congruence|].
  destruct (stop_session_rest_tracking _ _ _ _ _ _ (tracking_started senv w es Hq))
    as (k1 & w1' & Hrest & _ & Htr).
  rewrite <- Heq, Hstop in Hrest. injection Hrest as <-.
  destruct (tracking_commands _ _ _ _ cs _ _ Htr Hno) as (k' & Htr').
  pose proof (tracking_drain _ _ _ _ _ _ Htr') as Hend.
  split.
  - destruct (tracking_done_trace _ _ _ _ _ Hend)
      as (es' & _ & _ & Ho' & _ & Hsn & _).
    unfold new_effects. rewrite Ho', <- app_assoc, drop_app_length.
    by rewrite snapshots_app, (silent_snapshots _ Hs), Hsn.
  - destruct Hend as (t & es' & _ & _ & _ & _ & _ & _ & Hv & _).
    change 49 with (length monitor_footprints) in Hv.
    rewrite firstn_all, run_next_monitor in Hv.
    apply (f_equal v_status) in Hv. cbn [view_of v_status] in Hv.
    rewrite Hv. apply final_snapshot.
Qed.

Lemma overlapping_cycles_succeed :
  result <$> history overlapping_cycles w_active
  = [Ok tt; Ok tt; Ok tt; Ok tt; Ok tt].
Proof. vm_compute. reflexivity. Qed.

Lemma overlapping_cycles_feed :
  snapshots (out (run_commands overlapping_cycles w_active))
  = [Status "Starting data flush..." true
       [Step "Starting data flush..." "uploading"];
     Status "Uploading audio..." true
       [Step "Starting data flush..." "completed";
        Step "Uploading audio..." "uploading"];
     Status "Starting data flush..." true
       [Step "Starting data flush..." "uploading"]].
Proof. vm_compute. reflexivity. Qed.

Lemma completed_entry_not_kept :
  ~ filter (fun s => status s = "completed")
      [Step "Starting data flush..." "completed";
       Step "Uploading audio..." "uploading"]
    `prefix_of` [Step "Starting data flush..." "uploading"].
Proof. intros [k Hk]. vm_compute in Hk. discriminate. Qed.

(** C6, as stated, fails: when a second session is started and stopped
    while the pipeline of the first is still running (every request
    succeeds), the first pipeline broadcasts the [upload_status] the second
    one has just reset: the completed entry shown by the second snapshot
    of the feed is gone from the third. *)
Lemma C6_counterexample :
  result <$> history overlapping_cycles w_active
  = [Ok tt; Ok tt; Ok tt; Ok tt; Ok tt]
  /\ ~ append_only (snapshots (out (run_commands overlapping_cycles w_active))).
Proof.
  split; [exact overlapping_cycles_succeed|].
  rewrite overlapping_cycles_feed. intros H.
  exact (completed_entry_not_kept (H 1 2 _ _ (Nat.lt_succ_diag_r 1) eq_refl eq_refl)).
Qed.

(** C6, amended. In every pipeline run that no other pipeline run
    overlaps, the [steps] of successive snapshots only grow: what a
    snapshot shows as completed is an initial segment, in the same order,
    of what every later snapshot shows; each later snapshot has more
    entries; every snapshot but the last is broadcast with [is_uploading]
    true; the last snapshot has [is_uploading] false and is the server's
    final [upload_status]. This holds of a run on its own, where nothing
    broadcast after the last snapshot is a snapshot, and, under every
    schedule, of the run a successful [stop_session] starts when every
    earlier pipeline has finished, whatever start and stop requests and
    background steps follow, as long as none of them starts another
    pipeline. *)
Theorem C6_feed_append_only env w :
  (exists l' w' before final after,
    run_pipeline env w = (Ok l', w')
    /\ (forall i j si sj,
          i < j ->
          snapshots (new_effects w w') !! i = Some si ->
          snapshots (new_effects w w') !! j = Some sj ->
          filter (fun s => status s = "completed") (steps si)
            `prefix_of` steps sj
          /\ length (steps si) < length (steps sj)
          /\ is_uploading si = true)
    /\ new_effects w w'
       = before ++ Emit Broadcast "upload_status_update" (StatusPayload final)
                :: after
    /\ snapshots after = []
    /\ list.last (snapshots (new_effects w w')) = Some final
    /\ is_uploading final = false
    /\ upload_status (srv w') = final)
  /\ (forall senv w1 cs,
        quiescent w ->
        stop_session senv w = (Ok tt, w1) ->
        no_new_pipeline cs w1 ->
        let w' := drain (run_commands cs w1) in
        (forall i j si sj,
           i < j ->
           snapshots (new_effects w w') !! i = Some si ->
           snapshots (new_effects w w') !! j = Some sj ->
           filter (fun s => status s = "completed") (steps si)
             `prefix_of` steps sj
           /\ length (steps si) < length (steps sj)
           /\ is_uploading si = true)
        /\ exists final,
             list.last (snapshots (new_effects w w')) = Some final
             /\ is_uploading final = false
             /\ upload_status (srv w') = final).
Proof.
  split.
  2:{ intros senv w1 cs Hq Hstop Hno. cbv zeta.
      destruct (lone_cycle_feed senv w w1 cs Hq Hstop Hno) as (-> & ->).
      split.
      - intros i j si sj Hlt Hi Hj.
        exact (ordered_by_lookup _ _ _ _ _ _ pipeline_snapshots_ordered
                 Hlt Hi Hj).
      - eexists. split; [apply final_snapshot|]. by split. }
  destruct (run_pipeline_snapshots env w) as (l' & w' & tr & Hr & <- & Hsn & _).
  destruct (run_pipeline_shape env w)
    as (l0 & w0 & pre & w1 & mid & lf & wf & _ & _ & _ & _ & _ & Hrun
        & Hg & _ & Hup).
  rewrite Hr in Hrun. injection Hrun as <- <-.
  exists l', w', (pre ++ mid), (upload_status (srv w')).
  eexists. split; [exact Hr|].
  split.
  { intros i j si sj Hlt Hi Hj. rewrite Hsn in Hi, Hj.
    exact (ordered_by_lookup _ _ _ _ _ _ pipeline_snapshots_ordered Hlt Hi Hj). }
  rewrite (grows_new_effects _ _ _ Hg). unfold closing_events.
  split; [by rewrite <- app_assoc|].
  split.
  { destruct (truthy _); reflexivity. }
  split; [|done].
  rewrite !snapshots_app. cbn.
  replace (snapshots (_ ++ _)) with (@nil UploadStatus)
    by (by destruct (truthy _)).
  rewrite app_assoc. apply last_snoc.
Qed.

Lemma quiet_commands :
  stop_session stop_ok w_active = (Ok tt, (stop_session stop_ok w_active).2)
  /\ no_new_pipeline [Background [0; 0; 0; 0]; Stop stop_ok; Start start_ok;
                      Background [0; 0; 0; 0]]
       (stop_session stop_ok w_active).2.
Proof.
  split; [vm_compute; reflexivity|].
  unfold no_new_pipeline. vm_compute.
  repeat constructor. discriminate.
Qed.

Lemma C6_feed_append_only_witness :
  exists final,
    list.last
      (snapshots
         (new_effects w_active
            (drain (run_commands
                      [Background [0; 0; 0; 0]; Stop stop_ok; Start start_ok;
                       Background [0; 0; 0; 0]]
                      (stop_session stop_ok w_active).2)))) = Some final
    /\ is_uploading final = false
    /\ upload_status
         (srv (drain (run_commands
                        [Background [0; 0; 0; 0]; Stop stop_ok; Start start_ok;
                         Background [0; 0; 0; 0]]
                        (stop_session stop_ok w_active).2))) = final.
Proof.
  destruct quiet_commands as (Hs & Hn).
  exact (proj2 (proj2 (C6_feed_append_only env_ok w_active) stop_ok _ _
                  (Forall_nil_2 _) Hs Hn)).
Defined.






(* ===================================================================== *)
(** * Whole runs, schedules and the session handlers *)
(* ===================================================================== *)

Lemma trigger_effects_spec env sid st w :
  _execute_forge_trigger_generation env sid st w
  = (Ok tt, World (srv w) (out w ++ trigger_effects env sid st)
                  (pool w) (sched w)).
Proof.
  destruct w as [s o p sc].
  unfold trigger_effects, probe, _execute_forge_trigger_generation. run.
  destruct (ret_generate_trigger_json env) as [v|e]; run;
    [destruct (ret_save_trigger_to_file env) as [v'|e]; run |];
    by rewrite <- ?app_assoc.
Qed.

Lemma processing_effects_spec env sid w :
  _execute_forge_processing env sid w
  = (Ok tt, World (srv w) (out w ++ processing_effects env sid)
                  (pool w) (sched w)).
Proof.
  destruct w as [s o p sc].
  unfold processing_effects, probe, _execute_forge_processing. run.
  destruct (ret_process_session env) as [v|e]; run;
    [|by rewrite <- ?app_assoc].
  destruct v; run; try (by rewrite <- ?app_assoc).
  destruct (eq_str _ _); run; by rewrite <- ?app_assoc.
Qed.

Lemma retrieval_effects_spec env sid w :
  _retrieve_workflow_from_firestore env sid w
  = (Ok tt, World (set_current_workflow
                     (retrieval_result env sid (current_workflow (srv w))) (srv w))
                  (out w ++ retrieval_effects env sid) (pool w) (sched w)).
Proof.
  destruct w as [[sa st si sc su sw] o p sch].
  unfold retrieval_effects, retrieval_result, probe,
    _retrieve_workflow_from_firestore. run.
  destruct (ret_get_random_published_workflow env) as [v|e]; run;
    [|by rewrite <- ?app_assoc].
  destruct (truthy v) eqn:Ht; run; [|by rewrite <- ?app_assoc].
  destruct (contains "workflow_data" v) as [[|]|e] eqn:Hc; run.
  - destruct (getitem v "workflow_data") as [info|e] eqn:Hg; run;
      [|by rewrite <- ?app_assoc].
    destruct v; try discriminate.
    destruct info; run; by rewrite <- ?app_assoc.
  - destruct (keys v) as [ks|e] eqn:Hk; run; by rewrite <- ?app_assoc.
  - by rewrite <- ?app_assoc.
Qed.

Lemma run_actions_middle acts k a l w :
  acts !! k = Some a ->
  run_actions acts l w
  = (l1 <- run_actions (take k acts) l;;
     l2 <- a l1;;
     run_actions (drop (S k) acts) l2) w.
Proof.
  intros Ha. rewrite <- (take_drop_middle acts k a Ha) at 1.
  by rewrite run_actions_app.
Qed.

Lemma upload_segment env t i cs w :
  run_actions (take 23 (after_reads env)) (Locals t i cs) w
  = (Ok (Locals t i (done_steps 6)),
     World (set_upload_status (nth 5 pipeline_snapshots (upload_status init_server))
                              (srv w))
           (out w ++ upload_stage) (pool w) (sched w)).
Proof.
  destruct w as [[sa st si sc su sw] o p sch].
  change (take 23 (after_reads env)) with (take 23 (after_reads env_ok)).
  unfold run_actions, after_reads, monitor_uploads_and_forge, take, drop,
    flat_map, app, upload_steps, forge_steps, upload_iteration,
    forge_iteration, announce, emit_upload_status, pause, append_completed.
  run. unfold add_out, set_srv, set_upload_status, set_completed_steps; cbn.
  by rewrite <- ?app_assoc.
Qed.

Lemma processing_segment env t i w :
  run_actions (take 3 (drop 24 (after_reads env))) (Locals t i (done_steps 6)) w
  = (Ok (Locals t i (done_steps 7)),
     World (set_upload_status (nth 6 pipeline_snapshots (upload_status init_server))
                              (srv w))
           (out w ++ [progress 6]) (pool w) (sched w)).
Proof.
  destruct w as [[sa st si sc su sw] o p sch].
  change (take 3 (drop 24 (after_reads env))) with
    (take 3 (drop 24 (after_reads env_ok))).
  unfold run_actions, after_reads, monitor_uploads_and_forge, take, drop,
    flat_map, app, upload_steps, forge_steps, upload_iteration,
    forge_iteration, announce, emit_upload_status, pause, append_completed.
  run. unfold add_out, set_srv, set_upload_status, set_completed_steps; cbn.
  by rewrite <- ?app_assoc.
Qed.

Lemma waiting_segment env t i w :
  run_actions (take 11 (drop 4 (drop 24 (after_reads env))))
              (Locals t i (done_steps 7)) w
  = (Ok (Locals t i (done_steps 10)),
     World (set_upload_status (nth 9 pipeline_snapshots (upload_status init_server))
                              (srv w))
           (out w ++ waiting_stage) (pool w) (sched w)).
Proof.
  destruct w as [[sa st si sc su sw] o p sch].
  unfold run_actions, after_reads, monitor_uploads_and_forge, take, drop,
    flat_map, app, upload_steps, forge_steps, upload_iteration,
    forge_iteration, announce, emit_upload_status, pause, append_completed,
    execute_forge_step.
  run. unfold add_out, set_srv, set_upload_status, set_completed_steps; cbn.
  by rewrite <- ?app_assoc.
Qed.

Lemma closing_segment env t i w :
  run_actions (drop 12 (drop 4 (drop 24 (after_reads env))))
              (Locals t i (done_steps 10)) w
  = (Ok (Locals t i all_completed),
     World (set_upload_status (Status "Processing complete" false all_completed)
                              (srv w))
           (out w ++ closing_events
                       (nth 10 pipeline_snapshots (upload_status init_server))
                       (current_workflow (srv w)))
           (pool w) (sched w)).
Proof.
  destruct w as [[sa st si sc su sw] o p sch].
  change (drop 12 (drop 4 (drop 24 (after_reads env)))) with
    (drop 42 (monitor_uploads_and_forge env_ok)).
  unfold run_actions, monitor_uploads_and_forge, drop, flat_map, app,
    upload_steps, forge_steps, upload_iteration, forge_iteration, announce,
    emit_upload_status, pause, append_completed, closing_events.
  run. unfold add_out, set_srv, set_upload_status, set_completed_steps; cbn.
  destruct (truthy sw); run; by rewrite <- ?app_assoc.
Qed.

(** The pipeline from its third statement on, for any values [t] and [i]
    of the local variables [session_start_time] and [session_id]: the
    final local variables, the server, and everything appended to the
    trace. *)
Lemma after_reads_explicit env t i cs w :
  run_actions (after_reads env) (Locals t i cs) w
  = (Ok (Locals t i all_completed),
     World (set_upload_status (Status "Processing complete" false all_completed)
              (set_current_workflow
                 (retrieval_result env i (current_workflow (srv w))) (srv w)))
           (out w ++ pipeline_trace env i t (current_workflow (srv w)))
           (pool w) (sched w)).
Proof.
  assert (H25 : after_reads env !! 23
                = Some (execute_forge_step env trigger_step)) by reflexivity.
  rewrite (run_actions_middle _ 23 _ _ _ H25).
  erewrite bind_ok by apply upload_segment.
  erewrite bind_ok
    by (rewrite execute_trigger; erewrite bind_ok by apply trigger_effects_spec;
        reflexivity).
  assert (H29 : drop 24 (after_reads env) !! 3
                = Some (execute_forge_step env processing_step)) by reflexivity.
  rewrite (run_actions_middle _ 3 _ _ _ H29).
  erewrite bind_ok by apply processing_segment.
  erewrite bind_ok
    by (rewrite execute_processing;
        erewrite bind_ok by apply processing_effects_spec; reflexivity).
  assert (H41 : drop 4 (drop 24 (after_reads env)) !! 11
                = Some (execute_forge_step env retrieval_step)) by reflexivity.
  rewrite (run_actions_middle _ 11 _ _ _ H41).
  erewrite bind_ok by apply waiting_segment.
  erewrite bind_ok
    by (rewrite execute_retrieval;
        erewrite bind_ok by apply retrieval_effects_spec; reflexivity).
  rewrite closing_segment.
  destruct w as [[sa st si sc su sw] o p sch].
  unfold pipeline_trace, set_upload_status, set_current_workflow.
  cbn [srv out pool sched session_active session_start_time session_id
       command_client upload_status current_workflow l_session_id
       l_session_start_time].
  rewrite <- !app_assoc. reflexivity.
Qed.

(** The whole of an uninterrupted run, written out. *)
Lemma run_pipeline_explicit env w :
  run_pipeline env w
  = (Ok (Locals (session_start_time (srv w)) (session_id (srv w)) all_completed),
     World (set_upload_status (Status "Processing complete" false all_completed)
              (set_current_workflow
                 (retrieval_result env (session_id (srv w))
                                   (current_workflow (srv w))) (srv w)))
           (out w ++ pipeline_trace env (session_id (srv w))
                       (session_start_time (srv w)) (current_workflow (srv w)))
           (pool w) (sched w)).
Proof.
  unfold run_pipeline.
  change (monitor_uploads_and_forge env) with
    (take 2 (monitor_uploads_and_forge env) ++ after_reads env).
  rewrite run_actions_app.
  replace (run_actions (take 2 (monitor_uploads_and_forge env)) fresh_locals w)
    with (Ok (Locals (session_start_time (srv w)) (session_id (srv w)) []), w)
    by (by destruct w).
  apply after_reads_explicit.
Qed.

Lemma new_effects_world w s es p sc :
  new_effects w (World s (out w ++ es) p sc) = es.
Proof. unfold new_effects. cbn. by rewrite drop_app_length. Qed.

Lemma trigger_effects_cases env sid st :
  trigger_effects env sid st
  = Call (CallGenerateTriggerJson sid st (now_trigger env))
    :: match ret_generate_trigger_json env with
       | Raises e =>
           [Log ERROR (Lit "Error generating forge trigger: " :: exn_text e)]
       | Returns tj =>
           Call (CallSaveTriggerToFile tj (trigger_file sid))
           :: match ret_save_trigger_to_file env with
              | Raises e =>
                  [Log ERROR (Lit "Error generating forge trigger: "
                              :: exn_text e)]
              | Returns _ =>
                  [Log INFO [Lit "Generated forge trigger for session ";
                             Fmt (of_option sid)]]
              end
       end.
Proof.
  unfold trigger_effects, probe, _execute_forge_trigger_generation. run.
  destruct (ret_generate_trigger_json env) as [v|e]; run;
    [destruct (ret_save_trigger_to_file env) as [v'|e]; run |]; done.
Qed.

Lemma processing_effects_cases env sid :
  processing_effects env sid
  = Call (CallProcessSession sid "1.0" (now_forge env))
    :: match ret_process_session env with
       | Raises e =>
           [Log ERROR (Lit "Error in forge processing: " :: exn_text e)]
       | Returns v =>
           Log INFO [Lit "Forge processing response: "; Fmt v]
           :: match v with
              | PDict d =>
                  if eq_str (dict_get d "status" PNone) "completed" then []
                  else [Log ERROR
                          [Lit "Forge processing failed: ";
                           Fmt (dict_get d "error" (PStr "Unknown error"))]]
              | _ => [Log ERROR (Lit "Error in forge processing: "
                                 :: exn_text (AttributeError v "get"))]
              end
       end.
Proof.
  unfold processing_effects, probe, _execute_forge_processing. run.
  destruct (ret_process_session env) as [v|e]; run; [|done].
  destruct v; run; try done.
  unfold dict_get. destruct (eq_str _ _); run; done.
Qed.

Lemma sleeps_app tr1 tr2 : sleeps (tr1 ++ tr2) = sleeps tr1 ++ sleeps tr2.
Proof. apply omap_app. Qed.

Lemma calls_app tr1 tr2 : calls (tr1 ++ tr2) = calls tr1 ++ calls tr2.
Proof. apply omap_app. Qed.

Lemma errors_app tr1 tr2 : errors (tr1 ++ tr2) = errors tr1 ++ errors tr2.
Proof. apply omap_app. Qed.

Lemma retrieval_effects_calls env sid :
  calls (retrieval_effects env sid) = [CallGetRandomPublishedWorkflow "diligent4"]
  /\ sleeps (retrieval_effects env sid) = [].
Proof.
  unfold retrieval_effects, probe, _retrieve_workflow_from_firestore. run.
  destruct (ret_get_random_published_workflow env) as [v|e]; run; [|done].
  destruct (truthy v) eqn:Ht; run; [|done].
  destruct (contains "workflow_data" v) as [[|]|e] eqn:Hc; run; [| |done].
  - destruct (getitem v "workflow_data") as [info|e] eqn:Hg; run; [|done].
    destruct v; try discriminate. destruct info; run; done.
  - destruct (keys v) as [ks|e] eqn:Hk; run; done.
Qed.

Lemma closing_events_quiet st wf :
  sleeps (closing_events st wf) = [3]
  /\ calls (closing_events st wf) = []
  /\ errors (closing_events st wf) = [].
Proof. unfold closing_events. by destruct (truthy wf). Qed.




Lemma trigger_effects_silent env sid st : Forall silent (trigger_effects env sid st).
Proof.
  rewrite trigger_effects_cases.
  destruct (ret_generate_trigger_json env);
    [destruct (ret_save_trigger_to_file env)|]; by repeat constructor.
Qed.

Lemma processing_effects_silent env sid : Forall silent (processing_effects env sid).
Proof.
  rewrite processing_effects_cases.
  destruct (ret_process_session env) as [v|e]; [|by repeat constructor].
  destruct v; try (by repeat constructor).
  destruct (eq_str _ _); by repeat constructor.
Qed.

Lemma retrieval_effects_silent env sid : Forall silent (retrieval_effects env sid).
Proof.
  destruct (retrieve_workflow_frame env sid (probe PNone)) as (es & wf & H & Hs).
  unfold retrieval_effects. by rewrite H.
Qed.

Lemma silent_no_sleep_in_helpers env sid st :
  sleeps (trigger_effects env sid st) = []
  /\ sleeps (processing_effects env sid) = [].
Proof.
  rewrite trigger_effects_cases, processing_effects_cases. split.
  - destruct (ret_generate_trigger_json env);
      [destruct (ret_save_trigger_to_file env)|]; done.
  - destruct (ret_process_session env) as [v|e]; [|done].
    destruct v; try done. by destruct (eq_str _ _).
Qed.

Lemma trigger_errors env sid st :
  errors (trigger_effects env sid st) = []
  <-> (exists tj, ret_generate_trigger_json env = Returns tj)
      /\ (exists v, ret_save_trigger_to_file env = Returns v).
Proof.
  rewrite trigger_effects_cases.
  destruct (ret_generate_trigger_json env) as [tj|e];
    [destruct (ret_save_trigger_to_file env) as [v|e]|]; cbn.
  - split; [eauto|done].
  - split; [done|]. by intros (_ & v & ?).
  - split; [done|]. by intros ((tj & ?) & _).
Qed.

Lemma processing_errors env sid :
  errors (processing_effects env sid) = []
  <-> exists resp, ret_process_session env = Returns (PDict resp)
                   /\ eq_str (dict_get resp "status" PNone) "completed" = true.
Proof.
  rewrite processing_effects_cases.
  destruct (ret_process_session env) as [v|e]; cbn;
    [|split; [done|]; by intros (? & ? & _)].
  destruct v; cbn; try (split; [done|]; by intros (? & ? & _)).
  destruct (eq_str _ _) eqn:He; cbn.
  - split; [eauto|done].
  - split; [done|]. intros (resp & [= <-] & H). congruence.
Qed.

Lemma retrieval_errors env sid :
  errors (retrieval_effects env sid) = []
  <-> exists d info, ret_get_random_published_workflow env = Returns (PDict d)
                     /\ d !! "workflow_data" = Some (PDict info).
Proof.
  split.
  - unfold retrieval_effects, probe, _retrieve_workflow_from_firestore. run.
    destruct (ret_get_random_published_workflow env) as [v|e]; run; [|done].
    destruct (truthy v) eqn:Ht; run; [|done].
    destruct (contains "workflow_data" v) as [[|]|e] eqn:Hc; run; [| |done].
    + destruct (getitem v "workflow_data") as [info|e] eqn:Hg; run; [|done].
      destruct v; try discriminate. destruct info; run; try done.
      intros _. eexists _, _. split; [done|].
      unfold getitem in Hg. by destruct (_ !! _); simplify_eq.
    + destruct (keys v) as [ks|e] eqn:Hk; run; done.
  - intros (d & info & Hr & Hd). unfold retrieval_effects.
    by rewrite (retrieve_real _ _ _ _ _ Hr Hd).
Qed.

Lemma stored_workflow_truthy d info : truthy (stored_workflow d info) = true.
Proof.
  apply (truthy_dict_lookup _ "workflow"
           (dict [("title", dict_get info "title" (PStr "Unknown Workflow"));
                  ("id", dict_get d "workflow_id" (PStr "unknown"));
                  ("score", dict_get info "productivity_score" (PFloat 0));
                  ("guide_markdown", dict_get info "guide_markdown" (PStr ""));
                  ("firestore_url", dict_get d "firestore_url" (PStr ""))])).
  rewrite list_to_map_cons. apply lookup_insert_eq.
Qed.

Lemma fallback_workflow_truthy : truthy fallback_workflow = true.
Proof. vm_compute. reflexivity. Qed.

Lemma retrieval_result_cases env sid old :
  retrieval_result env sid old = old
  \/ retrieval_result env sid old = fallback_workflow
  \/ exists d info, retrieval_result env sid old = stored_workflow d info.
Proof.
  unfold retrieval_result, probe, _retrieve_workflow_from_firestore. run.
  destruct (ret_get_random_published_workflow env) as [v|e]; run; [|by left].
  destruct (truthy v) eqn:Ht; run; [|by right; left].
  destruct (contains "workflow_data" v) as [[|]|e] eqn:Hc; run; [| |by left].
  - destruct (getitem v "workflow_data") as [info|e] eqn:Hg; run; [|by left].
    destruct v; try discriminate. destruct info; run; try (by left).
    right; right. eexists _, _. unfold stored_workflow, dict_get. reflexivity.
  - destruct (keys v) as [ks|e] eqn:Hk; run; [by right; left|by left].
Qed.

Lemma retrieval_result_shaped env sid old :
  result_shaped old -> result_shaped (retrieval_result env sid old).
Proof.
  intros Ho.
  destruct (retrieval_result_cases env sid old) as [->|[->|(d & info & ->)]];
    [done| |]; right;
    [apply fallback_workflow_truthy|apply stored_workflow_truthy].
Qed.

Lemma run_pipeline_new_effects env w :
  new_effects w (run_pipeline env w).2
  = pipeline_trace env (session_id (srv w)) (session_start_time (srv w))
                   (current_workflow (srv w)).
Proof. rewrite run_pipeline_explicit. apply new_effects_world. Qed.

(** X1. An uninterrupted run of [monitor_uploads_and_forge] never raises,
    whatever the collaborators answer. It leaves the session attributes,
    the threads and the schedule alone, records all twelve entries of the
    plan as completed, and appends to the trace, in this order: the upload
    stage, what the trigger helper appends, the announcement of the
    processing step, what the processing helper appends, the two timed
    stages, what the retrieval helper appends, and the closing events for
    the workflow stored at the end. The helpers are called with the
    session id and start time read when the run began. *)
Theorem pipeline_run_written_out env w :
  let sid := session_id (srv w) in
  let st := session_start_time (srv w) in
  exists l' w',
    run_pipeline env w = (Ok l', w')
    /\ completed_steps l' = (fun m => Step m "completed") <$> reported_plan
    /\ upload_status (srv w')
       = Status "Processing complete" false (completed_steps l')
    /\ same_session (srv w) (srv w')
    /\ pool w' = pool w /\ sched w' = sched w
    /\ new_effects w w'
       = upload_stage
         ++ trigger_effects env sid st
         ++ [progress 6]
         ++ processing_effects env sid
         ++ waiting_stage
         ++ retrieval_effects env sid
         ++ closing_events (upload_status (srv w')) (current_workflow (srv w')).
Proof.
  intros sid st. eexists _, _. split; [apply run_pipeline_explicit|].
  rewrite new_effects_world. destruct w as [[sa t i sc su sw] o p sch].
  repeat split.
Qed.

(** X2. Whatever the collaborators answer, a run sleeps the initial
    second, the duration of every upload step, the durations of the two
    forge steps that have no helper (5 and 2 seconds), and the final three
    seconds: 22 seconds in all. The declared durations of the three forge
    steps that run a helper (1, 2 and 1 seconds) are never slept. *)
Theorem pipeline_sleeps env w :
  sleeps (new_effects w (run_pipeline env w).2)
  = 1 :: (duration <$> upload_steps)
      ++ (duration <$> filter (fun s => negb (is_real_action s)) forge_steps)
      ++ [3]
  /\ sum_list (sleeps (new_effects w (run_pipeline env w).2)) = 22.
Proof.
  rewrite run_pipeline_new_effects. unfold pipeline_trace.
  rewrite !sleeps_app.
  destruct (silent_no_sleep_in_helpers env (session_id (srv w))
              (session_start_time (srv w))) as (-> & ->).
  destruct (retrieval_effects_calls env (session_id (srv w))) as (_ & ->).
  destruct (closing_events_quiet
              (nth 10 pipeline_snapshots (upload_status init_server))
              (retrieval_result env (session_id (srv w))
                 (current_workflow (srv w)))) as (-> & _).
  split; reflexivity.
Qed.

(** X3. The collaborator calls of a run, in order: the trigger is
    generated for the session id and start time read when the run began;
    it is saved to [trigger_<session id>.json] exactly when its generation
    returned; then, whether or not that worked, the session is processed
    with version 1.0, and a workflow of cohort diligent4 is fetched. *)
Theorem pipeline_calls env w :
  let sid := session_id (srv w) in
  calls (new_effects w (run_pipeline env w).2)
  = CallGenerateTriggerJson sid (session_start_time (srv w)) (now_trigger env)
    :: match ret_generate_trigger_json env with
       | Returns tj => [CallSaveTriggerToFile tj (trigger_file sid)]
       | Raises _ => []
       end
    ++ [CallProcessSession sid "1.0" (now_forge env);
        CallGetRandomPublishedWorkflow "diligent4"].
Proof.
  cbv zeta.
  rewrite run_pipeline_new_effects. unfold pipeline_trace.
  rewrite !calls_app.
  destruct (retrieval_effects_calls env (session_id (srv w))) as (-> & _).
  destruct (closing_events_quiet
              (nth 10 pipeline_snapshots (upload_status init_server))
              (retrieval_result env (session_id (srv w))
                 (current_workflow (srv w))))
    as (_ & -> & _).
  rewrite trigger_effects_cases, processing_effects_cases.
  destruct (ret_generate_trigger_json env) as [tj|e];
    [destruct (ret_save_trigger_to_file env)|];
    (destruct (ret_process_session env) as [r|e'];
     [destruct r; try reflexivity; by destruct (eq_str _ _)|reflexivity]).
Qed.

(** X4. A run logs nothing at level ERROR exactly when every collaborator
    answered as expected: the trigger was generated and saved, the forge
    answered with a dictionary whose status is completed, and the fetched
    response is a dictionary whose workflow_data is a dictionary. *)
Theorem pipeline_quiet_iff_healthy env w :
  errors (new_effects w (run_pipeline env w).2) = [] <-> healthy env.
Proof.
  rewrite run_pipeline_new_effects. unfold pipeline_trace, healthy.
  rewrite !errors_app.
  destruct (closing_events_quiet
              (nth 10 pipeline_snapshots (upload_status init_server))
              (retrieval_result env (session_id (srv w))
                 (current_workflow (srv w)))) as (_ & _ & ->).
  pose proof (trigger_errors env (session_id (srv w))
                (session_start_time (srv w))) as Ht.
  pose proof (processing_errors env (session_id (srv w))) as Hp.
  pose proof (retrieval_errors env (session_id (srv w))) as Hr.
  change (errors upload_stage) with (@nil text).
  change (errors [progress 6]) with (@nil text).
  change (errors waiting_stage) with (@nil text).
  rewrite !app_nil_l, !app_nil_r. split.
  - intros H. apply app_eq_nil in H as (H1 & H).
    apply app_eq_nil in H as (H2 & H3).
    apply Ht in H1 as (? & ?). apply Hp in H2. apply Hr in H3. done.
  - intros (Ha & Hb & Hc & Hd).
    rewrite (proj2 Ht), (proj2 Hp), (proj2 Hr); done.
Qed.



Lemma set_pool_set_pool p q w : set_pool p (set_pool q w) = set_pool p w.
Proof. by destruct w. Qed.

Lemma set_pool_id w : set_pool (pool w) w = w.
Proof. by destruct w. Qed.

Lemma pool_blind_keeps a l w : pool_blind a -> pool (a l w).2 = pool w.
Proof.
  intros H. specialize (H l w (pool w)). rewrite set_pool_id in H.
  destruct (a l w) as [r w']. cbn in *. injection H as H. by rewrite H at 1.
Qed.

Lemma execute_forge_step_blind env step : pool_blind (execute_forge_step env step).
Proof.
  intros l [s o p sc] q. unfold execute_forge_step.
  destruct (str_contains _ _);
    [|destruct (str_contains _ _); [|destruct (str_contains _ _)]].
  - erewrite !bind_ok by apply trigger_effects_spec. reflexivity.
  - erewrite !bind_ok by apply processing_effects_spec. reflexivity.
  - erewrite !bind_ok by apply retrieval_effects_spec. reflexivity.
  - reflexivity.
Qed.

Lemma monitor_pool_blind env : Forall pool_blind (monitor_uploads_and_forge env).
Proof.
  repeat constructor;
    first [ apply execute_forge_step_blind
          | by intros l [s o p sc] q
          | intros l [[sa st si sc su sw] o p sch] q; run;
            by destruct (truthy sw) ].
Qed.

Lemma run_actions_blind acts :
  Forall pool_blind acts ->
  forall l w p,
    run_actions acts l (set_pool p w)
    = ((run_actions acts l w).1, set_pool p (run_actions acts l w).2).
Proof.
  induction 1 as [|a acts Ha _ IH]; intros l w p; [done|].
  cbn [run_actions]. unfold bind. rewrite Ha.
  destruct (a l w) as [[l1|e] w1]; cbn [fst snd]; [apply IH | done].
Qed.

Lemma step_thread_at w n env l k (a : action) l1 w1 :
  pool w !! n = Some (Thread env l k) ->
  monitor_uploads_and_forge env !! k = Some a ->
  a l w = (Ok l1, w1) ->
  step_thread w n = set_pool (<[n := Thread env l1 (S k)]> (pool w1)) w1.
Proof.
  intros Hp Hk Ha. unfold step_thread. rewrite Hp.
  cbv beta iota zeta. cbn [th_env th_pc th_locals].
  rewrite Hk. by rewrite Ha.
Qed.

(** A thread that takes [m] steps in a row does what running its next [m]
    actions without interruption does. *)
Lemma thread_steps env n m :
  forall k l w l' w',
    pool w !! n = Some (Thread env l k) ->
    k + m <= 49 ->
    run_actions (take m (drop k (monitor_uploads_and_forge env))) l w
    = (Ok l', w') ->
    run_background (replicate m n) w
    = set_pool (<[n := Thread env l' (k + m)]> (pool w)) w'.
Proof.
  induction m as [|m IH]; intros k l w l' w' Hp Hk Hr.
  - cbn in Hr. injection Hr as <- <-. rewrite Nat.add_0_r.
    cbn. rewrite list_insert_id by done. by rewrite set_pool_id.
  - destruct (lookup_lt_is_Some_2 (monitor_uploads_and_forge env) k) as [a Ha];
      [rewrite monitor_length; lia|].
    rewrite (drop_S _ _ _ Ha) in Hr. cbn [take run_actions] in Hr.
    unfold bind in Hr. destruct (a l w) as [[l1|e] w1] eqn:Hal; [|done].
    assert (Hb : pool_blind a).
    { eapply Forall_lookup_1; [apply monitor_pool_blind | exact Ha]. }
    assert (Hw1 : pool w1 = pool w).
    { pose proof (pool_blind_keeps a l w Hb) as H. by rewrite Hal in H. }
    cbn [replicate]. unfold run_background. cbn [foldl].
    rewrite (step_thread_at _ _ _ _ _ _ _ _ Hp Ha Hal).
    fold (run_background (replicate m n)
            (set_pool (<[n:=Thread env l1 (S k)]> (pool w1)) w1)).
    assert (Hlt : n < length (pool w)) by (by eapply lookup_lt_Some).
    rewrite (IH (S k) l1 _ l'
               (set_pool (<[n:=Thread env l1 (S k)]> (pool w1)) w')).
    + rewrite set_pool_set_pool. cbn [pool set_pool].
      rewrite list_insert_insert_eq, Hw1. do 2 f_equal. f_equal. lia.
    + cbn [pool set_pool]. rewrite Hw1. by apply list_lookup_insert_eq.
    + lia.
    + rewrite run_actions_blind, Hr; [done|].
      apply Forall_take, Forall_drop, monitor_pool_blind.
Qed.

Lemma foldl_finish_idle js w :
  (forall i t, i ∈ js -> pool w !! i = Some t -> finished t) ->
  foldl (fun w i => finish_thread i w) w js = w.
Proof.
  induction js as [|i js IH]; intros H; [done|].
  cbn [foldl]. rewrite finish_thread_idle by (intros t; apply H; left).
  apply IH. intros j t Hj. apply H. by right.
Qed.

(** When only the youngest thread is still running, draining the pool is
    running the rest of that thread. *)
Lemma drain_last w p env l k l' w' :
  pool w = p ++ [Thread env l k] -> Forall finished p -> k <= 49 ->
  run_actions (drop k (monitor_uploads_and_forge env)) l w = (Ok l', w') ->
  drain w = set_pool (p ++ [Thread env l' 49]) w'.
Proof.
  intros Hp Hf Hk Hr. unfold drain. rewrite Hp, length_app. cbn [length].
  rewrite seq_app, foldl_app. cbn [seq foldl Nat.add].
  rewrite foldl_finish_idle.
  - unfold finish_thread.
    assert (Hn : pool w !! length p = Some (Thread env l k)).
    { rewrite Hp. by apply list_lookup_middle. }
    rewrite Hn. cbn [th_env th_pc]. rewrite monitor_length.
    rewrite (thread_steps env (length p) (49 - k) k l w l' w' Hn); [|lia|].
    + rewrite Hp. replace (k + (49 - k)) with 49 by lia.
      f_equal. by rewrite insert_app_r_alt, Nat.sub_diag.
    + rewrite take_ge; [done|]. rewrite length_drop, monitor_length. lia.
  - intros i t Hi Ht. apply elem_of_seq in Hi. rewrite Hp in Ht.
    rewrite lookup_app_l in Ht by lia.
    by eapply Forall_lookup_1 in Hf.
Qed.

Lemma first_yield env s o p j :
  j <= 2 ->
  yield (World s o (p ++ [Thread env fresh_locals 0]) [replicate j (length p)])
  = (Ok tt, World s o (p ++ [Thread env (reads j s) j]) []).
Proof.
  intros Hj. unfold yield. cbn [sched set_sched srv out pool].
  rewrite (thread_steps env (length p) j 0 fresh_locals _ (reads j s)
             (World s o (p ++ [Thread env fresh_locals 0]) [])).
  - unfold set_pool, set_sched. cbn [pool srv out sched Nat.add]. do 2 f_equal.
    by rewrite insert_app_r_alt, Nat.sub_diag.
  - by apply list_lookup_middle.
  - lia.
  - destruct j as [|[|[|j]]]; [done..|lia].
Qed.

Lemma stop_session_rest_first env s o p j :
  j <= 2 ->
  stop_session_rest
    (World s o (p ++ [Thread env fresh_locals 0]) [replicate j (length p)])
  = (Ok tt, World (cleared s)
                  (o ++ [Log INFO [Lit "Session stopped successfully"]])
                  (p ++ [Thread env (reads j s) j]) []).
Proof.
  intros Hj. unfold stop_session_rest.
  erewrite bind_ok by (by apply first_yield).
  destruct s. reflexivity.
Qed.

Lemma drop_reads_explicit env j s w :
  j <= 2 -> srv w = cleared s ->
  exists l',
    run_actions (drop j (monitor_uploads_and_forge env)) (reads j s) w
    = (Ok l', World (cycle_end env (l_session_id (reads j s)) s)
                (out w ++ pipeline_trace env (l_session_id (reads j s))
                            (l_session_start_time (reads j s))
                            (current_workflow s))
                (pool w) (sched w)).
Proof.
  intros Hj Hs. destruct w as [s0 o p sc]. cbn in Hs. subst s0.
  destruct s as [sa st si scl su sw].
  destruct j as [|[|[|j]]]; [| | |lia].
  - eexists.
    change (run_actions _ _) with (run_pipeline env).
    rewrite run_pipeline_explicit. reflexivity.
  - eexists.
    change (drop 1 (monitor_uploads_and_forge env)) with
      (take 1 (drop 1 (monitor_uploads_and_forge env)) ++ after_reads env).
    rewrite run_actions_app.
    change (run_actions (take 1 (drop 1 (monitor_uploads_and_forge env))) _ _)
      with (@Ok locals (Locals st None []),
            World (cleared (Server sa st si scl su sw)) o p sc).
    cbv beta iota. rewrite after_reads_explicit. reflexivity.
  - eexists.
    change (drop 2 (monitor_uploads_and_forge env)) with (after_reads env).
    unfold reads. cbn [Nat.leb].
    rewrite after_reads_explicit. reflexivity.
Qed.

(** A stop cycle in which the new thread takes [j <= 2] steps right after
    [Thread.start] and the rest once [stop_session] is done, written
    out. *)
Lemma stop_cycle_explicit env w w1 j :
  quiescent w -> j <= 2 ->
  sched w = [replicate j (length (pool w))] ->
  stop_session env w = (Ok tt, w1) ->
  exists es l',
    Forall silent es
    /\ w1 = World (cleared (srv w)) (out w ++ es)
                  (pool w ++ [Thread (pipeline env) (reads j (srv w)) j]) []
    /\ drain w1
       = World (cycle_end (pipeline env) (l_session_id (reads j (srv w))) (srv w))
               ((out w ++ es)
                ++ pipeline_trace (pipeline env)
                     (l_session_id (reads j (srv w)))
                     (l_session_start_time (reads j (srv w)))
                     (current_workflow (srv w)))
               (pool w ++ [Thread (pipeline env) l' 49]) [].
Proof.
  intros Hq Hj Hsc Hstop.
  assert (Hact : session_active (srv w) = true)
    by (by destruct (stop_session_ok _ _ _ Hstop)).
  destruct (stop_session_active env w Hact) as [(e & es & H & _)|(es & H & Hs)];
    [congruence|].
  rewrite H in Hstop. unfold started in Hstop. rewrite Hsc in Hstop.
  rewrite stop_session_rest_first in Hstop by done.
  injection Hstop as <-.
  set (W1 := World (cleared (srv w))
                ((out w ++ es) ++ [Log INFO [Lit "Session stopped successfully"]])
                (pool w ++ [Thread (pipeline env) (reads j (srv w)) j]) []).
  destruct (drop_reads_explicit (pipeline env) j (srv w) W1 Hj eq_refl)
    as (l' & Hrun).
  assert (Hk : j <= 49) by lia.
  exists (es ++ [Log INFO [Lit "Session stopped successfully"]]), l'.
  split; [apply Forall_app; split; [done|by repeat constructor]|].
  split; [unfold W1; by rewrite app_assoc|].
  rewrite (drain_last W1 (pool w) (pipeline env) (reads j (srv w)) j l' _
             eq_refl Hq Hk Hrun).
  unfold set_pool, W1. cbn [out srv pool sched]. by rewrite !app_assoc.
Qed.

(** X6. The pipeline reads the session id and start time in its first two
    statements, while [stop_session] clears them right after starting the
    thread, so what the helpers receive depends on the schedule. If the
    thread takes [j] steps after [Thread.start] and then waits until
    [stop_session] is done: for [j = 0] the trigger is generated for
    session id [None] and start time [None]; for [j = 1] for the real
    start time and session id [None]; for [j = 2] for both real values.
    In each case everything the stop cycle adds to the trace is what
    [stop_session] added followed by the whole pipeline trace for those
    values. *)
Theorem stop_cycle_ids env w w1 j :
  quiescent w -> j <= 2 ->
  sched w = [replicate j (length (pool w))] ->
  stop_session env w = (Ok tt, w1) ->
  let sid := if (2 <=? j)%nat then session_id (srv w) else None in
  let st := if (1 <=? j)%nat then session_start_time (srv w) else None in
  new_effects w (drain w1)
  = new_effects w w1
    ++ pipeline_trace (pipeline env) sid st (current_workflow (srv w))
  /\ calls (pipeline_trace (pipeline env) sid st (current_workflow (srv w))) !! 0
     = Some (CallGenerateTriggerJson sid st (now_trigger (pipeline env))).
Proof.
  intros Hq Hj Hsc Hstop. cbv zeta. split.
  2:{ unfold pipeline_trace. rewrite !calls_app, trigger_effects_cases.
      reflexivity. }
  destruct (stop_cycle_explicit env w w1 j Hq Hj Hsc Hstop)
    as (es & l' & _ & -> & ->).
  unfold new_effects. cbn [out].
  rewrite <- !app_assoc, !drop_app_length. reflexivity.
Qed.

Lemma stop_cycle_ids_witness :
  calls (pipeline_trace env_ok None None PNone) !! 0
  = Some (CallGenerateTriggerJson None None 100%Z).
Proof.
  exact (proj2 (stop_cycle_ids stop_ok
                  (World (srv w_active) [] [] [[]])
                  (stop_session stop_ok (World (srv w_active) [] [] [[]])).2 0
                  (Forall_nil_2 _) (Nat.le_0_l 2) eq_refl eq_refl)).
Defined.

Lemma start_session_cases env w :
  (session_active (srv w) = false /\ has_client env w /\ audio_started env
   /\ start_session env w
      = (Ok tt, World (session_opened env (srv w))
                      (out w ++ start_effects env (srv w)) (pool w) (sched w)))
  \/ (~ (session_active (srv w) = false /\ has_client env w /\ audio_started env)
      /\ exists e es,
           start_session env w
           = (Raised e,
              World (if command_client (srv w) then srv w
                     else match ret_BridgeClient env with
                          | None => if session_active (srv w) then srv w
                                    else set_command_client true (srv w)
                          | Some _ => srv w
                          end)
                    (out w ++ es) (pool w) (sched w))
           /\ Forall silent es).
Proof.
  destruct w as [[sa st si sc su sw] o p sch].
  unfold has_client, audio_started, start_session, session_opened, start_effects.
  cbn [srv session_active command_client upload_status current_workflow].
  destruct sa.
  { right. split; [by intros (? & _)|].
    exists (ValueError "Session is already active"), []. run.
    rewrite app_nil_r. by destruct sc, (ret_BridgeClient env). }
  assert (Haudio : forall s' o',
    (exists d, ret_start_audio_recording env = Returns (PDict d)
               /\ truthy (dict_get d "success" (PBool false)) = true)
    \/ (~ (exists d, ret_start_audio_recording env = Returns (PDict d)
               /\ truthy (dict_get d "success" (PBool false)) = true)
        /\ exists e es,
           (result <- invoke CallStartAudioRecording
                        (ret_start_audio_recording env);;
            success <- py (get result "success" (PBool false));;
            if negb (truthy success)
            then error <- py (get result "error" (PStr "Unknown error"));;
                 raise (Exn "RuntimeError"
                          [Lit "Failed to start session: "; Fmt error])
            else assign (set_session_active true);;
                 assign (set_session_start_time (Some (now_start env)));;
                 assign (set_session_id (Some (uuid4 env)));;
                 logger INFO [Lit "Session started successfully with ID: ";
                              Fmt (PStr (uuid4 env))])
             (World s' o' p sch)
           = (Raised e, World s' (o' ++ es) p sch) /\ Forall silent es)).
  { intros s' o'. destruct (ret_start_audio_recording env) as [v|e] eqn:Hv.
    2:{ right. split; [by intros (? & ? & _)|]. run.
        eexists _, _. split; [reflexivity|by repeat constructor]. }
    destruct v; try (right; split; [by intros (? & ? & _)|]; run;
      eexists _, _; split; [reflexivity|by repeat constructor]).
    destruct (truthy (dict_get d "success" (PBool false))) eqn:Ht.
    { left. eauto. }
    right. split; [intros (d' & [= <-] & H); congruence|]. run.
    unfold dict_get in Ht. rewrite Ht. run.
    eexists _, _. split; [reflexivity|by repeat constructor]. }
  destruct sc.
  - destruct (Haudio (Server false st si true su sw)
                (o ++ [Log INFO [Lit "Starting session via audio start command"]]))
      as [(d & Hd & Ht)|(Hn & e & es & Hr & Hs)].
    + left. split; [done|]. split; [by left|]. split; [eauto|]. run.
      rewrite Hd. run. unfold dict_get in Ht. rewrite Ht. run.
      by rewrite <- !app_assoc.
    + right. split; [by intros (_ & _ & ?)|].
      exists e, (Log INFO [Lit "Starting session via audio start command"] :: es).
      split; [|by constructor]. unfold bind at 1 2 3. cbn.
      unfold bind at 1. cbn. unfold bind at 1. cbn.
      unfold logger, perform, add_out at 1. cbn.
      etrans; [apply Hr|]. by rewrite <- app_assoc.
  - destruct (ret_BridgeClient env) as [e|] eqn:Hb.
    { right. split; [by intros (_ & [?|?] & _)|]. run.
      eexists _, _. split; [by rewrite <- app_assoc|by repeat constructor]. }
    destruct (Haudio (Server false st si true su sw)
                ((o ++ [Log INFO [Lit "Starting session via audio start command"]])
                 ++ [Call CallBridgeClient]))
      as [(d & Hd & Ht)|(Hn & e & es & Hr & Hs)].
    + left. split; [done|]. split; [by right|]. split; [eauto|]. run.
      rewrite Hd. run. unfold dict_get in Ht. rewrite Ht. run.
      by rewrite <- !app_assoc.
    + right. split; [by intros (_ & _ & ?)|].
      exists e, (Log INFO [Lit "Starting session via audio start command"]
                 :: Call CallBridgeClient :: es).
      split; [|by repeat constructor].
      unfold bind at 1 2 3. cbn.
      unfold bind at 1. cbn. unfold bind at 1. cbn.
      unfold logger, perform, add_out at 1. cbn.
      etrans; [apply Hr|]. by rewrite <- !app_assoc.
Qed.

Lemma handle_start_session_idle env w :
  session_active (srv w) = false ->
  handle_start_session env w
  = try_except
      (start_session env;;
       sid <- self session_id;;
       emit ToCaller "session_started"
            (SessionPayload sid "Session started successfully"))
      (fun e =>
         logger ERROR (Lit "Error starting session: " :: exn_text e);;
         emit ToCaller "session_error" (ErrorPayload (exn_text e))) w.
Proof.
  destruct w as [[sa st si sc su sw] o p sch]. cbn. intros ->.
  unfold handle_start_session, try_except, bind at 1, self. reflexivity.
Qed.

Lemma api_start_session_idle env w :
  session_active (srv w) = false ->
  api_start_session env w
  = try_except
      (start_session env;;
       sid <- self session_id;;
       ret (Response 200 (SessionBody sid "Session started successfully")))
      (fun e =>
         logger ERROR (Lit "Error starting session: " :: exn_text e);;
         ret (Response 500 (ErrorBody (exn_text e)))) w.
Proof.
  destruct w as [[sa st si sc su sw] o p sch]. cbn. intros ->.
  unfold api_start_session, try_except, bind at 1, self. reflexivity.
Qed.

(** X7. [start_session] returns exactly when the session is idle, a bridge
    client exists or can be created, and the audio start command returns a
    dictionary with a truthy ['success']. It then marks the session
    active with the fresh id and start time, keeps the client, the upload
    status and the stored workflow, and appends only log records and the
    collaborator calls. *)
Theorem start_session_succeeds_iff env w :
  ((exists w', start_session env w = (Ok tt, w'))
   <-> session_active (srv w) = false /\ has_client env w /\ audio_started env)
  /\ (forall w', start_session env w = (Ok tt, w') ->
        w' = World (session_opened env (srv w))
                   (out w ++ start_effects env (srv w)) (pool w) (sched w)).
Proof.
  destruct (start_session_cases env w)
    as [(Ha & Hc & Hs & Hr)|(Hn & e & es & Hr & _)]; rewrite Hr.
  - split; [split; [done|eauto]|]. by intros w' [= <-].
  - split; [split; [by intros (? & ?)|done]|]. by intros w' ?.
Qed.

(** X8. A [start_session] that raises leaves the session as it was: the
    active flag, the session id, the start time, the upload status, the
    stored workflow, the threads and the schedule are unchanged, nothing
    is emitted, and a bridge client that existed still exists. *)
Theorem start_session_failure_keeps_session env w e w' :
  start_session env w = (Raised e, w') ->
  session_active (srv w') = session_active (srv w)
  /\ session_id (srv w') = session_id (srv w)
  /\ session_start_time (srv w') = session_start_time (srv w)
  /\ upload_status (srv w') = upload_status (srv w)
  /\ current_workflow (srv w') = current_workflow (srv w)
  /\ pool w' = pool w /\ sched w' = sched w
  /\ Forall silent (new_effects w w')
  /\ (command_client (srv w) = true -> command_client (srv w') = true).
Proof.
  intros H.
  destruct (start_session_cases env w)
    as [(_ & _ & _ & Hr)|(_ & e' & es & Hr & Hs)]; rewrite Hr in H; [done|].
  injection H as <- <-. rewrite new_effects_world.
  destruct w as [[sa st si sc su sw] o p sch]. cbn.
  destruct sc; [done|]. destruct (ret_BridgeClient env); [done|].
  by destruct sa.
Qed.

Lemma start_session_failure_keeps_session_witness :
  session_active (srv (start_session start_ok w_active).2) = true
  /\ session_id (srv (start_session start_ok w_active).2) = Some "4f1c".
Proof.
  destruct (start_session_failure_keeps_session start_ok w_active
              (ValueError "Session is already active")
              (start_session start_ok w_active).2 eq_refl) as (H1 & H2 & _).
  split; [exact H1 | exact H2].
Defined.

(** X9. [handle_start_session] never raises. It answers the caller with
    exactly one event, the last thing it appends to the trace:
    [session_started] with the fresh session id when the session went from
    idle to active, and [session_error] otherwise, in which case the
    session attributes are unchanged. *)
Theorem handle_start_session_replies_once env w :
  exists w' quiet reply,
    handle_start_session env w = (Ok tt, w')
    /\ new_effects w w' = quiet ++ [reply]
    /\ Forall silent quiet
    /\ ((session_active (srv w) = false /\ session_active (srv w') = true
         /\ reply = Emit ToCaller "session_started"
                      (SessionPayload (Some (uuid4 env))
                                      "Session started successfully"))
        \/ (session_active (srv w') = session_active (srv w)
            /\ session_id (srv w') = session_id (srv w)
            /\ exists msg,
                 reply = Emit ToCaller "session_error" (ErrorPayload msg))).
Proof.
  destruct (session_active (srv w)) eqn:Ha.
  { exists (add_out (Emit ToCaller "session_error"
                       (ErrorPayload [Lit "Session is already active"])) w),
      [], (Emit ToCaller "session_error"
             (ErrorPayload [Lit "Session is already active"])).
    destruct w as [[sa st si sc su sw] o p sch]. cbn in Ha. subst sa.
    unfold new_effects. cbn. rewrite drop_app_length.
    repeat split; eauto 10. }
  rewrite (handle_start_session_idle _ _ Ha). unfold try_except.
  destruct (start_session_cases env w)
    as [(_ & _ & _ & Hr)|(_ & e & es & Hr & Hs)].
  - erewrite bind_ok by exact Hr. run. eexists _, _, _.
    split; [reflexivity|]. unfold new_effects. cbn.
    rewrite <- app_assoc, drop_app_length.
    split; [reflexivity|]. split; [|by left].
    unfold start_effects.
    destruct (command_client (srv w)); cbn [app]; by repeat constructor.
  - erewrite bind_raised by exact Hr.
    unfold bind, logger, emit, perform, add_out. cbn [srv out pool sched].
    eexists _, (es ++ [Log ERROR (Lit "Error starting session: " :: exn_text e)]),
      _.
    split; [reflexivity|]. unfold new_effects. cbn [out].
    rewrite <- !app_assoc, drop_app_length.
    split; [reflexivity|]. split.
    + apply Forall_app. split; [done|by repeat constructor].
    + right. destruct w as [[sa st si sc su sw] o p sch].
      cbn [srv session_active] in Ha. subst sa.
      cbn [srv session_active session_id command_client].
      destruct sc; [eauto|]. destruct (ret_BridgeClient env); eauto.
Qed.

(** X10. [api_start_session] never raises and emits nothing. It answers
    400 exactly when a session was already active (and then changes
    nothing at all), 200 exactly when the session went from idle to
    active, with the fresh session id in the body, and 500 otherwise. *)
Theorem api_start_session_codes env w :
  exists resp w',
    api_start_session env w = (Ok resp, w')
    /\ Forall silent (new_effects w w')
    /\ (code resp = 400 <-> session_active (srv w) = true)
    /\ (code resp = 400 -> w' = w)
    /\ (code resp = 200
        <-> session_active (srv w) = false /\ session_active (srv w') = true)
    /\ (code resp = 200 ->
        json resp = SessionBody (Some (uuid4 env)) "Session started successfully")
    /\ (code resp = 200 \/ success resp = false)
    /\ (code resp = 200 \/ code resp = 400 \/ code resp = 500).
Proof.
  destruct (session_active (srv w)) eqn:Ha.
  { exists (Response 400 (ErrorBody [Lit "Session is already active"])), w.
    destruct w as [[sa st si sc su sw] o p sch].
    cbn [srv session_active] in Ha. subst sa.
    split; [reflexivity|]. unfold new_effects. rewrite drop_all.
    split; [constructor|]. cbn [code json success].
    split; [done|]. split; [done|]. split; [split; [done|by intros [??]]|].
    split; [done|]. split; [by right|]. right; by left. }
  rewrite (api_start_session_idle _ _ Ha). unfold try_except.
  destruct (start_session_cases env w)
    as [(_ & _ & _ & Hr)|(_ & e & es & Hr & Hs)].
  - erewrite bind_ok by exact Hr. unfold bind, self, ret.
    cbn [srv session_id session_opened].
    eexists _, _. split; [reflexivity|]. rewrite new_effects_world.
    split; [unfold start_effects;
            destruct (command_client (srv w)); cbn [app];
            by repeat constructor|].
    cbn [code json success srv session_active].
    split; [done|]. split; [done|]. split; [done|].
    split; [done|]. split; by left.
  - erewrite bind_raised by exact Hr.
    unfold bind, logger, perform, ret, add_out. cbn [srv out pool sched].
    eexists _, _. split; [reflexivity|]. unfold new_effects. cbn [out].
    rewrite <- !app_assoc, drop_app_length.
    split; [apply Forall_app; split; [done|by repeat constructor]|].
    cbn [code json success srv].
    split; [done|]. split; [done|]. split.
    { split; [done|]. intros (_ & H).
      destruct w as [[sa st si sc su sw] o p sch].
      cbn [srv session_active] in Ha. subst sa.
      cbn [srv session_active command_client] in H.
      destruct sc; [done|]. by destruct (ret_BridgeClient env). }
    split; [done|]. split; [by right|]. right; by right.
Qed.

Lemma stop_audio_explicit env w :
  stop_audio env w
  = (match stop_audio_error env with Some e => Raised e | None => Ok tt end,
     World (srv w)
           (out w ++ Call CallStopAudioRecording :: stop_audio_warning env)
           (pool w) (sched w)).
Proof.
  destruct w as [s o p sc].
  unfold stop_audio, stop_audio_error, stop_audio_warning. run.
  destruct (ret_stop_audio_recording env) as [v|e]; run; [|done].
  destruct v; run; try done.
  unfold dict_get. destruct (truthy _); run; by rewrite <- ?app_assoc.
Qed.

Lemma stop_session_explicit env w :
  session_active (srv w) = true ->
  stop_session env w
  = if command_client (srv w) then
      match stop_audio_error env with
      | Some e =>
          (Raised e, World (srv w)
                       (out w ++ [log_stopping; Call CallStopAudioRecording])
                       (pool w) (sched w))
      | None =>
          stop_session_rest
            (started env w (log_stopping :: Call CallStopAudioRecording
                            :: stop_audio_warning env))
      end
    else stop_session_rest (started env w [log_stopping]).
Proof.
  intros Hact. unfold stop_session.
  erewrite bind_ok by reflexivity. rewrite Hact. cbn [negb].
  erewrite bind_ok by reflexivity.
  erewrite bind_ok by reflexivity. cbn [srv add_out].
  destruct (command_client (srv w)) eqn:Hc.
  - fold (stop_audio env).
    pose proof (stop_audio_explicit env (add_out log_stopping w)) as Heq.
    unfold log_stopping in Heq.
    destruct (stop_audio_error env) as [e|] eqn:He.
    + erewrite bind_raised by exact Heq.
      unfold add_out, stop_audio_warning, stop_audio_error in *.
      cbn [srv out pool sched].
      destruct (ret_stop_audio_recording env) as [[]|];
        try discriminate; by rewrite <- app_assoc.
    + erewrite bind_ok by exact Heq. erewrite bind_ok by reflexivity.
      unfold started, set_pool, add_out, log_stopping.
      cbn [srv out pool sched]. by rewrite <- app_assoc.
  - erewrite bind_ok by reflexivity. erewrite bind_ok by reflexivity.
    reflexivity.
Qed.

Lemma stop_session_raise_frame env w e w' :
  stop_session env w = (Raised e, w') ->
  srv w' = srv w /\ pool w' = pool w /\ sched w' = sched w
  /\ Forall silent (new_effects w w').
Proof.
  destruct (session_active (srv w)) eqn:Hact.
  2:{ rewrite (stop_session_idle _ _ Hact). intros [= <- <-].
      unfold new_effects. rewrite drop_all. by repeat split. }
  rewrite (stop_session_explicit _ _ Hact).
  destruct (command_client (srv w)) eqn:Hc.
  - destruct (stop_audio_error env) as [e0|] eqn:He.
    + intros [= <- <-]. rewrite new_effects_world.
      repeat split; by repeat constructor.
    + destruct (stop_session_rest_frame
                  (started env w (log_stopping :: Call CallStopAudioRecording
                                  :: stop_audio_warning env)))
        as (w1 & es1 & -> & _). done.
  - destruct (stop_session_rest_frame (started env w [log_stopping]))
      as (w1 & es1 & -> & _). done.
Qed.

(** X11. [stop_session] raises exactly when no session is active, or a
    bridge client exists and the audio stop command raises or answers
    with something that is no dictionary. An answer whose ['success'] is
    falsy is no reason to raise. When [stop_session] raises, the server,
    the threads and the schedule are as before (the session is still
    active if it was, and no pipeline has been started) and nothing was
    emitted. *)
Theorem stop_session_raises_iff env w :
  ((exists e w', stop_session env w = (Raised e, w'))
   <-> session_active (srv w) = false
       \/ (command_client (srv w) = true /\ stop_audio_error env <> None))
  /\ (forall e w', stop_session env w = (Raised e, w') ->
        srv w' = srv w /\ pool w' = pool w /\ sched w' = sched w
        /\ Forall silent (new_effects w w')).
Proof.
  split; [|apply stop_session_raise_frame].
  destruct (session_active (srv w)) eqn:Hact.
  2:{ rewrite (stop_session_idle _ _ Hact). split; [by left|eauto]. }
  rewrite (stop_session_explicit _ _ Hact).
  destruct (command_client (srv w)) eqn:Hc.
  - destruct (stop_audio_error env) as [e|] eqn:He.
    + split; [intros _; right; by split|eauto].
    + destruct (stop_session_rest_frame
                  (started env w (log_stopping :: Call CallStopAudioRecording
                                  :: stop_audio_warning env)))
        as (w1 & es1 & -> & _).
      split; [by intros (? & ? & ?)|by intros [?|[_ ?]]].
  - destruct (stop_session_rest_frame (started env w [log_stopping]))
      as (w1 & es1 & -> & _).
    split; [by intros (? & ? & ?)|by intros [?|[? _]]].
Qed.

(** X12. When the bridge answers the audio stop command with a dictionary
    whose ['success'] is falsy, [stop_session] logs a warning with the
    reported error and goes on as after a successful stop: it starts the
    pipeline thread, clears the session and returns. *)
Theorem stop_session_warns_and_goes_on env w d :
  session_active (srv w) = true ->
  command_client (srv w) = true ->
  ret_stop_audio_recording env = Returns (PDict d) ->
  truthy (dict_get d "success" (PBool false)) = false ->
  stop_session env w
  = stop_session_rest
      (started env w
         [log_stopping; Call CallStopAudioRecording;
          Log WARNING [Lit "Audio stop command failed: ";
                       Fmt (dict_get d "error" (PStr "Unknown error"))]])
  /\ exists w1,
       stop_session env w = (Ok tt, w1)
       /\ session_active (srv w1) = false
       /\ session_id (srv w1) = None
       /\ length (pool w1) = S (length (pool w)).
Proof.
  intros Hact Hc Hd Ht.
  assert (Heq : stop_session env w
                = stop_session_rest
                    (started env w
                       [log_stopping; Call CallStopAudioRecording;
                        Log WARNING
                          [Lit "Audio stop command failed: ";
                           Fmt (dict_get d "error" (PStr "Unknown error"))]])).
  { rewrite (stop_session_explicit _ _ Hact), Hc.
    unfold stop_audio_error, stop_audio_warning. by rewrite Hd, Ht. }
  split; [exact Heq|]. rewrite Heq.
  destruct (stop_session_rest_frame
              (started env w
                 [log_stopping; Call CallStopAudioRecording;
                  Log WARNING
                    [Lit "Audio stop command failed: ";
                     Fmt (dict_get d "error" (PStr "Unknown error"))]]))
    as (w1 & es1 & -> & _ & Hl & _ & Ha & _ & Hi & _).
  exists w1. repeat split; try done.
  rewrite Hl. unfold started. cbn [pool]. rewrite length_app. cbn. lia.
Qed.

Lemma stop_session_warns_and_goes_on_witness :
  exists w1,
    stop_session stop_refused w_active = (Ok tt, w1)
    /\ session_active (srv w1) = false
    /\ session_id (srv w1) = None
    /\ length (pool w1) = S (length (pool w_active)).
Proof.
  assert (H : truthy (dict_get (list_to_map [("success", PBool false);
                                             ("error", PStr "busy")])
                        "success" (PBool false)) = false)
    by (vm_compute; reflexivity).
  exact (proj2 (stop_session_warns_and_goes_on stop_refused w_active _
                  eq_refl eq_refl eq_refl H)).
Defined.

Lemma handle_stop_session_active_unfold env w :
  session_active (srv w) = true ->
  handle_stop_session env w
  = try_except (stop_session env)
      (fun e =>
         logger ERROR (Lit "Error stopping session: " :: exn_text e);;
         emit ToCaller "session_error" (ErrorPayload (exn_text e)))
      (add_out (stopped_event w) w).
Proof.
  destruct w as [[sa st si sc su sw] o p sch]. cbn. intros ->.
  unfold handle_stop_session, try_except, bind at 1, self. reflexivity.
Qed.

Lemma api_stop_session_active_unfold env w :
  session_active (srv w) = true ->
  api_stop_session env w
  = try_except
      (stop_session env;;
       yield;;
       sid <- self session_id;;
       ret (Response 200
              (SessionBody sid "Session stopped, processing workflow...")))
      (fun e =>
         logger ERROR (Lit "Error stopping session: " :: exn_text e);;
         ret (Response 500 (ErrorBody (exn_text e)))) w.
Proof.
  destruct w as [[sa st si sc su sw] o p sch]. cbn. intros ->.
  unfold api_stop_session, try_except, bind at 1, self. reflexivity.
Qed.

Lemma handle_stop_session_failed env w e :
  session_active (srv w) = true ->
  command_client (srv w) = true ->
  stop_audio_error env = Some e ->
  handle_stop_session env w
  = (Ok tt,
     World (srv w)
           (out w ++ [stopped_event w; log_stopping;
                      Call CallStopAudioRecording;
                      Log ERROR (Lit "Error stopping session: " :: exn_text e);
                      Emit ToCaller "session_error" (ErrorPayload (exn_text e))])
           (pool w) (sched w)).
Proof.
  intros Hact Hc He.
  rewrite (handle_stop_session_active_unfold _ _ Hact). unfold try_except.
  rewrite (stop_session_explicit env (add_out (stopped_event w) w) Hact).
  cbn [add_out srv out pool sched]. rewrite Hc, He.
  unfold bind, logger, emit, perform, add_out. cbn [srv out pool sched].
  by rewrite <- !app_assoc.
Qed.

(** X13. When the audio stop command fails with an exception during a
    Socket.IO stop, the caller has already been told [session_stopped]:
    the handler then logs the error and answers [session_error], the
    session stays active with its id, and no pipeline is started. The
    HTTP route answers 500 with the same text and emits nothing. *)
Theorem failed_stop_keeps_session_active env w e :
  session_active (srv w) = true ->
  command_client (srv w) = true ->
  stop_audio_error env = Some e ->
  handle_stop_session env w
  = (Ok tt,
     World (srv w)
           (out w ++ [stopped_event w; log_stopping;
                      Call CallStopAudioRecording;
                      Log ERROR (Lit "Error stopping session: " :: exn_text e);
                      Emit ToCaller "session_error" (ErrorPayload (exn_text e))])
           (pool w) (sched w))
  /\ api_stop_session env w
     = (Ok (Response 500 (ErrorBody (exn_text e))),
        World (srv w)
              (out w ++ [log_stopping; Call CallStopAudioRecording;
                         Log ERROR (Lit "Error stopping session: "
                                    :: exn_text e)])
              (pool w) (sched w)).
Proof.
  intros Hact Hc He. split; [by apply handle_stop_session_failed|].
  rewrite (api_stop_session_active_unfold _ _ Hact). unfold try_except.
  erewrite bind_raised
    by (rewrite (stop_session_explicit _ _ Hact), Hc, He; reflexivity).
  unfold bind, logger, ret, perform, add_out. cbn [srv out pool sched].
  by rewrite <- !app_assoc.
Qed.

Lemma failed_stop_keeps_session_active_witness :
  session_active (srv (handle_stop_session stop_broken w_active).2) = true
  /\ pool (handle_stop_session stop_broken w_active).2 = [].
Proof.
  destruct (failed_stop_keeps_session_active stop_broken w_active
              (Exn "BrokenPipeError" [Lit "bridge gone"])
              eq_refl eq_refl eq_refl) as (H & _).
  rewrite H. split; reflexivity.
Defined.

(** X14. [api_get_status] never raises and changes nothing on the server;
    it asks the bridge whether it is running exactly when a bridge client
    exists. Without a client it reports [bridge_connected] false; with
    one it reports what the bridge answered, or answers 500 with the text
    of the exception the bridge raised. *)
Theorem api_get_status_read_only bridge w :
  exists resp,
    api_get_status bridge w
    = (Ok resp,
       World (srv w)
             (out w ++ (if command_client (srv w)
                        then [Call CallIsBridgeRunning] else []))
             (pool w) (sched w))
    /\ resp
       = match (if command_client (srv w) then bridge
                else Returns (PBool false)) with
         | Returns v =>
             Response 200
               (StatusBody (session_active (srv w)) (session_id (srv w)) v
                           (is_not_None (current_workflow (srv w))))
         | Raises e => Response 500 (ErrorBody (exn_text e))
         end.
Proof.
  destruct w as [[sa st si sc su sw] o p sch]. unfold api_get_status. run.
  destruct sc; run; [destruct bridge; run|];
    eexists; (split; [rewrite ?app_nil_r; reflexivity|reflexivity]).
Qed.

Lemma response_classes v :
  absent v
  \/ (exists d info, v = PDict d /\ d !! "workflow_data" = Some (PDict info))
  \/ malformed v.
Proof.
  destruct (truthy v) eqn:Ht; [|by left; left].
  destruct v as [| | | | |l|d];
    try (right; right; split; [done|left; by intros]).
  destruct (d !! "workflow_data") as [info|] eqn:Hd; [|left; right; eauto].
  destruct info as [| | | | | |i];
    try (right; right; split; [done|right; eexists _, _;
         repeat split; [done|by intros]]).
  right; left. eauto.
Qed.

Lemma retrieve_unreadable env sid w v :
  ret_get_random_published_workflow env = Returns v -> malformed v ->
  exists msg,
    _retrieve_workflow_from_firestore env sid w
    = (Ok tt,
       World (srv w)
             (out w ++ [call_retrieve;
                        Log ERROR (Lit "Error retrieving workflow: " :: msg)])
             (pool w) (sched w)).
Proof.
  intros Hr (Ht & Hm). destruct w as [[sa st si sc su sw] o p sch].
  destruct Hm as [Hn|(d & info & -> & Hd & Hn)].
  2:{ eexists. apply (retrieve_malformed _ _ _ _ _ Hr Hd Hn). }
  unfold _retrieve_workflow_from_firestore. run. rewrite Hr. run.
  rewrite Ht. run.
  destruct v as [| | | | |l|d]; try discriminate; run;
    try (eexists; by rewrite <- app_assoc).
  - destruct (str_contains _ _); run; eexists; by rewrite <- app_assoc.
  - destruct (existsb _ _); run; eexists; by rewrite <- app_assoc.
  - by destruct (Hn d).
Qed.

(** X15. What the retrieval stores, by the class of the response of the
    Firestore client. If the client raises, the stored result is kept. A
    returned value is absent (falsy, or a dictionary without
    ['workflow_data']) and the fallback is stored; or it is well formed
    and the workflow built from it is stored; or it is malformed (truthy
    but no dictionary, or a dictionary whose ['workflow_data'] is no
    dictionary): then nothing is stored, not even the fallback, and one
    ERROR record is logged. There is no other case. *)
Theorem retrieval_by_response_class env sid w :
  let w' := (_retrieve_workflow_from_firestore env sid w).2 in
  match ret_get_random_published_workflow env with
  | Raises _ => current_workflow (srv w') = current_workflow (srv w)
  | Returns v =>
      (absent v /\ current_workflow (srv w') = fallback_workflow)
      \/ (exists d info,
            v = PDict d /\ d !! "workflow_data" = Some (PDict info)
            /\ current_workflow (srv w') = stored_workflow d info)
      \/ (malformed v
          /\ srv w' = srv w
          /\ exists msg,
               new_effects w w'
               = [call_retrieve;
                  Log ERROR (Lit "Error retrieving workflow: " :: msg)])
  end.
Proof.
  cbv zeta.
  destruct (ret_get_random_published_workflow env) as [v|e] eqn:Hr.
  2:{ by rewrite (retrieve_raises _ _ _ _ Hr). }
  destruct (response_classes v) as [Ha|[(d & info & -> & Hd)|Hm]].
  - left. split; [done|]. exact (retrieve_absent _ _ _ _ Hr Ha).
  - right; left. exists d, info. repeat split; [done|].
    exact (retrieve_real_workflow _ _ _ _ _ Hr Hd).
  - right; right. split; [done|].
    destruct (retrieve_unreadable env sid w v Hr Hm) as (msg & ->).
    split; [done|]. exists msg. apply new_effects_world.
Qed.







Lemma deliver_app tr1 tr2 p : deliver (tr1 ++ tr2) p = deliver tr2 (deliver tr1 p).
Proof. apply foldl_app. Qed.

Lemma deliver_silent es p : Forall silent es -> deliver es p = p.
Proof.
  intros H. revert p. induction H as [|e es He _ IH]; intros p; [done|].
  cbn [deliver foldl]. destruct e; try done; apply IH.
Qed.

(** The page once the events of a pipeline run have arrived. *)
Lemma deliver_pipeline_trace env sid st old p :
  deliver (pipeline_trace env sid st old) p
  = deliver (closing_events
               (nth 10 pipeline_snapshots (upload_status init_server))
               (retrieval_result env sid old))
            (displayUploadStatus (done_steps 10
                                  ++ [Step "Retrieving processed workflow..."
                                           "uploading"]) p).
Proof.
  unfold pipeline_trace. rewrite !deliver_app.
  rewrite (deliver_silent _ _ (trigger_effects_silent env sid st)).
  rewrite (deliver_silent _ _ (processing_effects_silent env sid)).
  rewrite (deliver_silent _ _ (retrieval_effects_silent env sid)).
  reflexivity.
Qed.

Lemma deliver_closing_events wf p :
  result_shaped wf ->
  let p' := deliver (closing_events
                       (nth 10 pipeline_snapshots (upload_status init_server)) wf)
                    p in
  sessionActive p' = sessionActive p
  /\ sessionBtn_disabled p'
     = (if is_not_None wf then false else sessionBtn_disabled p)
  /\ sessionBtn_text p'
     = (if is_not_None wf then "START SESSION" else sessionBtn_text p)
  /\ sessionBtn_class p' = sessionBtn_class p
  /\ uploadStatus_shown p' = negb (is_not_None wf)
  /\ uploadSteps p' = all_completed
  /\ workflowData p' = (if is_not_None wf then wf else workflowData p).
Proof.
  intros [->|Ht]; cbv zeta; unfold closing_events.
  - destruct p. vm_compute. by repeat split.
  - rewrite Ht. destruct p. destruct wf; try discriminate; by repeat split.
Qed.

Lemma handle_stop_session_stopped env w w1 :
  session_active (srv w) = true ->
  handle_stop_session env w = (Ok tt, w1) ->
  session_active (srv w1) = false ->
  stop_session env (add_out (stopped_event w) w) = (Ok tt, w1).
Proof.
  intros Hact Hh Hoff.
  rewrite (handle_stop_session_active_unfold _ _ Hact) in Hh.
  unfold try_except in Hh.
  destruct (stop_session env (add_out (stopped_event w) w))
    as [[[]|e] w'] eqn:Hs; [done|].
  destruct (stop_session_raise_frame env _ e w' Hs) as (Hsrv & _).
  exfalso. unfold bind, logger, emit, perform, add_out in Hh, Hsrv.
  cbn [srv out pool sched] in Hh, Hsrv. injection Hh as <-.
  cbn [srv] in Hoff. congruence.
Qed.

(** X18. The page of the client that stopped a session over Socket.IO,
    once every event of the stop cycle has arrived (the new thread takes
    [j <= 2] steps right after [Thread.start], the rest after
    [stop_session]). If the server has a stored result at the end, the
    button reads START SESSION and is enabled, and the progress list is
    hidden. If it has none, no [workflow_ready] arrives and
    [upload_complete] has no handler: the button stays disabled and reads
    ANALYZING..., with the progress list on display. In both cases the
    button keeps the class it had during the session, and the progress
    list holds the twelve completed entries of the plan. *)
Theorem page_after_stop_cycle env w w1 j p :
  quiescent w -> j <= 2 ->
  sched w = [replicate j (length (pool w))] ->
  session_active (srv w) = true ->
  handle_stop_session env w = (Ok tt, w1) ->
  session_active (srv w1) = false ->
  result_shaped (current_workflow (srv w)) ->
  let wf := current_workflow (srv (drain w1)) in
  let p' := deliver (new_effects w (drain w1)) p in
  sessionActive p' = false
  /\ sessionBtn_disabled p' = negb (is_not_None wf)
  /\ sessionBtn_text p'
     = (if is_not_None wf then "START SESSION" else "ANALYZING...")
  /\ sessionBtn_class p' = sessionBtn_class p
  /\ uploadStatus_shown p' = negb (is_not_None wf)
  /\ uploadSteps p' = (fun m => Step m "completed") <$> reported_plan
  /\ workflowData p' = (if is_not_None wf then wf else workflowData p).
Proof.
  intros Hq Hj Hsc Hact Hh Hoff Hshape. cbv zeta.
  pose proof (handle_stop_session_stopped env w w1 Hact Hh Hoff) as Hs.
  destruct (stop_cycle_explicit env (add_out (stopped_event w) w) w1 j
              Hq Hj Hsc Hs) as (es & l' & Hsil & -> & ->).
  unfold new_effects, add_out. cbn [out srv pool sched].
  rewrite <- !app_assoc, drop_app_length, !deliver_app.
  rewrite (deliver_silent es _ Hsil), deliver_pipeline_trace.
  set (sid := l_session_id (reads j (srv w))).
  assert (Hwf : current_workflow (cycle_end (pipeline env) sid (srv w))
                = retrieval_result (pipeline env) sid (current_workflow (srv w)))
    by (by destruct (srv w)).
  rewrite Hwf.
  pose proof (retrieval_result_shaped (pipeline env) sid _ Hshape) as Hsh.
  destruct (deliver_closing_events _
              (displayUploadStatus
                 (done_steps 10
                  ++ [Step "Retrieving processed workflow..." "uploading"])
                 (deliver [stopped_event w] p)) Hsh)
    as (-> & -> & -> & -> & -> & -> & ->).
  destruct p. repeat split; by destruct (is_not_None _).
Qed.

Lemma stop_down_stores_nothing :
  handle_stop_session stop_down w_unpreempted
  = (Ok tt, (handle_stop_session stop_down w_unpreempted).2)
  /\ session_active (srv (handle_stop_session stop_down w_unpreempted).2) = false
  /\ is_not_None (current_workflow
                    (srv (drain (handle_stop_session stop_down w_unpreempted).2)))
     = false.
Proof. vm_compute. done. Qed.

Lemma page_after_stop_cycle_witness :
  sessionBtn_disabled
    (deliver (new_effects w_unpreempted
                (drain (handle_stop_session stop_down w_unpreempted).2))
             (on_session_started initial_page)) = true
  /\ sessionBtn_text
       (deliver (new_effects w_unpreempted
                   (drain (handle_stop_session stop_down w_unpreempted).2))
                (on_session_started initial_page)) = "ANALYZING...".
Proof.
  destruct stop_down_stores_nothing as (Hh & Hoff & Hwf).
  destruct (page_after_stop_cycle stop_down w_unpreempted _ 0
              (on_session_started initial_page)
              (Forall_nil_2 _) (Nat.le_0_l 2) eq_refl eq_refl Hh Hoff
              (or_introl eq_refl)) as (_ & H2 & H3 & _).
  rewrite H2, H3, Hwf. split; reflexivity.
Defined.

Lemma stored_workflow_fields d info :
  js_get (stored_workflow d info) "workflow"
  = dict [("title", dict_get info "title" (PStr "Unknown Workflow"));
          ("id", dict_get d "workflow_id" (PStr "unknown"));
          ("score", dict_get info "productivity_score" (PFloat 0));
          ("guide_markdown", dict_get info "guide_markdown" (PStr ""));
          ("firestore_url", dict_get d "firestore_url" (PStr ""))]
  /\ js_get (stored_workflow d info) "source"
     = dict_get d "source" (PStr "firestore").
Proof.
  unfold stored_workflow, dict, js_get. rewrite !list_to_map_cons.
  split.
  - by rewrite lookup_insert_eq.
  - rewrite lookup_insert_ne by done. by rewrite lookup_insert_eq.
Qed.

Lemma inner_workflow_fields (t i s g u : pyval) :
  let wf := dict [("title", t); ("id", i); ("score", s);
                  ("guide_markdown", g); ("firestore_url", u)] in
  js_get wf "title" = t /\ js_get wf "id" = i /\ js_get wf "score" = s
  /\ js_get wf "guide_markdown" = g /\ js_get wf "firestore_url" = u.
Proof.
  cbv zeta. unfold dict, js_get. rewrite !list_to_map_cons.
  repeat split;
    repeat (rewrite lookup_insert_ne by done); by rewrite lookup_insert_eq.
Qed.

(** X19. What the page shows for a workflow the server built from a well
    formed response, when the six values the server stores are scalars
    that cross the wire unchanged (no integer beyond 2^53, which the page
    would round): [displayWorkflow] is then run on the object the server
    stored. The server's defaults decide: a missing title shows as
    Unknown Workflow and a missing id as unknown (the page's own defaults
    for them are never used), a missing or zero productivity score shows
    as N/A, a missing source as firestore, and the Firestore link is
    shown exactly when the response had a non-empty ['firestore_url']. *)
Theorem displayed_workflow d info p :
  let title := dict_get info "title" (PStr "Unknown Workflow") in
  let id := dict_get d "workflow_id" (PStr "unknown") in
  let score := dict_get info "productivity_score" (PFloat 0) in
  let guide := dict_get info "guide_markdown" (PStr "") in
  let source := dict_get d "source" (PStr "firestore") in
  let url := dict_get d "firestore_url" (PStr "") in
  forallb crosses_unchanged [title; id; score; guide; source; url] = true ->
  workflowCard (displayWorkflow (stored_workflow d info) p)
  = Some (Card (js_or title (PStr "Workflow Complete"))
               (js_or id (PStr "N/A"))
               (js_or score (PStr "N/A"))
               (js_or source (PStr "Firestore"))
               (if js_truthy guide then "Yes" else "No")
               (if js_truthy url then Some url else None))
  /\ (info !! "title" = None -> js_or title (PStr "Workflow Complete")
                                = PStr "Unknown Workflow")
  /\ (d !! "workflow_id" = None -> js_or id (PStr "N/A") = PStr "unknown")
  /\ (info !! "productivity_score" = None ->
      js_or score (PStr "N/A") = PStr "N/A")
  /\ (d !! "source" = None -> js_or source (PStr "Firestore") = PStr "firestore")
  /\ (d !! "firestore_url" = None -> js_truthy url = false).
Proof.
  cbv zeta. intros _. split.
  - unfold displayWorkflow, statements. cbn [foldl].
    destruct (stored_workflow_fields d info) as (-> & ->).
    assert (Hobj : forall items other,
              js_or (dict items) other = dict items) by done.
    rewrite Hobj.
    destruct (inner_workflow_fields
                (dict_get info "title" (PStr "Unknown Workflow"))
                (dict_get d "workflow_id" (PStr "unknown"))
                (dict_get info "productivity_score" (PFloat 0))
                (dict_get info "guide_markdown" (PStr ""))
                (dict_get d "firestore_url" (PStr "")))
      as (-> & -> & -> & -> & ->).
    reflexivity.
  - unfold dict_get. repeat split; by intros ->.
Qed.

Lemma sample_crosses_unchanged :
  forallb crosses_unchanged
    [dict_get sample_info "title" (PStr "Unknown Workflow");
     dict_get sample_response "workflow_id" (PStr "unknown");
     dict_get sample_info "productivity_score" (PFloat 0);
     dict_get sample_info "guide_markdown" (PStr "");
     dict_get sample_response "source" (PStr "firestore");
     dict_get sample_response "firestore_url" (PStr "")] = true.
Proof. vm_compute. reflexivity. Qed.

Lemma displayed_workflow_witness :
  workflowCard (displayWorkflow (stored_workflow sample_response sample_info)
                                initial_page)
  = Some (Card (PStr "Release checklist") (PStr "wf-17") (PFloat 0.5)
               (PStr "firestore") "Yes" None).
Proof.
  destruct (displayed_workflow sample_response sample_info initial_page
              sample_crosses_unchanged) as (H & _).
  rewrite H. vm_compute. reflexivity.
Defined.

Lemma handle_start_session_refused env w :
  session_active (srv w) = true ->
  handle_start_session env w
  = (Ok tt,
     World (srv w)
           (out w ++ [Emit ToCaller "session_error"
                        (ErrorPayload [Lit "Session is already active"])])
           (pool w) (sched w)).
Proof.
  destruct w as [[sa st si sc su sw] o p sch]. cbn. by intros ->.
Qed.

(** X20. When the audio stop command fails with an exception during a
    Socket.IO stop, page and server disagree from then on: the server's
    session is still active, while the page, which handled
    [session_stopped] before [session_error], holds [sessionActive]
    false and an enabled button. The next click therefore sends
    [start_session]; the server refuses it, and page and server are in the
    same state as before the click. The page can no longer send
    [stop_session]. *)
Theorem failed_stop_desynchronises env senv w e p :
  session_active (srv w) = true ->
  command_client (srv w) = true ->
  stop_audio_error env = Some e ->
  let w1 := (handle_stop_session env w).2 in
  let p1 := deliver (new_effects w w1) p in
  let w2 := (handle_start_session senv w1).2 in
  let p2 := deliver (new_effects w1 w2) (toggleSession p1).1 in
  session_active (srv w1) = true
  /\ sessionActive p1 = false
  /\ sessionBtn_disabled p1 = false
  /\ sessionBtn_text p1 = "ANALYZING..."
  /\ (toggleSession p1).2 = "start_session"
  /\ srv w2 = srv w1 /\ pool w2 = pool w1
  /\ sessionActive p2 = false
  /\ sessionBtn_disabled p2 = false
  /\ sessionBtn_text p2 = "ANALYZING..."
  /\ (toggleSession p2).2 = "start_session".
Proof.
  intros Hact Hc He. cbv zeta.
  rewrite (handle_stop_session_failed env w e Hact Hc He). cbn [snd].
  rewrite handle_start_session_refused by exact Hact. cbn [snd srv pool].
  rewrite !new_effects_world.
  destruct p. by repeat split.
Qed.

Lemma failed_stop_desynchronises_witness :
  session_active (srv (handle_stop_session stop_broken w_active).2) = true
  /\ sessionActive
       (deliver (new_effects w_active
                   (handle_stop_session stop_broken w_active).2)
                (on_session_started initial_page)) = false.
Proof.
  destruct (failed_stop_desynchronises stop_broken start_ok w_active
              (Exn "BrokenPipeError" [Lit "bridge gone"])
              (on_session_started initial_page) eq_refl eq_refl eq_refl)
    as (H1 & H2 & _).
  split; [exact H1 | exact H2].
Defined.

(** X21. The script and the server read different keys. When the server
    object can be constructed, for a response the server takes as well
    formed (a dictionary whose ['workflow_data'] is a dictionary) that has
    no ['workflow'] key, the script prints five lines and returns: its
    two opening lines, that a response was retrieved, the keys of the
    response (in some order), and [ERROR: No 'workflow' key in data];
    the retrieval, for the same response, stores the workflow built from
    it. *)
Theorem test_script_rejects_what_server_accepts
    len preview ienv server env sid w d info :
  __init__ ienv = Ok server ->
  ret_get_random_published_workflow env = Returns (PDict d) ->
  d !! "workflow_data" = Some (PDict info) ->
  d !! "workflow" = None ->
  (exists ks,
     ks ≡ₚ (fst <$> map_to_list d)
     /\ test_workflow_retrieval len preview ienv
          (ret_get_random_published_workflow env)
        = ([[Lit "Testing workflow retrieval..."];
            [Lit "Firestore client initialized: "; Fmt (PBool true)];
            [Lit "Workflow data retrieved: "; Fmt (PBool true)];
            [Lit "Workflow structure: "; Fmt (PList (PStr <$> ks))];
            [Lit "ERROR: No 'workflow' key in data"]], Ok tt))
  /\ current_workflow (srv (_retrieve_workflow_from_firestore env sid w).2)
     = stored_workflow d info.
Proof.
  intros Hi Hr Hd Hn. split; [|exact (retrieve_real_workflow _ _ _ _ _ Hr Hd)].
  exists (fst <$> map_to_list d). split; [done|].
  rewrite Hr. unfold test_workflow_retrieval. rewrite Hi.
  unfold and_then, attempt, print, lift, say. cbn [negb app].
  rewrite (truthy_dict_lookup _ _ _ Hd).
  cbn [keys contains app]. rewrite Hn.
  rewrite bool_decide_eq_false_2 by (by intros [? ?]).
  reflexivity.
Qed.

Lemma test_script_rejects_what_server_accepts_witness :
  (exists ks,
     ks ≡ₚ (fst <$> map_to_list sample_response)
     /\ test_workflow_retrieval (fun _ => Ok PNone) (fun _ => Ok PNone) init_ok
          (ret_get_random_published_workflow env_ok)
        = ([[Lit "Testing workflow retrieval..."];
            [Lit "Firestore client initialized: "; Fmt (PBool true)];
            [Lit "Workflow data retrieved: "; Fmt (PBool true)];
            [Lit "Workflow structure: "; Fmt (PList (PStr <$> ks))];
            [Lit "ERROR: No 'workflow' key in data"]], Ok tt))
  /\ current_workflow
       (srv (_retrieve_workflow_from_firestore env_ok None w_init).2)
     = stored_workflow sample_response sample_info.
Proof.
  assert (H1 : sample_response !! "workflow_data" = Some (PDict sample_info))
    by (vm_compute; reflexivity).
  assert (H2 : sample_response !! "workflow" = None)
    by (vm_compute; reflexivity).
  exact (test_script_rejects_what_server_accepts
           (fun _ => Ok PNone) (fun _ => Ok PNone) init_ok
           (Instance false 0 w_init) env_ok None w_init
           sample_response sample_info eq_refl eq_refl H1 H2).
Defined.
